(** * mini: lexer, parser and tree-walking evaluator

    A shallow embedding of [src/lexer.py], [src/parser.py], [src/ast.py],
    [src/atoms.py] and [src/evaluator.py], with the properties of the
    language description stated and settled against it.

    Conventions of the embedding.
    - Python objects that are compared by identity or mutated in place
      (atoms, environments) live in a store and are named by references.
    - A Python exception is the [Raise] outcome; recursion that Python does
      not bound is bounded here by a fuel argument, with [OutOfFuel] as a
      third outcome that never stands for a Python result.
    - Source text is a list of characters with code points 0 to 255; on
      these, Python's [str.isalnum], [str.isalpha], [str.isdigit],
      [str.isdecimal] and [str.isnumeric] are the predicates defined below.
    - [dprint] only prints when the debug flag is set, but Python builds its
      argument first: the formatters an f-string names are called whatever
      the flag is.  [formatted_str] and [raw_str] are defined by no class of
      [ast.py] or [atoms.py], and [ast.py] gives an atomic node the
      attribute [valueType], not [type]: reading them raises
      [AttributeError], and the embedding raises it where the source does.
    - An error message that prints a node or a value carries the text
      Python prints, where the files at hand decide it. *)

From Stdlib Require Import ZArith List String Ascii Bool Lia.
From Stdlib Require Import Floats.SpecFloat.
From stdpp Require Import base option list gmap strings pretty.

Set Warnings "-register-all".

Open Scope string_scope.
Open Scope Z_scope.

(** ** The host: outcomes, exceptions, values *)

Inductive exn := PyExc (cls : string) (msg : string).

Inductive result (A : Type) : Type :=
| Ok (a : A)
| Raise (e : exn)
| OutOfFuel.
Arguments Ok {A} a.
Arguments Raise {A} e.
Arguments OutOfFuel {A}.

(** State-and-exception monad shared by the three stages. *)
Definition M (S A : Type) : Type := S -> result (A * S).

Definition ret {S A} (a : A) : M S A := fun s => Ok (a, s).
Definition bind {S A B} (m : M S A) (k : A -> M S B) : M S B :=
  fun s => match m s with
           | Ok (a, s') => k a s'
           | Raise e => Raise e
           | OutOfFuel => OutOfFuel
           end.
Definition raise {S A} (cls msg : string) : M S A := fun _ => Raise (PyExc cls msg).
Definition out_of_fuel {S A} : M S A := fun _ => OutOfFuel.
Definition get {S} : M S S := fun s => Ok (s, s).
Definition lift {S A} (r : result A) : M S A :=
  fun s => match r with
           | Ok a => Ok (a, s)
           | Raise e => Raise e
           | OutOfFuel => OutOfFuel
           end.

Notation "x <- c1 ;; c2" := (bind c1 (fun x => c2))
  (at level 65, c1 at next level, right associativity).
Notation "c1 ;;; c2" := (bind c1 (fun _ => c2))
  (at level 65, right associativity).

(** References into the store of atoms and of environments. *)
Definition ref := nat.

(** Payloads: the Python values a token, an atomic node or a value atom
    carries.  A float is an IEEE-754 double, given by its sign, mantissa and
    exponent; a list holds references to atoms, as a Python list holds
    pointers to objects. *)
Inductive PyVal :=
| PyNone
| PyBool (b : bool)
| PyInt (z : Z)
| PyFloat (f : spec_float)
| PyStr (s : string)
| PyList (l : list ref)
| PyDict (d : gmap string ref).

Definition prec : Z := 53.
Definition emax : Z := 1024.

(** The double nearest to [n / d]: the quotient is taken with at least 64
    bits and a sticky last bit, then rounded once. *)
Definition float_of_ratio (n : Z) (d : positive) : spec_float :=
  if n =? 0 then S754_zero false
  else
    let s := Z.max 0 (64 + Z.log2 (Zpos d) - Z.log2 n) in
    let q := (n * 2 ^ s) / Zpos d in
    let r := (n * 2 ^ s) mod Zpos d in
    binary_normalize prec emax (2 * q + (if r =? 0 then 0 else 1)) (- (s + 1)) false.

(** [float.is_integer()] and [int(x)] for a float [x]. *)
Definition float_is_integer (f : spec_float) : bool :=
  match f with
  | S754_zero _ => true
  | S754_finite _ m e => if 0 <=? e then true else (Zpos m mod 2 ^ (- e) =? 0)
  | _ => false
  end.

Definition float_trunc (f : spec_float) : option Z :=
  match f with
  | S754_zero _ => Some 0
  | S754_finite s m e =>
      let a := if 0 <=? e then Zpos m * 2 ^ e else Zpos m / 2 ^ (- e) in
      Some (if s then - a else a)
  | _ => None
  end.

(** Outcomes the files at hand do not decide: what a built-in returns, how
    the host prints a float, the host's floating-point arithmetic, the
    classes that [parser.py] and [evaluator.py] import without [ast.py]
    declaring them, and payloads whose Python type does not fit their tag.
    Such a run ends in [Raise] with the class [Opaque], which no statement
    below takes for a Python result. *)
Definition opaque {S A} (what : string) : M S A := raise "Opaque" what.
Definition opaque_result {A} (what : string) : result A := Raise (PyExc "Opaque" what).
Definition type_error {A} (msg : string) : result A := Raise (PyExc "TypeError" msg).

(** Reading an attribute that the class of the object does not define. *)
Definition attribute_error {S A} (cls attr : string) : M S A :=
  raise "AttributeError" ("'" ++ cls ++ "' object has no attribute '" ++ attr ++ "'").

(** [dprint(f"...")]: the formatters the f-string names are called, in
    order, when the argument is built; what [dprint] then does with the
    text depends on the debug flag and changes no state. *)
Fixpoint dprint {S} (formatters : list (M S string)) : M S unit :=
  match formatters with
  | [] => ret tt
  | format :: rest => format ;;; dprint rest
  end.

(** [str(v)] of a payload that is [None], a bool, an int or a string. *)
Definition py_str (v : PyVal) : result string :=
  match v with
  | PyNone => Ok "None"
  | PyBool b => Ok (if b then "True" else "False")
  | PyInt z => Ok (pretty z)
  | PyStr s => Ok s
  | _ => opaque_result "str of a float or of a container"
  end.

(** ** Characters *)

(** A character is its code point.  The classes are those of the Unicode
    database on the code points 0 to 255: besides the ASCII ones, the
    letters of Latin-1 (feminine and masculine ordinal, micro sign, and
    the accented letters but for the multiplication and division signs),
    the superscript digits one, two and three, which are digits without
    being decimal, and the three vulgar fractions, which are numeric only. *)
Definition char_code (c : ascii) : N := N_of_ascii c.
Definition code_between (lo hi : N) (c : ascii) : bool :=
  ((lo <=? char_code c) && (char_code c <=? hi))%N.
Definition code_in (c : ascii) (l : list N) : bool := existsb (N.eqb (char_code c)) l.

Definition isdecimal (c : ascii) : bool := code_between 48 57 c.
Definition isdigit (c : ascii) : bool := isdecimal c || code_in c [178; 179; 185]%N.
Definition isnumeric (c : ascii) : bool := isdigit c || code_in c [188; 189; 190]%N.
Definition isalpha (c : ascii) : bool :=
  code_between 65 90 c || code_between 97 122 c || code_in c [170; 181; 186]%N
  || code_between 192 214 c || code_between 216 246 c || code_between 248 255 c.
Definition isalnum (c : ascii) : bool := isalpha c || isnumeric c.

Definition chr (c : ascii) : string := String c "".
Definition NUL : ascii := "000"%char.
Definition TAB : ascii := "009"%char.
Definition LF : ascii := "010"%char.
Definition CR : ascii := "013"%char.
Definition DQUOTE : ascii := "034"%char.

Definition digit_val (c : ascii) : Z := Z.of_N (char_code c) - 48.

(** [str in list-of-str], the membership test of the source. *)
Definition str_in (s : string) (l : list string) : bool := existsb (String.eqb s) l.
Definition char_in (c : ascii) (l : list ascii) : bool := existsb (Ascii.eqb c) l.

(** ** Lexer ([src/lexer.py]) *)

Record Token := mkToken {
  name : string;
  line : nat;
  column : nat;
  value : PyVal }.

(** Numerator, and number of digits after the point, of a literal of the
    shape the lexer collects: digits with at most one point. *)
Fixpoint literal_digits (s : string) (seen_point : bool) (n : Z) (k : nat) : Z * nat :=
  match s with
  | EmptyString => (n, k)
  | String c s' =>
      if Ascii.eqb c "." then literal_digits s' true n k
      else literal_digits s' seen_point (10 * n + digit_val c)
             (if seen_point then S k else k)
  end.

(** The double a literal of decimal digits and at most one point denotes. *)
Definition float_of_literal (s : string) : spec_float :=
  let '(n, k) := literal_digits s false 0 0 in
  float_of_ratio n (Z.to_pos (10 ^ Z.of_nat k)).

(** [float(s)] on the text [__read_number] collects: characters for which
    [str.isdigit] holds, with at most one point.  [float] reads decimal
    digits only, and refuses a superscript digit. *)
Definition py_float (s : string) : result spec_float :=
  if forallb (fun c => isdecimal c || Ascii.eqb c ".") (list_ascii_of_string s)
  then Ok (float_of_literal s)
  else Raise (PyExc "ValueError" ("could not convert string to float: '" ++ s ++ "'")).

Module Lexer.

(** The lexer object.  [source] is the text not yet consumed: the process
    queue followed by what the stream still holds, so [queue_request] has
    nothing to do. *)
Record t := mk {
  source : list ascii;
  cur_line : nat;
  cur_column : nat;
  prev_char : option ascii;
  peeked_token : option Token;
  prev_comment_ : option Token }.

Definition init (src : list ascii) : t :=
  mk src 1 1 None None None.

Definition token (name : string) (value : PyVal) : M t Token :=
  fun lx => Ok (mkToken name (cur_line lx) (cur_column lx) value, lx).

Definition error {A} (msg : string) : M t A :=
  fun lx => Raise (PyExc "Exception"
    ("Syntax Error at " ++ pretty (cur_line lx) ++ ":" ++ pretty (cur_column lx)
       ++ ": " ++ msg)).

(** [source.readable()]: a text stream opened for reading stays readable. *)
Definition can_read : bool := true.

Definition next_char : M t (option ascii) :=
  fun lx =>
    match source lx with
    | [] => Ok (None, lx)
    | c :: rest =>
        let '(l, col) :=
          if Ascii.eqb c LF then (S (cur_line lx), 1%nat)
          else if Ascii.eqb c TAB then (cur_line lx, (cur_column lx + 4)%nat)
          else (cur_line lx, (cur_column lx + 1)%nat) in
        Ok (Some c, mk rest l col (Some c) (peeked_token lx) (prev_comment_ lx))
    end.

Definition expect_char (expected : string) : M t ascii :=
  c <- next_char ;;
  match c with
  | None => error ("Expected " ++ expected ++ " but got EOF")
  | Some c => ret c
  end.

Definition peek_char (offset : nat) : M t ascii :=
  fun lx => Ok (nth offset (source lx) NUL, lx).

Fixpoint read_string (fuel : nat) (quote : ascii) (s : string) : M t Token :=
  match fuel with
  | O => out_of_fuel
  | S fuel =>
      if can_read then
        c <- expect_char "string content, escape sequence, or closing quote" ;;
        if Ascii.eqb c quote then token "STRING" (PyStr s)
        else if Ascii.eqb c "\" then
          c <- expect_char "string escape sequence" ;;
          if Ascii.eqb c "n" then read_string fuel quote (s ++ chr LF)
          else if Ascii.eqb c "t" then read_string fuel quote (s ++ chr TAB)
          else if Ascii.eqb c "r" then read_string fuel quote (s ++ chr CR)
          else if Ascii.eqb c "\" then read_string fuel quote (s ++ "\")
          else if char_in c [DQUOTE; "'"%char] then read_string fuel quote (s ++ chr c)
          else error ("Invalid escape sequence: \" ++ chr c)
        else read_string fuel quote (s ++ chr c)
      else error "Unterminated string"
  end.

Fixpoint read_identifier_loop (fuel : nat) (s : string) (nc : ascii) : M t string :=
  match fuel with
  | O => out_of_fuel
  | S fuel =>
      if isalnum nc || Ascii.eqb nc "_" then
        c <- expect_char "identifier character" ;;
        if can_read then
          nc <- peek_char 0 ;;
          read_identifier_loop fuel (s ++ chr c) nc
        else ret (s ++ chr c)
      else ret s
  end.

Definition read_identifier (fuel : nat) (first : ascii) : M t Token :=
  nc <- peek_char 0 ;;
  s <- read_identifier_loop fuel (chr first) nc ;;
  token "IDENTIFIER" (PyStr s).

(** [nnc] is read once before the loop and not refreshed inside it. *)
Fixpoint read_number_loop (fuel : nat) (s : string) (decimalPoint : bool)
    (nc nnc : ascii) : M t string :=
  match fuel with
  | O => out_of_fuel
  | S fuel =>
      if (isdigit nc || Ascii.eqb nc ".")
         && negb (Ascii.eqb nc "." && Ascii.eqb nnc ".") then
        if Ascii.eqb nc "." && decimalPoint then ret s
        else
          let decimalPoint := if Ascii.eqb nc "." then true else decimalPoint in
          c <- expect_char "digit or decimal point" ;;
          if can_read then
            nc <- peek_char 0 ;;
            read_number_loop fuel (s ++ chr c) decimalPoint nc nnc
          else ret (s ++ chr c)
      else ret s
  end.

Definition read_number (fuel : nat) (first : ascii) : M t Token :=
  nc <- peek_char 0 ;;
  nnc <- peek_char 1 ;;
  s <- read_number_loop fuel (chr first) false nc nnc ;;
  value <- lift (py_float s) ;;
  token "NUMBER"
    (if float_is_integer value
     then match float_trunc value with Some z => PyInt z | None => PyFloat value end
     else PyFloat value).

Definition is_end_of_expression (c : option ascii) : bool :=
  match c with
  | None => false
  | Some c => isalnum c || char_in c ["_"; "]"; "}"; ")"]%char%list
  end.

Fixpoint line_comment (fuel : nat) (comment : string) : M t string :=
  match fuel with
  | O => out_of_fuel
  | S fuel =>
      nc <- peek_char 0 ;;
      if can_read && negb (Ascii.eqb nc LF) then
        c <- expect_char "comment content" ;;
        line_comment fuel (comment ++ chr c)
      else ret comment
  end.

Fixpoint block_comment (fuel : nat) (comment : string) : M t string :=
  match fuel with
  | O => out_of_fuel
  | S fuel =>
      if can_read then
        c <- expect_char "comment content" ;;
        nc <- peek_char 0 ;;
        if Ascii.eqb c "*" && Ascii.eqb nc "/" then
          expect_char "multi line comment end" ;;; ret comment
        else block_comment fuel (comment ++ chr c)
      else ret comment
  end.

(** The two-character operators, in the order the source tests them. *)
Definition operators2 : list (string * string) :=
  [ ("+=", "PLUSEQUAL"); ("-=", "MINUSEQUAL"); ("*=", "TIMESEQUAL");
    ("/=", "DIVEQUAL"); ("%=", "MODEQUAL"); ("^=", "POWEQUAL");
    ("<=", "LESSEQUAL"); (">=", "GREATEREQUAL"); ("!=", "NOTEQUAL");
    ("==", "EQUAL"); ("=>", "RIGHTARROW"); ("&&", "AND");
    ("||", "OR"); ("#{", "HASHBRACE"); ("..", "RANGE") ].

(** The one-character tokens tested before the parentheses. *)
Definition operators1 : list (string * string) :=
  [ ("+", "PLUS"); ("-", "MINUS"); ("*", "MULTIPLY"); ("/", "DIVIDE");
    ("%", "MODULO"); ("^", "POWER"); ("<", "LESS"); (">", "GREATER");
    ("=", "ASSIGNMENT"); ("!", "NOT"); ("&", "BITWISEAND"); ("|", "BITWISEOR");
    ("~", "BITWISENOT"); ("?", "QUESTIONMARK"); (".", "DOT"); (",", "COMMA");
    (":", "COLON"); (";", "SEMICOLON"); ("{", "LBRACE"); ("}", "RBRACE") ].

Definition find_op (key : string) (table : list (string * string)) : option string :=
  snd <$> List.find (fun e => String.eqb key (fst e)) table.
Definition find_op2 (c nc : ascii) : option string := find_op (chr c ++ chr nc) operators2.
Definition find_op1 (c : ascii) : option string := find_op (chr c) operators1.

Definition keywords : list string :=
  ["if"; "else"; "match"; "class"; "enum"; "while"; "for"; "break"; "continue"; "return"].

(** [str.upper()]; the lexer applies it to [and], [or], [not], [is], [in] only. *)
Definition upper_char (c : ascii) : ascii :=
  if ((97 <=? char_code c) && (char_code c <=? 122))%N
  then ascii_of_N (char_code c - 32) else c.
Fixpoint upper (s : string) : string :=
  match s with
  | EmptyString => EmptyString
  | String c s' => String (upper_char c) (upper s')
  end.

Fixpoint read_token (fuel : nat) : M t Token :=
  match fuel with
  | O => out_of_fuel
  | S fuel =>
      lx <- get ;;
      let pc := prev_char lx in
      c <- next_char ;;
      match c with
      | None => token "EOF" PyNone
      | Some c =>
          if Ascii.eqb c NUL then token "EOF" PyNone
          else
            nc <- peek_char 0 ;;
            if char_in c [" "%char; TAB; LF; CR] then read_token fuel
            else if char_in c [DQUOTE; "'"%char] then read_string fuel c ""
            else if isdigit c then read_number fuel c
            else if isalpha c || Ascii.eqb c "_" then
              tk <- read_identifier fuel c ;;
              match value tk with
              | PyStr v =>
                  if str_in v ["true"; "false"] then token "BOOL" (PyBool (String.eqb v "true"))
                  else if str_in v keywords then token "KEYWORD" (PyStr v)
                  else if str_in v ["and"; "or"; "not"; "is"; "in"] then token (upper v) (PyStr v)
                  else ret tk
              | _ => ret tk
              end
            else if Ascii.eqb c "/" && Ascii.eqb nc "/" then
              expect_char "single line comment start" ;;;
              comment <- line_comment fuel "" ;;
              token "COMMENT" (PyStr comment)
            else if Ascii.eqb c "/" && Ascii.eqb nc "*" then
              expect_char "multi line comment start" ;;;
              comment <- block_comment fuel "" ;;
              token "COMMENT" (PyStr comment)
            else
              match find_op2 c nc with
              | Some nm =>
                  c2 <- next_char ;;
                  match c2 with
                  | Some c2 => token nm (PyStr (chr c ++ chr c2))
                  | None => raise "TypeError" "can only concatenate str (not NoneType) to str"
                  end
              | None =>
                  match find_op1 c with
                  | Some nm => token nm (PyStr (chr c))
                  | None =>
                      if Ascii.eqb c "(" then
                        if is_end_of_expression pc then token "CALL" (PyStr (chr c))
                        else token "LPAREN" (PyStr (chr c))
                      else if Ascii.eqb c ")" then token "RPAREN" (PyStr (chr c))
                      else if Ascii.eqb c "[" then
                        if is_end_of_expression pc then token "INDEX" (PyStr (chr c))
                        else token "LBRACKET" (PyStr (chr c))
                      else if Ascii.eqb c "]" then token "RBRACKET" (PyStr (chr c))
                      else error ("Unexpected character: " ++ chr c)
                  end
              end
      end
  end.

Definition reset_peek : M t unit :=
  fun lx => Ok (tt, mk (source lx) (cur_line lx) (cur_column lx) (prev_char lx)
                       None (prev_comment_ lx)).

Definition set_peeked (tk : Token) : M t unit :=
  fun lx => Ok (tt, mk (source lx) (cur_line lx) (cur_column lx) (prev_char lx)
                       (Some tk) (prev_comment_ lx)).

Definition set_prev_comment (tk : Token) : M t unit :=
  fun lx => Ok (tt, mk (source lx) (cur_line lx) (cur_column lx) (prev_char lx)
                       (peeked_token lx) (Some tk)).

Fixpoint next_token (fuel : nat) (allow_comment : bool) : M t Token :=
  match fuel with
  | O => out_of_fuel
  | S fuel =>
      lx <- get ;;
      match peeked_token lx with
      | Some tk => reset_peek ;;; ret tk
      | None =>
          tk <- read_token fuel ;;
          if negb allow_comment && String.eqb (name tk) "COMMENT" then
            set_prev_comment tk ;;; next_token fuel false
          else ret tk
      end
  end.

Definition peek_token (fuel : nat) (allow_comment : bool) : M t Token :=
  lx <- get ;;
  match peeked_token lx with
  | Some tk => ret tk
  | None =>
      tk <- next_token fuel allow_comment ;;
      set_peeked tk ;;; ret tk
  end.

Definition is_done (fuel : nat) : M t bool :=
  if negb can_read then ret true
  else tk <- peek_token fuel false ;; ret (String.eqb (name tk) "EOF").

Definition prev_comment : M t (option Token) :=
  fun lx => Ok (prev_comment_ lx, lx).

End Lexer.

(** ** Abstract syntax ([src/ast.py]) *)

(** The node classes of [ast.py], then the classes that [evaluator.py] and
    [parser.py] import from it without [ast.py] declaring them: [SliceNode],
    with the attributes the evaluator reads, and the four nodes the parser
    builds, with the arguments it passes.  An absent [elseBody] or [step]
    is Python's [None]. *)
Inductive Node :=
| ProgramNode (expressions : list Node)
| AtomicNode (valueType : string) (value : PyVal)
| BlockNode (expressions : list Node)
| TupleNode (elements : list Node)
| ListNode (elements : list Node)
| MapNode (pairs : list (Node * Node))
| UnaryNode (operator : string) (rhs : Node)
| BinaryNode (operator : string) (left right : Node)
| LambdaNode (params : list string) (body : Node)
| IfNode (condition ifBody : Node) (elseIfs : list (Node * Node)) (elseBody : option Node)
| SliceNode (start stop : Node) (step : option Node)
| FunctionCallNode (function : PyVal) (args : list Node)
| IndexingNode (target index : Node)
| AssignmentNode (target : PyVal) (rhs : Node)
| LambdaFunctionNode (args : list PyVal) (body : Node).

(** The class of a node, as Python names it in an [AttributeError]; [None]
    for a class that [ast.py] does not declare. *)
Definition node_class (e : Node) : option string :=
  match e with
  | ProgramNode _ => Some "ProgramNode"
  | AtomicNode _ _ => Some "AtomicNode"
  | BlockNode _ => Some "BlockNode"
  | TupleNode _ => Some "TupleNode"
  | ListNode _ => Some "ListNode"
  | MapNode _ => Some "MapNode"
  | UnaryNode _ _ => Some "UnaryNode"
  | BinaryNode _ _ _ => Some "BinaryNode"
  | LambdaNode _ _ => Some "LambdaNode"
  | IfNode _ _ _ _ => Some "IfNode"
  | SliceNode _ _ _ | FunctionCallNode _ _ | IndexingNode _ _
  | AssignmentNode _ _ | LambdaFunctionNode _ _ => None
  end.

(** Reading, on a node, an attribute that no class of [ast.py] defines:
    [type], [formatted_str], [raw_str]. *)
Definition node_attribute_error {S A} (e : Node) (attr : string) : M S A :=
  match node_class e with
  | Some cls => attribute_error cls attr
  | None => opaque "attribute of a node class that ast.py does not declare"
  end.

(** [repr(s)] of a string of printable ASCII characters with neither a
    quote nor a backslash in it. *)
Definition py_repr_str (s : string) : result string :=
  if forallb (fun c => code_between 32 126 c
                       && negb (char_in c ["'"%char; DQUOTE; "\"%char]))
       (list_ascii_of_string s)
  then Ok ("'" ++ s ++ "'")
  else opaque_result "repr of a string with quotes, escapes or other characters".

Definition sequence_results {A} (l : list (result A)) : result (list A) :=
  fold_right (fun r acc =>
                match r, acc with
                | Ok a, Ok rest => Ok (a :: rest)
                | Ok _, other => other
                | Raise e, _ => Raise e
                | OutOfFuel, _ => OutOfFuel
                end) (Ok []) l.

Definition map_result {A B} (f : A -> B) (r : result A) : result B :=
  match r with
  | Ok a => Ok (f a)
  | Raise e => Raise e
  | OutOfFuel => OutOfFuel
  end.

(** [str(e)]: the [__str__] methods of [ast.py]; [ProgramNode] and
    [IfNode] inherit the one of [Node], which returns the name given to
    [Node.__init__]. *)
Fixpoint node_str (e : Node) : result string :=
  let strs (l : list Node) : result (list string) := sequence_results (map node_str l) in
  match e with
  | ProgramNode _ => Ok "Program"
  | IfNode _ _ _ _ => Ok "If"
  | AtomicNode valueType value =>
      map_result (fun v => valueType ++ "("
                   ++ (if String.eqb valueType "string" then "'" ++ v ++ "'" else v) ++ ")")
        (py_str value)
  | BlockNode expressions =>
      map_result (fun l => "{" ++ String.concat "; " l ++ "}") (strs expressions)
  | TupleNode elements =>
      map_result (fun l => "(" ++ String.concat ", " l ++ ")") (strs elements)
  | ListNode elements =>
      map_result (fun l => "[" ++ String.concat ", " l ++ "]") (strs elements)
  | MapNode pairs =>
      map_result (fun l => "{" ++ String.concat ", " l ++ "}")
        (sequence_results
           (map (fun kv => match node_str (fst kv), node_str (snd kv) with
                           | Ok k, Ok v => Ok (k ++ ": " ++ v)
                           | Ok _, other => other
                           | other, _ => other
                           end) pairs))
  | UnaryNode operator rhs =>
      map_result (fun r => operator ++ "(" ++ r ++ ")") (node_str rhs)
  | BinaryNode operator left_ right_ =>
      match node_str left_, node_str right_ with
      | Ok l, Ok r => Ok ("(" ++ l ++ " " ++ operator ++ " " ++ r ++ ")")
      | Ok _, other => other
      | other, _ => other
      end
  | LambdaNode params body =>
      match sequence_results (map py_repr_str params), node_str body with
      | Ok ps, Ok b => Ok ("([" ++ String.concat ", " ps ++ "] => " ++ b ++ ")")
      | Ok _, other => other
      | Raise e, _ => Raise e
      | OutOfFuel, _ => OutOfFuel
      end
  | SliceNode _ _ _ | FunctionCallNode _ _ | IndexingNode _ _
  | AssignmentNode _ _ | LambdaFunctionNode _ _ =>
      opaque_result "str of a node class that ast.py does not declare"
  end.

(** ** Parser ([src/parser.py]) *)

Module Parser.

(** Left associative infix operators binding powers *)
Definition precedence_binary_left : list (string * Z) :=
  [ ("POWER", 30); ("NOT", 30); ("MULTIPLY", 20); ("DIVIDE", 20);
    ("MODULO", 20); ("PLUS", 10); ("MINUS", 10); ("EQUAL", 5) ].

(** Right associative infix operators binding powers *)
Definition precedence_binary_right : list (string * Z) :=
  [ ("AND", 20); ("OR", 10) ].

Definition dict_get (d : list (string * Z)) (k : string) : option Z :=
  snd <$> List.find (fun e => String.eqb k (fst e)) d.

(** [k in d] *)
Definition contains (d : list (string * Z)) (k : string) : bool :=
  match dict_get d k with Some _ => true | None => false end.

(** [d[k]], a [KeyError] when the key is missing. *)
Definition subscript {S} (d : list (string * Z)) (k : string) : M S Z :=
  match dict_get d k with
  | Some v => ret v
  | None => raise "KeyError" ("'" ++ k ++ "'")
  end.

(** The parser's state is its lexer.  A call into the lexer is given fuel
    for every character still unread. *)
Definition lexer_fuel (lx : Lexer.t) : nat := (2 + length (Lexer.source lx))%nat.

Definition next_token : M Lexer.t Token :=
  fun lx => Lexer.next_token (lexer_fuel lx) false lx.
Definition peek_token : M Lexer.t Token :=
  fun lx => Lexer.peek_token (lexer_fuel lx) false lx.
Definition is_done : M Lexer.t bool :=
  fun lx => Lexer.is_done (lexer_fuel lx) lx.

Definition error {A} (msg : string) (token : Token) : M Lexer.t A :=
  raise "Exception"
    ("Semantic Error at " ++ pretty (line token) ++ ":" ++ pretty (column token)
       ++ ": " ++ msg).

Definition expect (token_name : string) : M Lexer.t Token :=
  tk <- next_token ;;
  if negb (String.eqb (name tk) token_name)
  then raise "Exception" ("Expected " ++ token_name ++ " but got " ++ name tk)
  else ret tk.

(** [str.lower()]; the parser applies it to the names of tokens only. *)
Definition lower_char (c : ascii) : ascii :=
  if ((65 <=? char_code c) && (char_code c <=? 90))%N
  then ascii_of_N (char_code c + 32) else c.
Fixpoint lower (s : string) : string :=
  match s with
  | EmptyString => EmptyString
  | String c s' => String (lower_char c) (lower s')
  end.

(** The lambda check of [__parse_primary]: an element passes when it is an
    atomic node, and its payload becomes the parameter.  The other disjunct
    compares the name a node was given at its creation with ["IDENTIFIER"],
    which no class of [ast.py] passes to [Node.__init__]; the message prints
    the element. *)
Fixpoint lambda_args {S} (elements : list Node) (args : list PyVal) : M S (list PyVal) :=
  match elements with
  | [] => ret args
  | AtomicNode _ v :: rest => lambda_args rest (args ++ [v])
  | e :: _ =>
      s <- lift (node_str e) ;;
      raise "Exception" ("Lambda argument '" ++ s ++ "' is not an identifier!")
  end.

(** The test of the outer [while] of [__parse_binary_expression]. *)
Definition climbs (l : string) (precedence : Z) : bool :=
  (contains precedence_binary_left l
     && match dict_get precedence_binary_left l with
        | Some p => precedence <=? p | None => false end)
  || (contains precedence_binary_right l
     && match dict_get precedence_binary_right l with
        | Some p => precedence <? p | None => false end).

(** The test of its inner [while]; the subscripts by [op] are evaluated
    only where Python's [and]/[or] reach them, and raise when [op] is not
    in the table. *)
Definition extends {S} (l op : string) : M S bool :=
  first <- (if contains precedence_binary_left l then
              pl <- subscript precedence_binary_left l ;;
              po <- subscript precedence_binary_left op ;;
              ret (po <? pl)
            else ret false) ;;
  if (first : bool) then ret true
  else if contains precedence_binary_right l then
    pl <- subscript precedence_binary_right l ;;
    po <- subscript precedence_binary_right op ;;
    ret (pl =? po)
  else ret false.

Fixpoint parse_expression (fuel : nat) : M Lexer.t Node :=
  match fuel with
  | O => out_of_fuel
  | S fuel =>
      lhs <- parse_primary fuel ;;
      parse_binary_expression fuel lhs 0
  end

with parse_list_of_expressions (fuel : nat) (delimiter end_delimiter : string)
       : M Lexer.t (list Node) :=
  match fuel with
  | O => out_of_fuel
  | S fuel =>
      nt <- peek_token ;;
      parse_list_loop fuel delimiter end_delimiter [] nt
  end

(** The [while] of [__parse_list_of_expressions]; [nt] is the token last
    peeked, which is not refreshed after a delimiter is consumed. *)
with parse_list_loop (fuel : nat) (delimiter end_delimiter : string)
       (expressions : list Node) (nt : Token) : M Lexer.t (list Node) :=
  match fuel with
  | O => out_of_fuel
  | S fuel =>
      if negb (String.eqb (name nt) end_delimiter) then
        e <- parse_expression fuel ;;
        nt <- peek_token ;;
        (if String.eqb (name nt) delimiter then next_token ;;; ret tt
         else if negb (String.eqb (name nt) end_delimiter) then
           error ("Expected '" ++ delimiter ++ "' or '" ++ end_delimiter
                    ++ "' but got '" ++ name nt ++ "'") nt
         else ret tt) ;;;
        parse_list_loop fuel delimiter end_delimiter (expressions ++ [e]) nt
      else
        next_token ;;; ret expressions
  end

with parse_primary (fuel : nat) : M Lexer.t Node :=
  match fuel with
  | O => out_of_fuel
  | S fuel =>
      tk <- next_token ;;
      if String.eqb (name tk) "IDENTIFIER" then
        nt <- peek_token ;;
        if String.eqb (name nt) "LPAREN" then
          next_token ;;;
          args <- parse_list_of_expressions fuel "COMMA" "RPAREN" ;;
          ret (FunctionCallNode (value tk) args)
        else if String.eqb (name nt) "LBRACKET" then
          next_token ;;;
          index <- parse_expression fuel ;;
          expect "RBRACKET" ;;;
          ret (IndexingNode (AtomicNode "identifier" (value tk)) index)
        else if String.eqb (name nt) "ASSIGNMENT" then
          next_token ;;;
          rhs <- parse_expression fuel ;;
          ret (AssignmentNode (value tk) rhs)
        else ret (AtomicNode "identifier" (value tk))
      else if str_in (name tk) ["STRING"; "NUMBER"; "BOOLEAN"] then
        ret (AtomicNode (lower (name tk)) (value tk))
      else if String.eqb (name tk) "KEYWORD" then
        raise "Exception"
          ("Keyword '" ++ match value tk with PyStr s => s | _ => "" end
             ++ "' is not implemented!")
      else if String.eqb (name tk) "LPAREN" then
        elements <- parse_list_of_expressions fuel "COMMA" "RPAREN" ;;
        nt <- peek_token ;;
        if String.eqb (name nt) "RIGHTARROW" then
          next_token ;;;
          args <- lambda_args elements [] ;;
          body <- parse_expression fuel ;;
          ret (LambdaFunctionNode args body)
        else ret (TupleNode elements)
      else if String.eqb (name tk) "LBRACKET" then
        elements <- parse_list_of_expressions fuel "COMMA" "RBRACKET" ;;
        ret (ListNode elements)
      else if str_in (name tk) ["MINUS"; "NOT"] then
        rhs <- parse_expression fuel ;;
        ret (UnaryNode (name tk) rhs)
      else
        error ("Expected primary expression but got '" ++ name tk ++ "'") tk
  end

(** The outer [while] of [__parse_binary_expression], entered with the
    name [l] of the token peeked. *)
with parse_binary_loop (fuel : nat) (lhs : Node) (precedence : Z) (l : string)
       : M Lexer.t Node :=
  match fuel with
  | O => out_of_fuel
  | S fuel =>
      if climbs l precedence then
        optk <- next_token ;;
        let op := name optk in
        rhs <- parse_primary fuel ;;
        nt <- peek_token ;;
        rhs_l <- parse_binary_inner fuel op rhs (name nt) ;;
        parse_binary_loop fuel (BinaryNode op lhs (fst rhs_l)) precedence (snd rhs_l)
      else ret lhs
  end

(** Its inner [while]: returns the right operand and the name of the token
    peeked last. *)
with parse_binary_inner (fuel : nat) (op : string) (rhs : Node) (l : string)
       : M Lexer.t (Node * string) :=
  match fuel with
  | O => out_of_fuel
  | S fuel =>
      go <- extends l op ;;
      if (go : bool) then
        p <- subscript precedence_binary_left l ;;
        rhs <- parse_binary_expression fuel rhs p ;;
        nt <- peek_token ;;
        parse_binary_inner fuel op rhs (name nt)
      else ret (rhs, l)
  end

with parse_binary_expression (fuel : nat) (lhs : Node) (precedence : Z)
       : M Lexer.t Node :=
  match fuel with
  | O => out_of_fuel
  | S fuel =>
      nt <- peek_token ;;
      parse_binary_loop fuel lhs precedence (name nt)
  end.

(** The [while] of [parse]. *)
Fixpoint parse_loop (fuel : nat) (expressions : list Node) : M Lexer.t Node :=
  match fuel with
  | O => out_of_fuel
  | S fuel =>
      done <- is_done ;;
      if (done : bool) then ret (ProgramNode expressions)
      else
        e <- parse_expression fuel ;;
        parse_loop fuel (expressions ++ [e])
  end.

Definition parse (fuel : nat) : M Lexer.t Node := parse_loop fuel [].

(** Lexer and parser run on a source text. *)
Definition parse_source (fuel : nat) (src : string) : result Node :=
  match parse fuel (Lexer.init (list_ascii_of_string src)) with
  | Ok (program, _) => Ok program
  | Raise e => Raise e
  | OutOfFuel => OutOfFuel
  end.

End Parser.

(** ** Atoms ([src/atoms.py]) and the store *)

(** A built-in holds a host callable; the atom keeps its name. *)
Inductive Atom :=
| ValueAtom (type : string) (value : PyVal)
| FunctionAtom (argumentNames : list PyVal) (body : Node) (environment : ref)
| BuiltinFunctionAtom (functionName : string).

(** [Atom.type], set by each subclass through [Atom.__init__]. *)
Definition atom_type (a : Atom) : string :=
  match a with
  | ValueAtom type _ => type
  | FunctionAtom _ _ _ => "function"
  | BuiltinFunctionAtom _ => "function"
  end.

(** [Atom.name], likewise. *)
Definition atom_name (a : Atom) : string :=
  match a with
  | ValueAtom _ _ => "Value"
  | FunctionAtom _ _ _ => "Function"
  | BuiltinFunctionAtom _ => "Built-in function"
  end.

(** [a.value]; only a value atom has the attribute, and it is read only
    after [isinstance(a, ValueAtom)] has been checked. *)
Definition payload (a : Atom) : PyVal :=
  match a with ValueAtom _ v => v | _ => PyNone end.

(** [isinstance(a, ValueAtom)] *)
Definition is_value_atom (a : Atom) : bool :=
  match a with ValueAtom _ _ => true | _ => false end.

(** The class of an atom, as Python names it in an [AttributeError]. *)
Definition atom_class (a : Atom) : string :=
  match a with
  | ValueAtom _ _ => "ValueAtom"
  | FunctionAtom _ _ _ => "FunctionAtom"
  | BuiltinFunctionAtom _ => "BuiltinFunctionAtom"
  end.

(** [a.formatted_str()] and [a.raw_str()]: no class of [atoms.py] defines
    either method. *)
Definition atom_formatted_str {S} (a : Atom) : M S string :=
  attribute_error (atom_class a) "formatted_str".
Definition atom_raw_str {S} (a : Atom) : M S string :=
  attribute_error (atom_class a) "raw_str".

(** [e.type], [e.formatted_str()] and [e.raw_str()] on a node: no class of
    [ast.py] defines any of them. *)
Definition node_type {S} (e : Node) : M S string := node_attribute_error e "type".
Definition node_formatted_str {S} (e : Node) : M S string :=
  node_attribute_error e "formatted_str".
Definition node_raw_str {S} (e : Node) : M S string := node_attribute_error e "raw_str".

(** [str(a)], the [__str__] methods of [atoms.py], where the text does not
    depend on the host: a number is printed through [is_integer], which an
    int has only in recent versions of the host, and a container through
    the [repr] of its elements. *)
Definition atom_str (a : Atom) : result string :=
  match a with
  | FunctionAtom argumentNames _ _ =>
      map_result (fun names => "<lambda(" ++ String.concat ", " names ++ ")>")
        (sequence_results
           (map (fun n => match n with
                          | PyStr s => Ok s
                          | _ => opaque_result "join of names that are not strings"
                          end) argumentNames))
  | BuiltinFunctionAtom functionName => Ok ("<built-in: " ++ functionName ++ ">")
  | ValueAtom valueType value =>
      match value with
      | PyNone | PyBool _ | PyStr _ =>
          if String.eqb valueType "string" then
            map_result (fun v => "'" ++ v ++ "'") (py_str value)
          else if String.eqb valueType "boolean" then
            match value with
            | PyNone => Ok "none"
            | PyBool b => Ok (if b then "true" else "false")
            | _ => opaque_result "str.lower of a text"
            end
          else if String.eqb valueType "unit" then Ok "()"
          else if str_in valueType ["tuple"; "list"] then
            opaque_result "str of a container"
          else if String.eqb valueType "number" then
            opaque_result "is_integer of a payload that is not a number"
          else py_str value
      | _ => opaque_result "str of a number or of a container"
      end
  end.

(** The call [FunctionAtom(argumentNames, body, environment, *extra)].
    [FunctionAtom.__init__(self, argumentNames, body, environment)] has no
    further parameter, so Python refuses a call that passes one. *)
Definition FunctionAtom_init (argumentNames : list PyVal) (body : Node) (environment : ref)
    (extra : list PyVal) : result Atom :=
  match extra with
  | [] => Ok (FunctionAtom argumentNames body environment)
  | _ :: _ =>
      Raise (PyExc "TypeError"
        ("FunctionAtom.__init__() takes 4 positional arguments but "
           ++ pretty (5 + length extra - 1)%nat ++ " were given"))
  end.

(** Modelled from the spec: [src/environment.py] is not among the files.
    An environment is a name-to-value mapping with a parent link and a
    label; lookup walks the parent links until the name is found or the
    chain ends, and [set] writes in the current frame only. *)
Record Environment := mkEnvironment {
  label : string;
  parent : option ref;
  variables : gmap string ref }.

Record Store := mkStore {
  atoms : list Atom;
  envs : list Environment }.

Definition alloc (a : Atom) : M Store ref :=
  fun st => Ok (length (atoms st), mkStore (atoms st ++ [a]) (envs st)).

Definition deref (r : ref) : M Store Atom :=
  fun st => match atoms st !! r with
            | Some a => Ok (a, st)
            | None => Raise (PyExc "Opaque" "dangling reference")
            end.

Definition update (r : ref) (a : Atom) : M Store unit :=
  fun st => Ok (tt, mkStore (<[r := a]> (atoms st)) (envs st)).

(** [Environment(label, parent)] *)
Definition new_environment (label : string) (parent : ref) : M Store ref :=
  fun st => Ok (length (envs st),
                mkStore (atoms st) (envs st ++ [mkEnvironment label (Some parent) ∅])).

Fixpoint env_lookup (fuel : nat) (es : list Environment) (env : ref) (name : string)
    : option ref :=
  match fuel with
  | O => None
  | S fuel =>
      match es !! env with
      | None => None
      | Some e =>
          match variables e !! name with
          | Some v => Some v
          | None =>
              match parent e with
              | Some p => env_lookup fuel es p name
              | None => None
              end
          end
      end
  end.

(** A name is the string payload of an identifier. *)
Definition as_name {S} (v : PyVal) : M S string :=
  match v with
  | PyStr s => ret s
  | _ => opaque "name that is not a string"
  end.

(** [env.get(name)]: the value, or [None] when the name is undefined. *)
Definition env_get (env : ref) (name : PyVal) : M Store (option ref) :=
  s <- as_name name ;;
  fun st => Ok (env_lookup (S (length (envs st))) (envs st) env s, st).

(** [env.set(name, value)] *)
Definition env_set (env : ref) (name : PyVal) (v : ref) : M Store unit :=
  s <- as_name name ;;
  fun st =>
    match envs st !! env with
    | Some e =>
        Ok (tt, mkStore (atoms st)
                  (<[env := mkEnvironment (label e) (parent e) (<[s := v]> (variables e))]>
                     (envs st)))
    | None => Raise (PyExc "Opaque" "dangling reference")
    end.

(** ** Python operators on payloads *)

(** A number of the host, exactly: [m * 2 ^ e], an infinity or a NaN. *)
Inductive exact :=
| Fin (m e : Z)
| PosInf
| NegInf
| NaN.

Definition exact_of (v : PyVal) : option exact :=
  match v with
  | PyBool b => Some (Fin (if b then 1 else 0) 0)
  | PyInt z => Some (Fin z 0)
  | PyFloat (S754_zero _) => Some (Fin 0 0)
  | PyFloat (S754_finite s m e) => Some (Fin (if s then Z.neg m else Z.pos m) e)
  | PyFloat (S754_infinity s) => Some (if s then NegInf else PosInf)
  | PyFloat S754_nan => Some NaN
  | _ => None
  end.

(** Comparison of two numbers; [None] when a NaN takes part. *)
Definition exact_compare (a b : exact) : option comparison :=
  match a, b with
  | NaN, _ | _, NaN => None
  | PosInf, PosInf | NegInf, NegInf => Some Eq
  | PosInf, _ | _, NegInf => Some Gt
  | NegInf, _ | _, PosInf => Some Lt
  | Fin m1 e1, Fin m2 e2 =>
      let e := Z.min e1 e2 in
      Some (Z.compare (m1 * 2 ^ (e1 - e)) (m2 * 2 ^ (e2 - e)))
  end.

(** The integer a payload stands for where Python wants an [int]
    ([bool] is a subclass of [int]). *)
Definition as_int (v : PyVal) : option Z :=
  match v with
  | PyBool b => Some (if b then 1 else 0)
  | PyInt z => Some z
  | _ => None
  end.

(** [a == b].  The elements of a list are atoms, whose class defines no
    [__eq__]: two lists are equal when they hold the same objects in the
    same order, and two dicts when they map the same keys to the same
    objects. *)
Definition py_eq (a b : PyVal) : bool :=
  match exact_of a, exact_of b with
  | Some x, Some y =>
      match exact_compare x y with Some Eq => true | _ => false end
  | _, _ =>
      match a, b with
      | PyNone, PyNone => true
      | PyStr s1, PyStr s2 => String.eqb s1 s2
      | PyList l1, PyList l2 => bool_decide (l1 = l2)
      | PyDict d1, PyDict d2 => bool_decide (d1 = d2)
      | _, _ => false
      end
  end.

(** Truth value of a payload, as [if x], [not x], [x and y] take it. *)
Definition py_truth (v : PyVal) : bool :=
  match v with
  | PyNone => false
  | PyBool b => b
  | PyInt z => negb (z =? 0)
  | PyFloat (S754_zero _) => false
  | PyFloat _ => true
  | PyStr s => negb (String.eqb s "")
  | PyList l => match l with [] => false | _ => true end
  | PyDict d => negb (bool_decide (d = ∅))
  end.

(** [type(v).__name__] *)
Definition py_type_name (v : PyVal) : string :=
  match v with
  | PyNone => "NoneType"
  | PyBool _ => "bool"
  | PyInt _ => "int"
  | PyFloat _ => "float"
  | PyStr _ => "str"
  | PyList _ => "list"
  | PyDict _ => "dict"
  end.

(** [-x] *)
Definition py_neg (v : PyVal) : result PyVal :=
  match v with
  | PyBool b => Ok (PyInt (if b then -1 else 0))
  | PyInt z => Ok (PyInt (- z))
  | PyFloat f => Ok (PyFloat (SFopp f))
  | _ => type_error ("bad operand type for unary -: '" ++ py_type_name v ++ "'")
  end.

(** [n / d] on ints: the nearest double. *)
Definition int_truediv (n d : Z) : result PyVal :=
  if d =? 0 then Raise (PyExc "ZeroDivisionError" "division by zero")
  else
    let neg := xorb (n <? 0) (d <? 0) in
    match float_of_ratio (Z.abs n) (Z.to_pos (Z.abs d)) with
    | S754_infinity _ =>
        Raise (PyExc "OverflowError" "integer division result too large for a float")
    | f => Ok (PyFloat (if neg then SFopp f else f))
    end.

(** The operator's symbol in the host's messages. *)
Definition operator_symbol (op : string) : option string :=
  if String.eqb op "PLUS" then Some "+"
  else if String.eqb op "MINUS" then Some "-"
  else if String.eqb op "MULTIPLY" then Some "*"
  else if String.eqb op "DIVIDE" then Some "/"
  else if String.eqb op "MODULO" then Some "%"
  else if String.eqb op "POWER" then Some "** or pow()"
  else if String.eqb op "LESS" then Some "<"
  else if String.eqb op "GREATER" then Some ">"
  else if String.eqb op "LESSEQUAL" then Some "<="
  else if String.eqb op "GREATEREQUAL" then Some ">="
  else None.

Definition unsupported_operands {A} (op : string) (a b : PyVal) : result A :=
  match operator_symbol op with
  | Some sym =>
      type_error ("unsupported operand type(s) for " ++ sym ++ ": '" ++ py_type_name a
                  ++ "' and '" ++ py_type_name b ++ "'")
  | None => opaque_result "operator"
  end.

Definition is_sequence (v : PyVal) : bool :=
  match v with PyStr _ | PyList _ => true | _ => false end.

Definition double_quote : string := String (ascii_of_nat 34) EmptyString.

(** The arithmetic operators.  On ints they are exact; with a float operand
    the outcome is the host's floating-point result and is left opaque, as
    are string formatting and the repetition of a sequence; [+] also joins
    two strings or two lists. *)
Definition py_arith (op : string) (a b : PyVal) : result PyVal :=
  match as_int a, as_int b with
  | Some x, Some y =>
      if String.eqb op "PLUS" then Ok (PyInt (x + y))
      else if String.eqb op "MINUS" then Ok (PyInt (x - y))
      else if String.eqb op "MULTIPLY" then Ok (PyInt (x * y))
      else if String.eqb op "DIVIDE" then int_truediv x y
      else if String.eqb op "MODULO" then
        if y =? 0 then Raise (PyExc "ZeroDivisionError" "integer modulo by zero")
        else Ok (PyInt (x mod y))
      else if String.eqb op "POWER" then
        if 0 <=? y then Ok (PyInt (x ^ y))
        else if x =? 0 then
          Raise (PyExc "ZeroDivisionError" "0.0 cannot be raised to a negative power")
        else opaque_result "float power"
      else opaque_result "operator"
  | _, _ =>
      match exact_of a, exact_of b with
      | Some _, Some _ => opaque_result "float arithmetic"
      | _, _ =>
          if String.eqb op "PLUS" then
            match a, b with
            | PyStr s1, PyStr s2 => Ok (PyStr (s1 ++ s2))
            | PyList l1, PyList l2 => Ok (PyList (l1 ++ l2))
            | PyStr _, _ | PyList _, _ =>
                type_error ("can only concatenate " ++ py_type_name a ++ " (not "
                            ++ double_quote ++ py_type_name b ++ double_quote ++ ") to "
                            ++ py_type_name a)
            | _, _ => unsupported_operands op a b
            end
          else if String.eqb op "MULTIPLY" then
            if is_sequence a then
              match as_int b with
              | Some _ => opaque_result "sequence repetition"
              | None =>
                  type_error ("can't multiply sequence by non-int of type '"
                              ++ py_type_name b ++ "'")
              end
            else if is_sequence b then
              match as_int a with
              | Some _ => opaque_result "sequence repetition"
              | None =>
                  type_error ("can't multiply sequence by non-int of type '"
                              ++ py_type_name a ++ "'")
              end
            else unsupported_operands op a b
          else if String.eqb op "MODULO" then
            match a with
            | PyStr _ => opaque_result "string formatting"
            | _ => unsupported_operands op a b
            end
          else unsupported_operands op a b
      end
  end.

(** The ordering operators [<], [>], [<=], [>=] on numbers and on strings. *)
Definition py_order (op : string) (a b : PyVal) : result bool :=
  let decide_by (c : option comparison) : result bool :=
    match c with
    | None => Ok false
    | Some c =>
        if String.eqb op "LESS" then Ok (match c with Lt => true | _ => false end)
        else if String.eqb op "GREATER" then Ok (match c with Gt => true | _ => false end)
        else if String.eqb op "LESSEQUAL" then Ok (match c with Gt => false | _ => true end)
        else if String.eqb op "GREATEREQUAL" then Ok (match c with Lt => false | _ => true end)
        else opaque_result "operator"
    end in
  match exact_of a, exact_of b with
  | Some x, Some y => decide_by (exact_compare x y)
  | _, _ =>
      match a, b with
      | PyStr s1, PyStr s2 => decide_by (Some (String.compare s1 s2))
      | PyList _, PyList _ => opaque_result "list ordering"
      | _, _ =>
          match operator_symbol op with
          | Some sym =>
              type_error ("'" ++ sym ++ "' not supported between instances of '"
                          ++ py_type_name a ++ "' and '" ++ py_type_name b ++ "'")
          | None => opaque_result "operator"
          end
      end
  end.

(** [int(v)] as the slice indices use it. *)
Definition py_int (v : PyVal) : result Z :=
  match v with
  | PyBool _ | PyInt _ => match as_int v with Some z => Ok z | None => Ok 0 end
  | PyFloat f =>
      match f with
      | S754_nan => Raise (PyExc "ValueError" "cannot convert float NaN to integer")
      | S754_infinity _ =>
          Raise (PyExc "OverflowError" "cannot convert float infinity to integer")
      | _ => match float_trunc f with Some z => Ok z | None => Ok 0 end
      end
  | PyStr _ => opaque_result "int of a string"
  | _ =>
      type_error ("int() argument must be a string, a bytes-like object or a real number, not '"
                  ++ py_type_name v ++ "'")
  end.

(** Position in a list of length [n] that the index [i] names; negative
    indices count from the end. *)
Definition py_index (n : nat) (i : Z) : option nat :=
  if (0 <=? i) && (i <? Z.of_nat n) then Some (Z.to_nat i)
  else if (i <? 0) && (- Z.of_nat n <=? i) then Some (Z.to_nat (Z.of_nat n + i))
  else None.

(** [l[i]] on a list. *)
Definition py_list_item (l : list ref) (i : PyVal) : result ref :=
  match as_int i with
  | Some z =>
      match py_index (length l) z with
      | Some k =>
          match l !! k with
          | Some r => Ok r
          | None => Raise (PyExc "IndexError" "list index out of range")
          end
      | None => Raise (PyExc "IndexError" "list index out of range")
      end
  | None => type_error ("list indices must be integers or slices, not " ++ py_type_name i)
  end.

(** [range(a, b)] as a list of ints. *)
Definition py_range (a b : PyVal) : result (list Z) :=
  match as_int a, as_int b with
  | Some x, Some y => Ok (map (fun k => x + Z.of_nat k) (seq 0 (Z.to_nat (y - x))))
  | None, _ => type_error ("'" ++ py_type_name a ++ "' object cannot be interpreted as an integer")
  | _, None => type_error ("'" ++ py_type_name b ++ "' object cannot be interpreted as an integer")
  end.

(** The positions [l[start:stop:step]] selects in a list of length [n]. *)
Definition py_slice_positions (n : nat) (start stop step : Z) : result (list nat) :=
  let len := Z.of_nat n in
  if step =? 0 then Raise (PyExc "ValueError" "slice step cannot be zero")
  else if 0 <? step then
    let clamp i := if i <? 0 then Z.max 0 (i + len) else Z.min i len in
    let a := clamp start in
    let b := clamp stop in
    let count := if a <? b then (b - a + step - 1) / step else 0 in
    Ok (map (fun k => Z.to_nat (a + Z.of_nat k * step)) (seq 0 (Z.to_nat count)))
  else
    let clamp i := if i <? 0 then Z.max (-1) (i + len) else Z.min i (len - 1) in
    let a := clamp start in
    let b := clamp stop in
    let count := if b <? a then (a - b - step - 1) / (- step) else 0 in
    Ok (map (fun k => Z.to_nat (a + Z.of_nat k * step)) (seq 0 (Z.to_nat count))).

(** ** Evaluator ([src/evaluator.py]) *)

Module Evaluator.

Definition exception {A} (msg : string) : M Store A := raise "Exception" msg.

Fixpoint mapM {A B} (f : A -> M Store B) (l : list A) : M Store (list B) :=
  match l with
  | [] => ret []
  | x :: rest => y <- f x ;; ys <- mapM f rest ;; ret (y :: ys)
  end.

(** [for x in l: result = f(x)], returning the last result. *)
Fixpoint last_result {A} (f : A -> M Store ref) (l : list A) (result : ref) : M Store ref :=
  match l with
  | [] => ret result
  | x :: rest => result <- f x ;; last_result f rest result
  end.

(** [str(types)] for a list of type names. *)
Definition py_str_list (types : list string) : result string :=
  map_result (fun l => "[" ++ String.concat ", " l ++ "]")
    (sequence_results (map py_repr_str types)).

Definition compatible_types (lhs rhs : Atom) (types : list string) : M Store bool :=
  if negb (is_value_atom lhs) then
    exception "Left hand side in expression is not an atomic value"
  else if negb (is_value_atom rhs) then
    exception "Right hand side in expression is not an atomic value"
  else if str_in (atom_type lhs) types && str_in (atom_type rhs) types then ret true
  else exception ("Incompatible types: " ++ atom_type lhs ++ " and " ++ atom_type rhs).

Definition compatible_type (value : Atom) (types : list string) : M Store bool :=
  if negb (is_value_atom value) then exception "Value is not an atomic value"
  else if str_in (atom_type value) types then ret true
  else
    printed <- lift (py_str_list types) ;;
    exception ("Incompatible types: " ++ atom_type value ++ " and " ++ printed).

(** [isinstance(expression, AtomicNode) and expression.type == "identifier"]:
    on an atomic node the second test reads [type]. *)
Definition is_identifier (expression : Node) : M Store bool :=
  match expression with
  | AtomicNode _ _ =>
      type <- node_type expression ;;
      ret (String.eqb type "identifier")
  | _ => ret false
  end.

Fixpoint is_identifier_members (expression : Node) : M Store bool :=
  match expression with
  | BinaryNode operator left_ right_ =>
      if String.eqb operator "DOT" then
        base <- is_identifier left_ ;;
        base <- (if (base : bool) then ret true else is_identifier_members left_) ;;
        if (base : bool) then is_identifier right_ else ret false
      else ret false
  | _ => ret false
  end.

Definition is_index_expression (expression : Node) : bool :=
  match expression with
  | BinaryNode operator _ _ => String.eqb operator "INDEX"
  | _ => false
  end.

Fixpoint get_left_most_bin_term (expression : Node) (op : string) : Node :=
  match expression with
  | BinaryNode operator left_ _ =>
      if String.eqb operator op then get_left_most_bin_term left_ op else expression
  | _ => expression
  end.

(** [node.value]: the payload of an atomic node; the other classes of
    [ast.py] have no such attribute. *)
Definition node_value (expression : Node) : M Store PyVal :=
  match expression with
  | AtomicNode _ value => ret value
  | _ => node_attribute_error expression "value"
  end.

Fixpoint flatten_bin_terms (expression : Node) (op : string) (includeBase : bool)
    : M Store (list PyVal) :=
  match expression with
  | BinaryNode operator left_ right_ =>
      if String.eqb operator op then
        path <- flatten_bin_terms left_ op includeBase ;;
        v <- node_value right_ ;;
        ret (path ++ [v])%list
      else if includeBase then v <- node_value expression ;; ret [v] else ret []
  | _ => if includeBase then v <- node_value expression ;; ret [v] else ret []
  end.

(** [obj.value[key]] *)
Definition get_item (obj : ref) (key : PyVal) : M Store ref :=
  a <- deref obj ;;
  match a with
  | ValueAtom _ (PyList l) => lift (py_list_item l key)
  | ValueAtom _ (PyDict d) =>
      match key with
      | PyStr s =>
          match d !! s with
          | Some r => ret r
          | None => printed <- lift (py_repr_str s) ;; raise "KeyError" printed
          end
      | _ => opaque "key that is not a string"
      end
  | ValueAtom _ (PyStr _) => opaque "subscript of a string payload"
  | ValueAtom _ v =>
      raise "TypeError" ("'" ++ py_type_name v ++ "' object is not subscriptable")
  | _ => attribute_error (atom_class a) "value"
  end.

(** [obj.value[key] = rhs], in place. *)
Definition set_item (obj : ref) (key : PyVal) (rhs : ref) : M Store unit :=
  a <- deref obj ;;
  match a with
  | ValueAtom type (PyList l) =>
      match as_int key with
      | Some z =>
          match py_index (length l) z with
          | Some k => update obj (ValueAtom type (PyList (<[k := rhs]> l)))
          | None => raise "IndexError" "list assignment index out of range"
          end
      | None =>
          raise "TypeError"
            ("list indices must be integers or slices, not " ++ py_type_name key)
      end
  | ValueAtom type (PyDict d) =>
      match key with
      | PyStr s => update obj (ValueAtom type (PyDict (<[s := rhs]> d)))
      | _ => opaque "key that is not a string"
      end
  | ValueAtom _ v =>
      raise "TypeError" ("'" ++ py_type_name v ++ "' object does not support item assignment")
  | _ => attribute_error (atom_class a) "value"
  end.

Fixpoint set_nested_value (obj : ref) (path : list PyVal) (rhs : ref) : M Store ref :=
  match path with
  | [] => exception "Member path is empty"
  | [key] => set_item obj key rhs ;;; ret obj
  | key :: rest =>
      inner <- get_item obj key ;;
      inner <- set_nested_value inner rest rhs ;;
      set_item obj key inner ;;; ret obj
  end.

(** The checks a map literal makes on [key], and the payload it then
    turns into a string.  The first of them reads [key.type].  (Past it,
    the source writes the promoted tag and payload back into the key node.)
    [is_integer] on an int is that of the hosts that have it. *)
Definition map_key (key : Node) : M Store PyVal :=
  match key with
  | AtomicNode _ value =>
      type <- node_type key ;;
      promoted <-
        (if String.eqb type "number" then
           match value with
           | PyBool _ | PyInt _ => ret true
           | PyFloat f => ret (float_is_integer f)
           | _ => attribute_error (py_type_name value) "is_integer"
           end
         else ret false) ;;
      type' <- ret (if (promoted : bool) then "integer" else type) ;;
      value' <- (if (promoted : bool) then z <- lift (py_int value) ;; ret (PyInt z)
                 else ret value) ;;
      if negb (str_in type' ["identifier"; "string"; "integer"; "bool"]) then
        exception "Key in map is not an identifier, string, integer or bool"
      else ret value'
  | _ => exception "Key in map is not an atomic value"
  end.

(** The loop of the map literal, over the pairs in source order; [eval]
    is [evaluate_expression] in the current environment. *)
Fixpoint map_pairs (eval : Node -> M Store ref) (pairs : list (Node * Node))
    (map_values : gmap string ref) : M Store (gmap string ref) :=
  match pairs with
  | [] => ret map_values
  | (key, value) :: rest =>
      k <- map_key key ;;
      v <- eval value ;;
      k <- lift (py_str k) ;;
      map_pairs eval rest (<[k := v]> map_values)
  end.

(** The last branch of [evaluate_expression], which prints the class of
    what it was given; the module of a node class is named as [mini.py]
    imports the package. *)
Definition unknown_expression_type {A} (expression : option Node) : M Store A :=
  match expression with
  | None => exception "Unknown expression type '<class 'NoneType'>'"
  | Some e =>
      match node_class e with
      | Some cls => exception ("Unknown expression type '<class 'src.ast." ++ cls ++ "'>'")
      | None => opaque "class of a node that ast.py does not declare"
      end
  end.

(** The [else] part of an [if]: the else-ifs in order, then
    [evaluate_expression(expression.elseBody, env)].  An absent else body
    is [None], of which no [isinstance] test of [evaluate_expression]
    holds, so its last branch raises. *)
Fixpoint else_branches (eval : Node -> M Store ref) (elseBody : option Node)
    (elseIfs : list (Node * Node)) : M Store ref :=
  match elseIfs with
  | (cond, body) :: rest =>
      cond <- eval cond ;;
      c <- deref cond ;;
      if negb (is_value_atom c) || negb (String.eqb (atom_type c) "bool") then
        exception "Condition does not evaluate to a bool"
      else if py_truth (payload c) then eval body
      else else_branches eval elseBody rest
  | [] =>
      match elseBody with
      | Some e => eval e
      | None => unknown_expression_type None
      end
  end.

Fixpoint evaluate_binary_atom_expression (fuel : nat) (op : string) (lhs rhs : ref)
    : M Store (option ref) :=
  match fuel with
  | O => out_of_fuel
  | S fuel =>
      l <- deref lhs ;;
      r <- deref rhs ;;
      dprint [atom_formatted_str l; atom_formatted_str r] ;;;
      let lv := payload l in
      let rv := payload r in
      let numeric (tag : string) : M Store (option ref) :=
        compatible_types l r ["number"] ;;;
        v <- lift (py_arith op lv rv) ;;
        x <- alloc (ValueAtom tag v) ;; ret (Some x) in
      let ordering : M Store (option ref) :=
        compatible_types l r ["number"] ;;;
        b <- lift (py_order op lv rv) ;;
        x <- alloc (ValueAtom "bool" (PyBool b)) ;; ret (Some x) in
      if String.eqb op "PLUS" then
        compatible_types l r ["string"; "number"; "bool"; "list"; "tuple"; "map"] ;;;
        if String.eqb (atom_type l) "string" || String.eqb (atom_type r) "string" then
          ls <- atom_raw_str l ;;
          rs <- atom_raw_str r ;;
          x <- alloc (ValueAtom "string" (PyStr (ls ++ rs))) ;; ret (Some x)
        else if String.eqb (atom_type l) "list" && String.eqb (atom_type r) "list" then
          v <- lift (py_arith "PLUS" lv rv) ;;
          x <- alloc (ValueAtom "list" v) ;; ret (Some x)
        else if String.eqb (atom_type l) "number" && String.eqb (atom_type r) "number" then
          v <- lift (py_arith "PLUS" lv rv) ;;
          x <- alloc (ValueAtom "number" v) ;; ret (Some x)
        else if String.eqb (atom_type l) "tuple" && String.eqb (atom_type r) "tuple" then
          match lv, rv with
          | PyList ls, PyList rs =>
              if negb (length ls =? length rs)%nat then
                exception ("Tuple size mismatch: " ++ pretty (length ls) ++ " and "
                             ++ pretty (length rs))
              else
                new_value <-
                  mapM (fun e =>
                          v <- evaluate_binary_atom_expression fuel "PLUS" (fst e) (snd e) ;;
                          match v with
                          | Some x => ret x
                          | None => opaque "unreachable"
                          end)
                       (combine ls rs) ;;
                x <- alloc (ValueAtom "tuple" (PyList new_value)) ;; ret (Some x)
          | _, _ => opaque "tuple whose payload is not a list"
          end
        else if String.eqb (atom_type l) "map" && String.eqb (atom_type r) "map" then
          match lv, rv with
          | PyDict ld, PyDict rd =>
              x <- alloc (ValueAtom "map" (PyDict (rd ∪ ld))) ;; ret (Some x)
          | _, _ => opaque "map whose payload is not a dict"
          end
        else exception ("Cannot add " ++ atom_type l ++ " and " ++ atom_type r)
      else if String.eqb op "MINUS" then numeric "number"
      else if String.eqb op "MULTIPLY" then numeric "number"
      else if String.eqb op "DIVIDE" then numeric "number"
      else if String.eqb op "MODULO" then numeric "number"
      else if String.eqb op "POWER" then numeric "number"
      else if String.eqb op "EQUAL" then
        compatible_types l r ["number"; "string"; "bool"; "unit"; "tuple"; "list"; "map"] ;;;
        if negb (String.eqb (atom_type l) (atom_type r)) then
          x <- alloc (ValueAtom "bool" (PyBool false)) ;; ret (Some x)
        else
          x <- alloc (ValueAtom "bool" (PyBool (py_eq lv rv))) ;; ret (Some x)
      else if String.eqb op "NOTEQUAL" then
        compatible_types l r ["number"; "string"; "bool"] ;;;
        x <- alloc (ValueAtom "bool" (PyBool (negb (py_eq lv rv)))) ;; ret (Some x)
      else if String.eqb op "LESS" then ordering
      else if String.eqb op "GREATER" then ordering
      else if String.eqb op "LESSEQUAL" then ordering
      else if String.eqb op "GREATEREQUAL" then ordering
      else if String.eqb op "AND" then
        compatible_types l r ["bool"] ;;;
        x <- alloc (ValueAtom "bool" (if py_truth lv then rv else lv)) ;; ret (Some x)
      else if String.eqb op "OR" then
        compatible_types l r ["bool"] ;;;
        x <- alloc (ValueAtom "bool" (if py_truth lv then lv else rv)) ;; ret (Some x)
      else if String.eqb op "RANGE" then
        compatible_types l r ["number"] ;;;
        zs <- lift (py_range lv rv) ;;
        items <- mapM (fun i => alloc (ValueAtom "number" (PyInt i))) zs ;;
        x <- alloc (ValueAtom "list" (PyList items)) ;; ret (Some x)
      else if String.eqb op "INDEX" then
        compatible_type l ["list"; "tuple"; "map"] ;;;
        if negb (is_value_atom r) then
          printed <- lift (atom_str r) ;;
          exception ("Indexing expression in not a valid value type: " ++ printed)
        else if str_in (atom_type r) ["number"; "string"; "bool"] then
          element <-
            (if String.eqb (atom_type l) "list" || String.eqb (atom_type l) "tuple" then
               match lv with
               | PyList items => lift (py_list_item items rv)
               | _ => opaque "list or tuple whose payload is not a list"
               end
             else
               index <- atom_raw_str r ;;
               match lv with
               | PyDict d =>
                   match d !! index with
                   | Some element => ret element
                   | None => exception ("Map does not contain key '" ++ index ++ "'")
                   end
               | _ => opaque "map whose payload is not a dict"
               end) ;;
          e <- deref element ;;
          dprint [atom_formatted_str l; atom_formatted_str r; atom_formatted_str e] ;;;
          ret (Some element)
        else exception "Indexing expression does not evaluate to an integer or string"
      else if String.eqb op "CALL" then
        args <-
          (match r with
           | ValueAtom type v =>
               if String.eqb type "tuple" then
                 match v with
                 | PyList items => ret items
                 | _ => opaque "tuple whose payload is not a list"
                 end
               else if String.eqb type "unit" then ret []
               else ret [rhs]
           | _ => ret [rhs]
           end) ;;
        x <- evaluate_call fuel lhs args ;; ret (Some x)
      else ret None
  end

with evaluate_call (fuel : nat) (function : ref) (args : list ref) : M Store ref :=
  match fuel with
  | O => out_of_fuel
  | S fuel =>
      f <- deref function ;;
      match f with
      | FunctionAtom _ _ _ => evaluate_function_atom_call fuel f args
      | BuiltinFunctionAtom _ => opaque "built-in"
      | _ =>
          printed <- lift (atom_str f) ;;
          exception ("Cannot call non-function: " ++ printed)
      end
  end

with evaluate_function_atom_call (fuel : nat) (function : Atom) (args : list ref)
    : M Store ref :=
  match fuel with
  | O => out_of_fuel
  | S fuel =>
      match function with
      | FunctionAtom argumentNames body environment =>
          funcEnv <- new_environment ("<function " ++ atom_name function ++ ">") environment ;;
          if negb (length args =? length argumentNames)%nat then
            exception ("Function '" ++ atom_name function ++ "' expects "
                         ++ pretty (length argumentNames) ++ " arguments, but got "
                         ++ pretty (length args))
          else
            mapM (fun nv => env_set funcEnv (fst nv) (snd nv)) (combine argumentNames args) ;;;
            evaluate_expression fuel body funcEnv
      | _ => opaque "unreachable"
      end
  end

with evaluate_expressions (fuel : nat) (expressions : list Node) (env : ref) : M Store ref :=
  match fuel with
  | O => out_of_fuel
  | S fuel =>
      result <- alloc (ValueAtom "unit" PyNone) ;;
      last_result (fun expression => evaluate_expression fuel expression env)
        expressions result
  end

with evaluate_expression (fuel : nat) (expression : Node) (env : ref) : M Store ref :=
  match fuel with
  | O => out_of_fuel
  | S fuel =>
      match expression with
      | AtomicNode _ value =>
          identifier <- is_identifier expression ;;
          if (identifier : bool) then
            dprint [node_raw_str expression] ;;;
            val <- env_get env value ;;
            match val with
            | None =>
                printed <- lift (py_str value) ;;
                exception ("identifier '" ++ printed ++ "' is not defined")
            | Some v => ret v
            end
          else
            type <- node_type expression ;;
            alloc (ValueAtom type value)
      | TupleNode elements =>
          match elements with
          | [] => alloc (ValueAtom "unit" PyNone)
          | [e] => evaluate_expression fuel e env
          | _ =>
              vs <- mapM (fun e => evaluate_expression fuel e env) elements ;;
              alloc (ValueAtom "tuple" (PyList vs))
          end
      | ListNode elements =>
          vs <- mapM (fun e => evaluate_expression fuel e env) elements ;;
          alloc (ValueAtom "list" (PyList vs))
      | MapNode pairs =>
          map_values <- map_pairs (fun e => evaluate_expression fuel e env) pairs ∅ ;;
          alloc (ValueAtom "map" (PyDict map_values))
      | BlockNode expressions =>
          block <- new_environment "<block>" env ;;
          evaluate_expressions fuel expressions block
      | LambdaNode params body =>
          f <- lift (FunctionAtom_init (map PyStr params) body env []) ;;
          alloc f
      | IfNode condition ifBody elseIfs elseBody =>
          cond <- evaluate_expression fuel condition env ;;
          c <- deref cond ;;
          if negb (is_value_atom c) || negb (String.eqb (atom_type c) "bool") then
            exception "Condition does not evaluate to a bool"
          else if py_truth (payload c) then evaluate_expression fuel ifBody env
          else else_branches (fun e => evaluate_expression fuel e env) elseBody elseIfs
      | UnaryNode op rhs =>
          rhs <- evaluate_expression fuel rhs env ;;
          r <- deref rhs ;;
          let rv := payload r in
          if String.eqb op "MINUS" then
            compatible_type r ["number"] ;;;
            v <- lift (py_neg rv) ;;
            alloc (ValueAtom "number" v)
          else if String.eqb op "NOT" then
            compatible_type r ["bool"] ;;;
            alloc (ValueAtom "bool" (PyBool (negb (py_truth rv))))
          else exception ("Unkown unary operator '" ++ op ++ "'")
      | BinaryNode op left_ right_ =>
          if String.eqb op "ASSIGNMENT" then
            dprint [node_formatted_str left_; node_formatted_str right_] ;;;
            identifier <- is_identifier left_ ;;
            if (identifier : bool) then
              rhs <- evaluate_expression fuel right_ env ;;
              name <- node_value left_ ;;
              env_set env name rhs ;;;
              ret rhs
            else
              members <- is_identifier_members left_ ;;
              if (members : bool) || is_index_expression left_ then
                members <- is_identifier_members left_ ;;
                let op := if (members : bool) then "DOT" else "INDEX" in
                rhs <- evaluate_expression fuel right_ env ;;
                let base := get_left_most_bin_term left_ op in
                identifier <- is_identifier base ;;
                if (identifier : bool) then
                  name <- node_value base ;;
                  obj <- env_get env name ;;
                  match obj with
                  | None =>
                      printed <- lift (py_str name) ;;
                      exception ("Object '" ++ printed ++ "' is not defined")
                  | Some obj =>
                      path <- flatten_bin_terms left_ op false ;;
                      obj <- set_nested_value obj path rhs ;;
                      env_set env name obj ;;;
                      ret rhs
                  end
                else exception "Cannot set member of non-identifer values"
              else
                match left_ with
                | BinaryNode operator functionName args =>
                    if negb (String.eqb operator "CALL") then
                      exception
                        "Invalid assignment, left hand side is not an identifier, function or valid pattern"
                    else
                      (* Function declaration *)
                      identifier <- is_identifier functionName ;;
                      if negb identifier then exception "Function name is not an identifier"
                      else
                        match args with
                        | TupleNode elements =>
                            argNames <-
                              mapM (fun a =>
                                      identifier <- is_identifier a ;;
                                      if (identifier : bool) then node_value a
                                      else
                                        printed <- lift (node_str a) ;;
                                        exception ("Function argument '" ++ printed
                                                     ++ "' is not an identifier"))
                                   elements ;;
                            fname <- node_value functionName ;;
                            value <- lift (FunctionAtom_init argNames right_ env [fname]) ;;
                            value <- alloc value ;;
                            env_set env fname value ;;;
                            ret value
                        | _ => exception "Function arguments are not a tuple"
                        end
                | _ =>
                    exception
                      "Invalid assignment, left hand side is not an identifier, function or valid pattern"
                end
          else
            lhs <- evaluate_expression fuel left_ env ;;
            l <- deref lhs ;;
            if String.eqb op "DOT" then
              dprint [atom_formatted_str l; node_formatted_str right_] ;;;
              identifier <- is_identifier right_ ;;
              if negb identifier then
                exception ("Cannot access member of " ++ atom_type l ++ " with non-identifier key")
              else if negb (is_value_atom l && str_in (atom_type l) ["map"; "tuple"; "list"]) then
                exception ("Cannot access member of " ++ atom_type l)
              else if String.eqb (atom_type l) "map" then
                key <- node_value right_ ;;
                match l, key with
                | ValueAtom _ (PyDict d), PyStr s =>
                    match d !! s with
                    | Some v => ret v
                    | None => exception ("Map does not contain key '" ++ s ++ "'")
                    end
                | _, _ => opaque "map whose payload is not a dict, or key that is not a string"
                end
              else exception ("Cannot access member of " ++ atom_type l ++ ", not implemented yet")
            else
              sliced <-
                (match right_ with
                 | SliceNode start stop step =>
                     if String.eqb op "INDEX" then
                       start <- evaluate_expression fuel start env ;;
                       stop <- evaluate_expression fuel stop env ;;
                       default <- alloc (ValueAtom "number" (PyInt 1)) ;;
                       step <- (match step with
                                | Some e => evaluate_expression fuel e env
                                | None => ret default
                                end) ;;
                       a <- deref start ;;
                       b <- deref stop ;;
                       c <- deref step ;;
                       compatible_types a b ["number"] ;;;
                       compatible_type c ["number"] ;;;
                       i <- lift (py_int (payload a)) ;;
                       j <- lift (py_int (payload b)) ;;
                       k <- lift (py_int (payload c)) ;;
                       compatible_type l ["list"; "tuple"] ;;;
                       match l with
                       | ValueAtom type (PyList items) =>
                           ps <- lift (py_slice_positions (length items) i j k) ;;
                           let lhs_slice := omap (fun p => items !! p) ps in
                           let sliced := ValueAtom type (PyList lhs_slice) in
                           element <- alloc sliced ;;
                           dprint [atom_formatted_str l; atom_formatted_str sliced] ;;;
                           ret (Some element)
                       | _ => opaque "list or tuple whose payload is not a list"
                       end
                     else ret None
                 | _ => ret None
                 end) ;;
              match sliced with
              | Some element => ret element
              | None =>
                  rhs <- evaluate_expression fuel right_ env ;;
                  binOpResult <- evaluate_binary_atom_expression fuel op lhs rhs ;;
                  match binOpResult with
                  | Some v => ret v
                  | None =>
                      if String.eqb op "PLUSEQUAL" then
                        r <- deref rhs ;;
                        compatible_types l r ["string"; "number"] ;;;
                        identifier <- is_identifier left_ ;;
                        if negb identifier then
                          exception
                            ("Left hand side of mutating assignment operator '" ++ op
                               ++ "' must be an identifier")
                        else
                          new_value <-
                            (if String.eqb (atom_type l) "string"
                                || String.eqb (atom_type r) "string" then
                               ls <- atom_raw_str l ;;
                               rs <- atom_raw_str r ;;
                               alloc (ValueAtom "string" (PyStr (ls ++ rs)))
                             else
                               v <- lift (py_arith "PLUS" (payload l) (payload r)) ;;
                               alloc (ValueAtom "number" v)) ;;
                          name <- node_value left_ ;;
                          env_set env name new_value ;;;
                          ret new_value
                      else exception ("Unknown binary operator '" ++ op ++ "'")
                  end
              end
      | ProgramNode _ | SliceNode _ _ _ | FunctionCallNode _ _ | IndexingNode _ _
      | AssignmentNode _ _ | LambdaFunctionNode _ _ =>
          unknown_expression_type (Some expression)
      end
  end.

(** [evaluate(program, env)] *)
Definition evaluate (fuel : nat) (program : Node) (env : ref) : M Store ref :=
  match program with
  | ProgramNode expressions | BlockNode expressions =>
      evaluate_expressions fuel expressions env
  | _ => node_attribute_error program "expressions"
  end.

End Evaluator.

(** ** Notions used by the statements *)

(** The previous character ends an expression that can be applied or
    indexed: it is alphanumeric, or one of [_], [\]], [}], [)]. *)
Definition ends_expression (pc : option ascii) : Prop :=
  exists c, pc = Some c /\
    (isalnum c = true \/ c = "_"%char \/ c = "]"%char \/ c = "}"%char \/ c = ")"%char).

(** The store after one more atom has been created. *)
Definition with_atom (st : Store) (a : Atom) : Store :=
  mkStore (atoms st ++ [a]) (envs st).

(** The store after the atoms [new] have been created, in order. *)
Definition with_atoms (st : Store) (new : list Atom) : Store :=
  mkStore (atoms st ++ new) (envs st).

(** [r] names a value atom with the given tag and payload. *)
Definition holds (st : Store) (r : ref) (type : string) (v : PyVal) : Prop :=
  atoms st !! r = Some (ValueAtom type v).

(** The trees of the two-expression program [f(x) = x * x; f(5)]. *)
Definition identifier (s : string) : Node := AtomicNode "identifier" (PyStr s).
Definition number (z : Z) : Node := AtomicNode "number" (PyInt z).

Definition square_definition : Node :=
  BinaryNode "ASSIGNMENT"
    (BinaryNode "CALL" (identifier "f") (TupleNode [identifier "x"]))
    (BinaryNode "MULTIPLY" (identifier "x") (identifier "x")).

Definition square_call : Node :=
  BinaryNode "CALL" (identifier "f") (TupleNode [number 5]).

Definition square_program : Node := ProgramNode [square_definition; square_call].

(** A store with a root environment and nothing else. *)
Definition root_store : Store := mkStore [] [mkEnvironment "<root>" None ∅].

(** ** Positions, words and stores used by the further statements *)

(** Line and column after one more character. *)
Definition step_position (pos : nat * nat) (c : ascii) : nat * nat :=
  if Ascii.eqb c LF then (S (fst pos), 1%nat)
  else if Ascii.eqb c TAB then (fst pos, (snd pos + 4)%nat)
  else (fst pos, (snd pos + 1)%nat).

(** The lexer once it has consumed the characters [cs] and has [rest] left
    to read. *)
Definition consumed (lx : Lexer.t) (cs rest : list ascii) : Lexer.t :=
  let pos := fold_left step_position cs (Lexer.cur_line lx, Lexer.cur_column lx) in
  Lexer.mk rest (fst pos) (snd pos) (match last cs with Some c => Some c | None => Lexer.prev_char lx end)
    (Lexer.peeked_token lx) (Lexer.prev_comment_ lx).

(** The token made at the current position of a lexer. *)
Definition token_at (lx : Lexer.t) (name : string) (value : PyVal) : Token :=
  mkToken name (Lexer.cur_line lx) (Lexer.cur_column lx) value.

(** The syntax error raised at the current position of a lexer. *)
Definition syntax_error_at (lx : Lexer.t) (msg : string) : exn :=
  PyExc "Exception"
    ("Syntax Error at " ++ pretty (Lexer.cur_line lx) ++ ":" ++ pretty (Lexer.cur_column lx)
       ++ ": " ++ msg).

(** The characters [__read_token] skips. *)
Definition is_whitespace (c : ascii) : bool := char_in c [" "%char; TAB; LF; CR].

(** The characters [__read_identifier] goes on reading. *)
Definition is_identifier_char (c : ascii) : bool := isalnum c || Ascii.eqb c "_".

(** The characters at which [__read_token] reads a word. *)
Definition starts_word (c : ascii) : bool := isalpha c || Ascii.eqb c "_".

(** The words [__read_token] does not leave as identifiers. *)
Definition reserved_words : list string :=
  (["true"; "false"] ++ Lexer.keywords ++ ["and"; "or"; "not"; "is"; "in"])%list.

(** The token [__read_token] makes of a word it has read, at the position
    of the lexer [lx]. *)
Definition word_token (lx : Lexer.t) (word : string) : Token :=
  if str_in word ["true"; "false"] then token_at lx "BOOL" (PyBool (String.eqb word "true"))
  else if str_in word Lexer.keywords then token_at lx "KEYWORD" (PyStr word)
  else if str_in word ["and"; "or"; "not"; "is"; "in"]
       then token_at lx (Lexer.upper word) (PyStr word)
  else token_at lx "IDENTIFIER" (PyStr word).

(** The lexer with its one-token lookahead set to [tk]. *)
Definition with_peeked (lx : Lexer.t) (tk : option Token) : Lexer.t :=
  Lexer.mk (Lexer.source lx) (Lexer.cur_line lx) (Lexer.cur_column lx)
    (Lexer.prev_char lx) tk (Lexer.prev_comment_ lx).

(** Computations that leave the one-token lookahead as it is. *)
Definition keeps_peek {A} (m : M Lexer.t A) : Prop :=
  forall lx a lx', m lx = Ok (a, lx') -> Lexer.peeked_token lx' = Lexer.peeked_token lx.

(** The atom [a] is a bool value. *)
Definition is_bool_atom (a : Atom) : bool :=
  is_value_atom a && String.eqb (atom_type a) "bool".

(** The member expression [base.n1.n2...], as the parser of the description
    nests it: to the left. *)
Definition member_chain (base : Node) (names : list string) : Node :=
  fold_left (fun e n => BinaryNode "DOT" e (AtomicNode "identifier" (PyStr n))) names base.

(** Stores for the examples: a one-parameter function and a unit; a number
    and a string; a number, a list and an index; two numbers; a list and a
    value to put into it. *)
Definition call_store : Store :=
  with_atoms root_store [FunctionAtom [PyStr "x"] (identifier "x") 0%nat; ValueAtom "unit" PyNone].

Definition literal_store : Store :=
  with_atoms root_store [ValueAtom "number" (PyInt 1); ValueAtom "string" (PyStr "1")].

Definition index_store : Store :=
  with_atoms root_store
    [ValueAtom "number" (PyInt 1); ValueAtom "list" (PyList [0%nat; 0%nat]);
     ValueAtom "number" (PyInt (-1))].

Definition number_store (a b : Z) : Store :=
  with_atoms root_store [ValueAtom "number" (PyInt a); ValueAtom "number" (PyInt b)].

Definition assignment_store : Store :=
  with_atoms root_store
    [ValueAtom "number" (PyInt 1); ValueAtom "list" (PyList [0%nat; 0%nat]);
     ValueAtom "number" (PyInt 9)].

(** The values an evaluation can yield: a function, or a unit, tuple, list
    or map value. *)
Definition is_container_or_function (a : Atom) : bool :=
  match a with
  | ValueAtom type _ => str_in type ["unit"; "tuple"; "list"; "map"]
  | FunctionAtom _ _ _ => true
  | BuiltinFunctionAtom _ => false
  end.

(** [r] names, in [st], a value of these kinds. *)
Definition yields (st : Store) (r : ref) : Prop :=
  exists a, atoms st !! r = Some a /\ is_container_or_function a = true.

(** The atoms of [st] are still there in [st'], under the same references. *)
Definition keeps_atoms (st st' : Store) : Prop :=
  exists created, atoms st' = (atoms st ++ created)%list.

(** The error of reading [attr] on an object of class [cls]. *)
Definition no_attribute (cls attr : string) : exn :=
  PyExc "AttributeError" ("'" ++ cls ++ "' object has no attribute '" ++ attr ++ "'").

(** * Theorems *)

(** ** Lexer: parentheses and brackets *)

Lemma is_end_of_expression_spec pc :
  Lexer.is_end_of_expression pc = true <-> ends_expression pc.
Proof.
  unfold ends_expression. destruct pc as [c|]; simpl.
  - unfold char_in. cbn [existsb]. rewrite !orb_true_iff, !Ascii.eqb_eq. split.
    + intros H. exists c. split; [reflexivity|]. intuition discriminate.
    + intros (c' & [= <-] & H). tauto.
  - split; [discriminate|]. intros (c & H & _). discriminate.
Qed.

Lemma read_token_paren fuel lx rest :
  Lexer.source lx = "("%char :: rest ->
  Lexer.read_token (S fuel) lx =
    Ok (mkToken (if Lexer.is_end_of_expression (Lexer.prev_char lx) then "CALL" else "LPAREN")
          (Lexer.cur_line lx) (S (Lexer.cur_column lx)) (PyStr "("),
        Lexer.mk rest (Lexer.cur_line lx) (S (Lexer.cur_column lx)) (Some "("%char)
          (Lexer.peeked_token lx) (Lexer.prev_comment_ lx)).
Proof.
  destruct lx as [src l c pc pk cm]. simpl. intros ->.
  unfold bind, get, Lexer.next_char, Lexer.peek_char. simpl.
  destruct (Lexer.is_end_of_expression pc); simpl; unfold Lexer.token; simpl;
    rewrite Nat.add_1_r; reflexivity.
Qed.

Lemma read_token_bracket fuel lx rest :
  Lexer.source lx = "["%char :: rest ->
  Lexer.read_token (S fuel) lx =
    Ok (mkToken (if Lexer.is_end_of_expression (Lexer.prev_char lx) then "INDEX" else "LBRACKET")
          (Lexer.cur_line lx) (S (Lexer.cur_column lx)) (PyStr "["),
        Lexer.mk rest (Lexer.cur_line lx) (S (Lexer.cur_column lx)) (Some "["%char)
          (Lexer.peeked_token lx) (Lexer.prev_comment_ lx)).
Proof.
  destruct lx as [src l c pc pk cm]. simpl. intros ->.
  unfold bind, get, Lexer.next_char, Lexer.peek_char. simpl.
  destruct (Lexer.is_end_of_expression pc); simpl; unfold Lexer.token; simpl;
    rewrite Nat.add_1_r; reflexivity.
Qed.

(** C6.  When the lexer reads a token at a [(], the token is [CALL] if and
    only if the character read before it is alphanumeric, [_], [\]], [}] or
    [)], and [LPAREN] otherwise; at a [\[] the token is [INDEX] under the
    same condition and [LBRACKET] otherwise.  Alphanumeric is Python's
    [str.isalnum], for every character with a code point up to 255. *)
Theorem paren_and_bracket_by_previous_char (fuel : nat) (lx : Lexer.t) (rest : list ascii) :
  (Lexer.source lx = "("%char :: rest ->
   exists tk lx',
     Lexer.read_token (S fuel) lx = Ok (tk, lx') /\ Lexer.source lx' = rest /\
     (name tk = "CALL" <-> ends_expression (Lexer.prev_char lx)) /\
     (name tk = "LPAREN" <-> ~ ends_expression (Lexer.prev_char lx)))
  /\
  (Lexer.source lx = "["%char :: rest ->
   exists tk lx',
     Lexer.read_token (S fuel) lx = Ok (tk, lx') /\ Lexer.source lx' = rest /\
     (name tk = "INDEX" <-> ends_expression (Lexer.prev_char lx)) /\
     (name tk = "LBRACKET" <-> ~ ends_expression (Lexer.prev_char lx))).
Proof.
  split; intros Hsrc.
  - rewrite (read_token_paren fuel lx rest Hsrc).
    eexists _, _. split; [reflexivity|]. split; [reflexivity|].
    rewrite <- is_end_of_expression_spec.
    destruct (Lexer.is_end_of_expression (Lexer.prev_char lx)); simpl;
      split; split; intros H; try reflexivity; try discriminate; try congruence.
  - rewrite (read_token_bracket fuel lx rest Hsrc).
    eexists _, _. split; [reflexivity|]. split; [reflexivity|].
    rewrite <- is_end_of_expression_spec.
    destruct (Lexer.is_end_of_expression (Lexer.prev_char lx)); simpl;
      split; split; intros H; try reflexivity; try discriminate; try congruence.
Qed.

(** The lexer at [f(] after reading [f], and at a [(] that opens the text. *)
Lemma paren_and_bracket_by_previous_char_witness :
  (exists tk lx',
     Lexer.read_token 1 (Lexer.mk ["("%char] 1 2 (Some "f"%char) None None) = Ok (tk, lx')
     /\ name tk = "CALL")
  /\ ~ ends_expression (Lexer.prev_char (Lexer.init ["("%char])).
Proof.
  split.
  - destruct (paren_and_bracket_by_previous_char 0
                (Lexer.mk ["("%char] 1 2 (Some "f"%char) None None) []) as [Hparen _].
    destruct (Hparen eq_refl) as (tk & lx' & Hrun & _ & Hcall & _).
    exists tk, lx'. split; [exact Hrun|].
    apply Hcall. exists "f"%char. split; [reflexivity|]. left. reflexivity.
  - intros (c & H & _). discriminate H.
Defined.

(** A letter beyond ASCII counts as well: after an e with acute accent
    (code point 233) the parenthesis is a [CALL], after a multiplication
    sign (215) it is not, and the fraction one half (189), which is neither
    a letter nor a digit, is alphanumeric too. *)
Example paren_after_latin_1_characters :
  Lexer.read_token 1 (Lexer.mk ["("%char] 1 2 (Some "233"%char) None None)
    = Ok (mkToken "CALL" 1 3 (PyStr "("),
          Lexer.mk [] 1 3 (Some "("%char) None None)
  /\ Lexer.read_token 1 (Lexer.mk ["("%char] 1 2 (Some "215"%char) None None)
     = Ok (mkToken "LPAREN" 1 3 (PyStr "("),
           Lexer.mk [] 1 3 (Some "("%char) None None)
  /\ Lexer.read_token 1 (Lexer.mk ["("%char] 1 2 (Some "189"%char) None None)
     = Ok (mkToken "CALL" 1 3 (PyStr "("),
           Lexer.mk [] 1 3 (Some "("%char) None None).
Proof. repeat split; vm_compute; reflexivity. Qed.

(** ** Evaluator: tuples *)

Lemma mapM_length {A B} (f : A -> M Store B) (l : list A) :
  forall st ys st', Evaluator.mapM f l st = Ok (ys, st') -> length ys = length l.
Proof.
  induction l as [|x l IH]; intros st ys st' H; simpl in H.
  - unfold ret in H. injection H as <- _. reflexivity.
  - unfold bind in H. destruct (f x st) as [[y st1]| |]; try discriminate.
    destruct (Evaluator.mapM f l st1) as [[ys' st2]| |] eqn:E; try discriminate.
    unfold ret in H. injection H as <- _. simpl. f_equal. exact (IH _ _ _ E).
Qed.

(** C7.  A tuple node with no element evaluates to a new unit value; a
    tuple node with one element evaluates exactly as that element does,
    whatever the outcome; a tuple node with two or more elements, whose
    elements evaluate in order to [vs], yields a new tuple value holding
    [vs], one per element. *)
Theorem tuple_node_collapses (fuel : nat) (env : ref) (st : Store) :
  Evaluator.evaluate_expression (S fuel) (TupleNode []) env st
    = Ok (length (atoms st), with_atom st (ValueAtom "unit" PyNone))
  /\ (forall e,
        Evaluator.evaluate_expression (S fuel) (TupleNode [e]) env st
          = Evaluator.evaluate_expression fuel e env st)
  /\ (forall e1 e2 es vs st1,
        Evaluator.mapM (fun e => Evaluator.evaluate_expression fuel e env)
          (e1 :: e2 :: es) st = Ok (vs, st1) ->
        Evaluator.evaluate_expression (S fuel) (TupleNode (e1 :: e2 :: es)) env st
          = Ok (length (atoms st1), with_atom st1 (ValueAtom "tuple" (PyList vs)))
        /\ length vs = length (e1 :: e2 :: es)).
Proof.
  split; [reflexivity|]. split; [reflexivity|].
  intros e1 e2 es vs st1 H. split.
  - change (Evaluator.evaluate_expression (S fuel) (TupleNode (e1 :: e2 :: es)) env st)
      with (bind (Evaluator.mapM (fun e => Evaluator.evaluate_expression fuel e env)
                    (e1 :: e2 :: es))
              (fun vs => alloc (ValueAtom "tuple" (PyList vs))) st).
    unfold bind at 1. rewrite H. reflexivity.
  - exact (mapM_length _ _ _ _ _ H).
Qed.

(** The pair [((), [])] of the unit and the empty list, in the root store. *)
Lemma tuple_node_collapses_witness :
  Evaluator.evaluate_expression 2 (TupleNode [TupleNode []; ListNode []]) 0%nat root_store
    = Ok (2%nat,
          with_atom (with_atoms root_store
                       [ValueAtom "unit" PyNone; ValueAtom "list" (PyList [])])
            (ValueAtom "tuple" (PyList [0%nat; 1%nat]))).
Proof.
  destruct (tuple_node_collapses 1 0%nat root_store) as (_ & _ & Hmany).
  destruct (Hmany (TupleNode []) (ListNode []) [] [0%nat; 1%nat]
              (with_atoms root_store
                 [ValueAtom "unit" PyNone; ValueAtom "list" (PyList [])])
              eq_refl) as [Hrun _].
  exact Hrun.
Defined.

(** The singleton [(())] is the unit it holds, not a tuple of one element;
    a tuple written over literals stops at the first of them, whose tag the
    evaluator reads as an attribute [type] that an atomic node does not
    have. *)
Example singleton_tuple_and_tuple_of_literals :
  Evaluator.evaluate_expression 2 (TupleNode [TupleNode []]) 0%nat root_store
    = Ok (0%nat, with_atom root_store (ValueAtom "unit" PyNone))
  /\ Evaluator.evaluate_expression 2 (TupleNode [number 3; number 4]) 0%nat root_store
     = Raise (no_attribute "AtomicNode" "type").
Proof. split; vm_compute; reflexivity. Qed.

(** ** Evaluator: what an evaluation can yield *)

Lemma str_in_In (s : string) (l : list string) : str_in s l = true <-> In s l.
Proof.
  unfold str_in. rewrite existsb_exists. split.
  - intros (x & Hin & Heq). apply String.eqb_eq in Heq. subst. exact Hin.
  - intros Hin. exists s. split; [exact Hin | apply String.eqb_refl].
Qed.

Lemma deref_holds st r type v : holds st r type v -> deref r st = Ok (ValueAtom type v, st).
Proof. unfold holds, deref. intros ->. reflexivity. Qed.

Lemma deref_some st r a : atoms st !! r = Some a -> deref r st = Ok (a, st).
Proof. unfold deref. intros ->. reflexivity. Qed.

Lemma bind_Ok {S A B} (m : M S A) (k : A -> M S B) (s : S) (x : B * S) :
  bind m k s = Ok x -> exists a s1, m s = Ok (a, s1) /\ k a s1 = Ok x.
Proof.
  unfold bind. destruct (m s) as [[a s1]| |]; [|discriminate..].
  intros H. exists a, s1. split; [reflexivity | exact H].
Qed.

Lemma deref_Ok st r a st' : deref r st = Ok (a, st') -> atoms st !! r = Some a /\ st' = st.
Proof.
  unfold deref. destruct (atoms st !! r); [|discriminate].
  intros [= -> ->]. split; reflexivity.
Qed.

Lemma node_attribute_error_raises {S A} (e : Node) (attr : string) (s : S) :
  exists x, @node_attribute_error S A e attr s = Raise x.
Proof. unfold node_attribute_error. destruct (node_class e); eexists; reflexivity. Qed.

Lemma alloc_keeps (a : Atom) (st : Store) (r : ref) (st' : Store) :
  alloc a st = Ok (r, st') -> keeps_atoms st st'.
Proof. intros [= <- <-]. exists [a]. reflexivity. Qed.

Lemma keeps_atoms_refl (st : Store) : keeps_atoms st st.
Proof. exists []. rewrite app_nil_r. reflexivity. Qed.

Lemma keeps_atoms_trans (st1 st2 st3 : Store) :
  keeps_atoms st1 st2 -> keeps_atoms st2 st3 -> keeps_atoms st1 st3.
Proof.
  intros [t1 H1] [t2 H2]. exists (t1 ++ t2)%list. rewrite H2, H1, app_assoc. reflexivity.
Qed.

Lemma keeps_atoms_lookup (st st' : Store) (r : ref) (a : Atom) :
  keeps_atoms st st' -> atoms st !! r = Some a -> atoms st' !! r = Some a.
Proof. intros [t ->] H. apply lookup_app_l_Some. exact H. Qed.

Lemma alloc_yields (a : Atom) (st : Store) (r : ref) (st' : Store) :
  is_container_or_function a = true -> alloc a st = Ok (r, st') -> yields st' r.
Proof.
  intros Ha [= <- <-]. exists a. split; [|exact Ha].
  cbn [atoms]. rewrite lookup_app_r by lia. rewrite Nat.sub_diag. reflexivity.
Qed.

(** A container or a function is neither a bool nor a number. *)
Lemma container_is_not_a_bool (a : Atom) :
  is_container_or_function a = true ->
  negb (is_value_atom a) || negb (String.eqb (atom_type a) "bool") = true.
Proof.
  destruct a as [type v| |]; [|reflexivity|discriminate].
  cbn [is_container_or_function is_value_atom atom_type negb orb].
  intros H. apply str_in_In in H. cbn [In] in H.
  repeat (destruct H as [<-|H]; [reflexivity|]). destruct H.
Qed.

Lemma compatible_type_of_a_container (a : Atom) (type : string) (st : Store) (x : bool * Store) :
  is_container_or_function a = true ->
  type = "number" \/ type = "bool" ->
  Evaluator.compatible_type a [type] st <> Ok x.
Proof.
  destruct a as [t v| |]; [|discriminate|discriminate].
  cbn [is_container_or_function]. intros H Htype. apply str_in_In in H. cbn [In] in H.
  destruct Htype as [-> | ->];
    repeat (destruct H as [<-|H]; [discriminate|]); destruct H.
Qed.

Lemma binary_atom_expression_is_never_ok (fuel : nat) (op : string) (lhs rhs : ref)
    (st : Store) (x : option ref * Store) :
  Evaluator.evaluate_binary_atom_expression fuel op lhs rhs st <> Ok x.
Proof.
  destruct fuel as [|fuel]; [discriminate|].
  cbn [Evaluator.evaluate_binary_atom_expression]. unfold bind at 1, deref at 1.
  destruct (atoms st !! lhs); [|discriminate].
  unfold bind at 1, deref at 1. destruct (atoms st !! rhs); discriminate.
Qed.

(** The key of a map literal is refused, or read for an attribute it does
    not have. *)
Lemma map_key_is_never_ok (key : Node) (st : Store) (x : PyVal * Store) :
  Evaluator.map_key key st <> Ok x.
Proof.
  destruct key; discriminate.
Qed.

(** Stripping the binds of a computation that is claimed to succeed,
    until one of its steps is seen to raise. *)
Ltac strip_ok H :=
  repeat
    match type of H with
    | bind _ _ _ = Ok _ =>
        let a := fresh "a" in
        let s := fresh "s" in
        let H1 := fresh "Hstep" in
        apply bind_Ok in H; destruct H as (a & s & H1 & H); try discriminate H1
    | (if ?b then _ else _) _ = Ok _ => destruct b
    | (match ?x with _ => _ end) _ = Ok _ => destruct x
    end;
  try discriminate H.

Ltac by_alloc H :=
  split; [exact (alloc_keeps _ _ _ _ H) | eapply alloc_yields; [|exact H]; reflexivity].

Lemma mapM_keeps {A} (f : A -> M Store ref) (l : list A) :
  (forall x st r st', f x st = Ok (r, st') -> keeps_atoms st st') ->
  forall st rs st', Evaluator.mapM f l st = Ok (rs, st') -> keeps_atoms st st'.
Proof.
  intros Hf. induction l as [|x l IH]; intros st rs st' H.
  - injection H as _ <-. apply keeps_atoms_refl.
  - cbn [Evaluator.mapM] in H. apply bind_Ok in H. destruct H as (y & st1 & Hx & H).
    apply bind_Ok in H. destruct H as (ys & st2 & Hl & H). injection H as _ <-.
    exact (keeps_atoms_trans _ _ _ (Hf _ _ _ _ Hx) (IH _ _ _ Hl)).
Qed.

Lemma last_result_grows (f : Node -> M Store ref) (l : list Node) :
  (forall x st r st', f x st = Ok (r, st') -> keeps_atoms st st' /\ yields st' r) ->
  forall result st r st',
    yields st result ->
    Evaluator.last_result f l result st = Ok (r, st') ->
    keeps_atoms st st' /\ yields st' r.
Proof.
  intros Hf. induction l as [|x l IH]; intros result st r st' Hres H.
  - injection H as <- <-. split; [apply keeps_atoms_refl | exact Hres].
  - cbn [Evaluator.last_result] in H. apply bind_Ok in H.
    destruct H as (r1 & st1 & Hx & H). destruct (Hf _ _ _ _ Hx) as [Hk Hy].
    destruct (IH _ _ _ _ Hy H) as [Hk' Hy'].
    split; [exact (keeps_atoms_trans _ _ _ Hk Hk') | exact Hy'].
Qed.

(** What evaluates at all evaluates to a container or a function, and
    leaves the atoms that were there as they were: a literal stops at its
    tag, an operator at the formatting of its operands, and an [if] or a
    unary operator at an operand that is neither a bool nor a number. *)
Lemma evaluation_grows (fuel : nat) :
  (forall e env st r st',
     Evaluator.evaluate_expression fuel e env st = Ok (r, st') ->
     keeps_atoms st st' /\ yields st' r)
  /\ (forall es env st r st',
        Evaluator.evaluate_expressions fuel es env st = Ok (r, st') ->
        keeps_atoms st st' /\ yields st' r).
Proof.
  induction fuel as [|fuel [IHe IHes]]; [split; discriminate|].
  assert (IHk : forall env x st r st',
             Evaluator.evaluate_expression fuel x env st = Ok (r, st') -> keeps_atoms st st').
  { intros env x st r st' H. exact (proj1 (IHe _ _ _ _ _ H)). }
  split.
  - intros e env st r st' H. destruct e as
      [expressions | valueType value | expressions | elements | elements | pairs
      | operator rhs | operator left_ right_ | params body
      | condition ifBody elseIfs elseBody | start stop step | function args
      | target index | target rhs | args body];
      try (cbv [Evaluator.evaluate_expression Evaluator.unknown_expression_type
                  bind Evaluator.is_identifier node_type node_attribute_error node_class
                  attribute_error Evaluator.exception raise opaque] in H;
           discriminate H).
    + (* block *)
      cbn [Evaluator.evaluate_expression] in H. apply bind_Ok in H.
      destruct H as (block & st1 & Hblock & H). injection Hblock as _ <-.
      destruct (IHes _ _ _ _ _ H) as [[t Ht] Hy]. split; [exists t; exact Ht | exact Hy].
    + (* tuple *)
      destruct elements as [|e1 [|e2 es]].
      * by_alloc H.
      * exact (IHe _ _ _ _ _ H).
      * cbn [Evaluator.evaluate_expression] in H. apply bind_Ok in H.
        destruct H as (vs & st1 & Hvs & H). apply mapM_keeps in Hvs; [|apply IHk].
        split; [exact (keeps_atoms_trans _ _ _ Hvs (alloc_keeps _ _ _ _ H))|].
        eapply alloc_yields; [|exact H]; reflexivity.
    + (* list *)
      cbn [Evaluator.evaluate_expression] in H. apply bind_Ok in H.
      destruct H as (vs & st1 & Hvs & H). apply mapM_keeps in Hvs; [|apply IHk].
      split; [exact (keeps_atoms_trans _ _ _ Hvs (alloc_keeps _ _ _ _ H))|].
      eapply alloc_yields; [|exact H]; reflexivity.
    + (* map *)
      cbn [Evaluator.evaluate_expression] in H. apply bind_Ok in H.
      destruct H as (vs & st1 & Hvs & H).
      destruct pairs as [|[key value] pairs].
      * injection Hvs as _ <-. by_alloc H.
      * cbn [Evaluator.map_pairs] in Hvs. apply bind_Ok in Hvs.
        destruct Hvs as (k & st2 & Hk & _). exfalso. exact (map_key_is_never_ok _ _ _ Hk).
    + (* unary *)
      exfalso. cbn [Evaluator.evaluate_expression] in H. apply bind_Ok in H.
      destruct H as (r1 & st1 & Hrhs & H). apply IHe in Hrhs.
      destruct Hrhs as (_ & a & Ha & Hkind).
      apply bind_Ok in H. destruct H as (a' & st2 & Hd & H).
      apply deref_Ok in Hd. destruct Hd as [Hd ->]. rewrite Ha in Hd. injection Hd as <-.
      destruct (String.eqb operator "MINUS").
      * apply bind_Ok in H. destruct H as (b & st3 & Hc & _).
        exact (compatible_type_of_a_container a "number" st1 _ Hkind (or_introl eq_refl) Hc).
      * destruct (String.eqb operator "NOT"); [|discriminate H].
        apply bind_Ok in H. destruct H as (b & st3 & Hc & _).
        exact (compatible_type_of_a_container a "bool" st1 _ Hkind (or_intror eq_refl) Hc).
    + (* binary *)
      exfalso. cbn [Evaluator.evaluate_expression] in H.
      destruct (String.eqb operator "ASSIGNMENT").
      * apply bind_Ok in H. destruct H as (u & st1 & Hp & _).
        cbn [dprint] in Hp. apply bind_Ok in Hp. destruct Hp as (t & st2 & Hp & _).
        destruct (node_attribute_error_raises (S:=Store) (A:=string) left_ "formatted_str" st)
          as [x Hx].
        unfold node_formatted_str in Hp. rewrite Hx in Hp. discriminate Hp.
      * apply bind_Ok in H. destruct H as (lhs & st1 & _ & H).
        apply bind_Ok in H. destruct H as (l & st2 & _ & H).
        destruct (String.eqb operator "DOT"); [strip_ok H|].
        apply bind_Ok in H. destruct H as (sliced & st3 & Hs & H).
        assert (sliced = None) as ->.
        { destruct right_; try (injection Hs as <- _; reflexivity).
          destruct (String.eqb operator "INDEX"); [|injection Hs as <- _; reflexivity].
          exfalso. strip_ok Hs. }
        apply bind_Ok in H. destruct H as (rhs' & st4 & _ & H).
        apply bind_Ok in H. destruct H as (result & st5 & Hb & _).
        exact (binary_atom_expression_is_never_ok _ _ _ _ _ _ Hb).
    + (* lambda *)
      cbn [Evaluator.evaluate_expression] in H. apply bind_Ok in H.
      destruct H as (f & st1 & Hf & H).
      injection Hf as <- <-. by_alloc H.
    + (* if *)
      exfalso. cbn [Evaluator.evaluate_expression] in H. apply bind_Ok in H.
      destruct H as (r1 & st1 & Hc & H). apply IHe in Hc. destruct Hc as (_ & a & Ha & Hkind).
      apply bind_Ok in H. destruct H as (a' & st2 & Hd & H).
      apply deref_Ok in Hd. destruct Hd as [Hd ->]. rewrite Ha in Hd. injection Hd as <-.
      rewrite (container_is_not_a_bool a Hkind) in H. discriminate H.
  - intros es env st r st' H. cbn [Evaluator.evaluate_expressions] in H.
    apply bind_Ok in H. destruct H as (unit & st1 & Hunit & H).
    destruct (last_result_grows (fun e => Evaluator.evaluate_expression fuel e env) es
                (fun x st0 r0 st0' Hx => IHe _ _ _ _ _ Hx) unit st1 r st'
                ltac:(eapply alloc_yields; [|exact Hunit]; reflexivity) H) as [Hk Hy].
    split; [exact (keeps_atoms_trans _ _ _ (alloc_keeps _ _ _ _ Hunit) Hk) | exact Hy].
Qed.

Lemma evaluation_yields (fuel : nat) (e : Node) (env : ref) (st : Store) (r : ref)
    (st' : Store) :
  Evaluator.evaluate_expression fuel e env st = Ok (r, st') -> yields st' r.
Proof. intros H. exact (proj2 (proj1 (evaluation_grows fuel) _ _ _ _ _ H)). Qed.

(** ** Evaluator: operators on atoms *)

(** C8, on the code.  [==] is computed for no pair of values, whatever
    their kinds: before it looks at the operator,
    [evaluate_binary_atom_expression] builds the text of a debug message by
    calling [formatted_str] on its left operand, a method that no class of
    atoms has, and the host's [AttributeError] ends the evaluation. *)
Theorem equal_raises (fuel : nat) (st : Store) (lhs rhs : ref) (l r : Atom) :
  atoms st !! lhs = Some l ->
  atoms st !! rhs = Some r ->
  Evaluator.evaluate_binary_atom_expression (S fuel) "EQUAL" lhs rhs st
    = Raise (no_attribute (atom_class l) "formatted_str").
Proof.
  intros Hl Hr. cbn [Evaluator.evaluate_binary_atom_expression].
  unfold bind at 1. rewrite (deref_some _ _ _ Hl).
  unfold bind at 1. rewrite (deref_some _ _ _ Hr). reflexivity.
Qed.

(** The number [1] and the string ["1"]. *)
Lemma equal_raises_witness :
  Evaluator.evaluate_binary_atom_expression 1 "EQUAL" 0%nat 1%nat literal_store
    = Raise (PyExc "AttributeError" "'ValueAtom' object has no attribute 'formatted_str'").
Proof.
  exact (equal_raises 0 literal_store 0%nat 1%nat
           (ValueAtom "number" (PyInt 1)) (ValueAtom "string" (PyStr "1")) eq_refl eq_refl).
Defined.

(** C9, on the code.  [start .. end] yields no list, for no operands: the
    same debug message is built before the operator is looked at. *)
Theorem range_raises (fuel : nat) (st : Store) (lhs rhs : ref) (l r : Atom) :
  atoms st !! lhs = Some l ->
  atoms st !! rhs = Some r ->
  Evaluator.evaluate_binary_atom_expression (S fuel) "RANGE" lhs rhs st
    = Raise (no_attribute (atom_class l) "formatted_str").
Proof.
  intros Hl Hr. cbn [Evaluator.evaluate_binary_atom_expression].
  unfold bind at 1. rewrite (deref_some _ _ _ Hl).
  unfold bind at 1. rewrite (deref_some _ _ _ Hr). reflexivity.
Qed.

(** The numbers [1] and [4]. *)
Lemma range_raises_witness :
  Evaluator.evaluate_binary_atom_expression 1 "RANGE" 0%nat 1%nat (number_store 1 4)
    = Raise (PyExc "AttributeError" "'ValueAtom' object has no attribute 'formatted_str'").
Proof.
  exact (range_raises 0 (number_store 1 4) 0%nat 1%nat
           (ValueAtom "number" (PyInt 1)) (ValueAtom "number" (PyInt 4)) eq_refl eq_refl).
Defined.

(** C10, on the code.  Indexing returns no element, for no list or tuple
    and no index, negative or not: the same debug message is built before
    the operator is looked at. *)
Theorem index_raises (fuel : nat) (st : Store) (lhs rhs : ref) (l r : Atom) :
  atoms st !! lhs = Some l ->
  atoms st !! rhs = Some r ->
  Evaluator.evaluate_binary_atom_expression (S fuel) "INDEX" lhs rhs st
    = Raise (no_attribute (atom_class l) "formatted_str").
Proof.
  intros Hl Hr. cbn [Evaluator.evaluate_binary_atom_expression].
  unfold bind at 1. rewrite (deref_some _ _ _ Hl).
  unfold bind at 1. rewrite (deref_some _ _ _ Hr). reflexivity.
Qed.

(** A list of two elements and the index [-1]. *)
Lemma index_raises_witness :
  Evaluator.evaluate_binary_atom_expression 1 "INDEX" 1%nat 2%nat index_store
    = Raise (PyExc "AttributeError" "'ValueAtom' object has no attribute 'formatted_str'").
Proof.
  exact (index_raises 0 index_store 1%nat 2%nat
           (ValueAtom "list" (PyList [0%nat; 0%nat])) (ValueAtom "number" (PyInt (-1)))
           eq_refl eq_refl).
Defined.

(** ** Evaluator: [if] *)

Lemma if_unfold fuel condition ifBody elseIfs elseBody env :
  Evaluator.evaluate_expression (S fuel) (IfNode condition ifBody elseIfs elseBody) env =
    (cond <- Evaluator.evaluate_expression fuel condition env ;;
     c <- deref cond ;;
     if negb (is_value_atom c) || negb (String.eqb (atom_type c) "bool") then
       Evaluator.exception "Condition does not evaluate to a bool"
     else if py_truth (payload c) then Evaluator.evaluate_expression fuel ifBody env
     else Evaluator.else_branches (fun e => Evaluator.evaluate_expression fuel e env)
            elseBody elseIfs).
Proof. reflexivity. Qed.

(** C4, on the code.  No if expression returns unit, with or without an
    else body: its outcome is decided by its condition alone and is never
    a value.  When the condition raises, the [if] raises the same error;
    when the condition evaluates, it evaluates to what is not a bool, and
    the [if] raises [Condition does not evaluate to a bool].  No branch
    and no else-if is reached. *)
Theorem if_never_yields_a_value (fuel : nat) (env : ref) (st : Store)
    (condition ifBody : Node) (elseIfs : list (Node * Node)) (elseBody : option Node) :
  Evaluator.evaluate_expression (S fuel) (IfNode condition ifBody elseIfs elseBody) env st
    = match Evaluator.evaluate_expression fuel condition env st with
      | Ok _ => Raise (PyExc "Exception" "Condition does not evaluate to a bool")
      | Raise e => Raise e
      | OutOfFuel => OutOfFuel
      end.
Proof.
  rewrite if_unfold. unfold bind at 1.
  destruct (Evaluator.evaluate_expression fuel condition env st) as [[r st1]| |] eqn:Hcond;
    [|reflexivity|reflexivity].
  destruct (evaluation_yields _ _ _ _ _ _ Hcond) as (a & Ha & Hkind).
  unfold bind at 1. rewrite (deref_some _ _ _ Ha).
  rewrite (container_is_not_a_bool a Hkind). reflexivity.
Qed.

(** The if expression on the literal [false], with no else-if and no
    else body, stops at the literal: the evaluator reads its tag as an
    attribute [type], which an atomic node does not have.  On a condition
    that does evaluate, the unit [()], it refuses the condition. *)
Example if_false_without_else :
  Evaluator.evaluate_expression 3
    (IfNode (AtomicNode "bool" (PyBool false)) (number 1) [] None) 0%nat root_store
    = Raise (PyExc "AttributeError" "'AtomicNode' object has no attribute 'type'")
  /\ Evaluator.evaluate_expression 3
       (IfNode (TupleNode []) (number 1) [] None) 0%nat root_store
     = Raise (PyExc "Exception" "Condition does not evaluate to a bool").
Proof. split; vm_compute; reflexivity. Qed.

(** ** Evaluator: assignment *)

(** Evaluating an assignment starts, and ends, with reading
    [formatted_str] on its left side. *)
Lemma assignment_reads_formatted_str fuel left_ right_ env st :
  Evaluator.evaluate_expression (S fuel) (BinaryNode "ASSIGNMENT" left_ right_) env st
    = node_attribute_error left_ "formatted_str" st.
Proof.
  cbn [Evaluator.evaluate_expression String.eqb Ascii.eqb Bool.eqb].
  unfold bind at 1. cbn [dprint]. unfold bind at 1, node_formatted_str.
  destruct (node_attribute_error_raises (S:=Store) (A:=string) left_ "formatted_str" st)
    as [x Hx].
  rewrite Hx. revert Hx. unfold node_attribute_error.
  destruct (node_class left_); intros [= <-]; reflexivity.
Qed.

(** A sequence of expressions starts by evaluating the first, after the
    unit value that is its result when empty. *)
Lemma evaluate_expressions_first (fuel : nat) (e : Node) (es : list Node) (env : ref)
    (st : Store) :
  Evaluator.evaluate_expressions (S fuel) (e :: es) env st
    = match Evaluator.evaluate_expression fuel e env (with_atom st (ValueAtom "unit" PyNone)) with
      | Ok (r, st1) =>
          Evaluator.last_result (fun e => Evaluator.evaluate_expression fuel e env) es r st1
      | Raise x => Raise x
      | OutOfFuel => OutOfFuel
      end.
Proof. reflexivity. Qed.

(** C1, on the code.  Evaluating [f(x) = x * x; f(5)] does not yield 25 in
    any environment: the evaluation of the definition starts by building
    the text of a debug message, for which it calls [formatted_str] on the
    left side of the assignment, a method that no node class has, and the
    program stops with the host's [AttributeError] before anything is
    defined or called. *)
Theorem square_program_raises (fuel : nat) (env : ref) (st : Store) :
  Evaluator.evaluate (S (S fuel)) square_program env st
    = Raise (PyExc "AttributeError" "'BinaryNode' object has no attribute 'formatted_str'").
Proof.
  unfold square_program, Evaluator.evaluate. rewrite evaluate_expressions_first.
  unfold square_definition. rewrite assignment_reads_formatted_str. reflexivity.
Qed.

(** Behind that line, the definition would pass the name of the function
    to [FunctionAtom] as a fourth argument, which the class does not
    take. *)
Example function_atom_takes_no_name :
  FunctionAtom_init [PyStr "x"] (identifier "x") 0%nat [PyStr "f"]
    = Raise (PyExc "TypeError"
               "FunctionAtom.__init__() takes 4 positional arguments but 5 were given").
Proof. reflexivity. Qed.

(** ** The scenarios of the description, on trees *)

(** [1 == "1"] and [(1..4)], as trees over literals, stop at the first
    literal. *)
Example scenarios_over_literals :
  Evaluator.evaluate 4
    (ProgramNode [BinaryNode "EQUAL" (number 1) (AtomicNode "string" (PyStr "1"))])
    0%nat root_store
    = Raise (PyExc "AttributeError" "'AtomicNode' object has no attribute 'type'")
  /\ Evaluator.evaluate 4
       (ProgramNode [TupleNode [BinaryNode "RANGE" (number 1) (number 4)]]) 0%nat root_store
     = Raise (PyExc "AttributeError" "'AtomicNode' object has no attribute 'type'").
Proof. split; vm_compute; reflexivity. Qed.

(** ** Parser *)

(** A token already peeked is what [next_token] returns. *)
Lemma next_token_peeked (lx : Lexer.t) (tk : Token) :
  Lexer.peeked_token lx = Some tk ->
  Parser.next_token lx
    = Ok (tk, Lexer.mk (Lexer.source lx) (Lexer.cur_line lx) (Lexer.cur_column lx)
                (Lexer.prev_char lx) None (Lexer.prev_comment_ lx)).
Proof.
  intros H. unfold Parser.next_token, Parser.lexer_fuel. cbn [Nat.add Lexer.next_token].
  unfold bind at 1, get. rewrite H. reflexivity.
Qed.

(** C2, on the code.  The lexer reads [f(5)] as an identifier followed by
    [CALL]; the parser tests for [LPAREN] only, takes [f] as a bare
    identifier, and refuses the [CALL] token as the start of the next
    expression. *)
Theorem call_token_is_refused (fuel : nat) :
  Parser.parse_source (4 + fuel) "f(5)"
    = Raise (PyExc "Exception"
               "Semantic Error at 1:3: Expected primary expression but got 'CALL'").
Proof. vm_compute. reflexivity. Qed.

(** In general: when the token after an identifier is [CALL], the primary
    parse returns the bare identifier and leaves the [CALL] token unread. *)
Lemma identifier_before_call_stays_bare (fuel : nat) (lx lx' : Lexer.t) (tk nt : Token) :
  Lexer.peeked_token lx = Some tk ->
  name tk = "IDENTIFIER" ->
  Parser.peek_token
    (Lexer.mk (Lexer.source lx) (Lexer.cur_line lx) (Lexer.cur_column lx)
       (Lexer.prev_char lx) None (Lexer.prev_comment_ lx)) = Ok (nt, lx') ->
  name nt = "CALL" ->
  Parser.parse_primary (S fuel) lx = Ok (AtomicNode "identifier" (value tk), lx').
Proof.
  intros Hpeek Hname Hnext Hcall. cbn [Parser.parse_primary].
  unfold bind at 1. rewrite (next_token_peeked lx tk Hpeek). rewrite Hname.
  cbn [String.eqb Ascii.eqb Bool.eqb]. unfold bind at 1. rewrite Hnext, Hcall.
  reflexivity.
Qed.

(** With a space the lexer emits [LPAREN], and the parser builds the call
    node of its own, not a binary [CALL] node. *)
Example lparen_call_is_parsed :
  Parser.parse_source 10 "f (5)"
    = Ok (ProgramNode [FunctionCallNode (PyStr "f") [number 5]]).
Proof. vm_compute. reflexivity. Qed.

(** C3, on the code.  [a && b && c] is not parsed: extending the chain, the
    parser looks the right-associative [AND] up in the table of the
    left-associative operators, and the host raises [KeyError]. *)
Theorem and_chain_raises (fuel : nat) :
  Parser.parse_source (5 + fuel) "a && b && c" = Raise (PyExc "KeyError" "'AND'").
Proof. vm_compute. reflexivity. Qed.

(** [a - b - c] is parsed as [(a - b) - c]. *)
Example minus_chain_is_left_associative :
  Parser.parse_source 10 "a - b - c"
    = Ok (ProgramNode
            [BinaryNode "MINUS"
               (BinaryNode "MINUS" (identifier "a") (identifier "b"))
               (identifier "c")]).
Proof. vm_compute. reflexivity. Qed.

(** C5, on the code.  A [BOOL] token, which is what the lexer makes of
    [true] and [false], is refused by the primary parse: the parser tests
    for the name [BOOLEAN]. *)
Theorem bool_token_is_refused (fuel : nat) (lx : Lexer.t) (tk : Token) :
  Lexer.peeked_token lx = Some tk ->
  name tk = "BOOL" ->
  Parser.parse_primary (S fuel) lx
    = Raise (PyExc "Exception"
               ("Semantic Error at " ++ pretty (line tk) ++ ":" ++ pretty (column tk)
                  ++ ": Expected primary expression but got 'BOOL'")).
Proof.
  intros Hpeek Hname. cbn [Parser.parse_primary].
  unfold bind at 1. rewrite (next_token_peeked lx tk Hpeek). rewrite Hname.
  reflexivity.
Qed.

(** The lexer on [true], once the parser has peeked. *)
Lemma bool_token_is_refused_witness :
  Parser.parse_primary 1
    (Lexer.mk [] 1 5 (Some "e"%char) (Some (mkToken "BOOL" 1 5 (PyBool true))) None)
    = Raise (PyExc "Exception"
               "Semantic Error at 1:5: Expected primary expression but got 'BOOL'").
Proof.
  apply (bool_token_is_refused 0 _ (mkToken "BOOL" 1 5 (PyBool true))); reflexivity.
Defined.

(** From source text: [true] is refused, a string and a number are taken. *)
Example bool_literal_is_refused :
  Parser.parse_source 10 "true"
    = Raise (PyExc "Exception"
               "Semantic Error at 1:5: Expected primary expression but got 'BOOL'").
Proof. vm_compute. reflexivity. Qed.

Example string_and_number_literals_are_parsed :
  Parser.parse_source 10 "'s' 42"
    = Ok (ProgramNode [AtomicNode "string" (PyStr "s"); number 42]).
Proof. vm_compute. reflexivity. Qed.

(** ** Lexer: strings, words, comments, operators and numbers *)

Lemma consumed_nil lx : consumed lx [] (Lexer.source lx) = lx.
Proof. destruct lx. reflexivity. Qed.

Lemma consumed_nil' lx rest : Lexer.source lx = rest -> consumed lx [] rest = lx.
Proof. intros <-. apply consumed_nil. Qed.

Lemma consumed_app lx cs1 r1 cs2 r2 :
  consumed (consumed lx cs1 r1) cs2 r2 = consumed lx (cs1 ++ cs2) r2.
Proof.
  unfold consumed. cbn [Lexer.cur_line Lexer.cur_column Lexer.prev_char
                        Lexer.peeked_token Lexer.prev_comment_].
  rewrite fold_left_app, <- surjective_pairing. f_equal.
  rewrite last_app. destruct (last cs2); reflexivity.
Qed.

Lemma next_char_cons lx c rest :
  Lexer.source lx = c :: rest ->
  Lexer.next_char lx = Ok (Some c, consumed lx [c] rest).
Proof.
  intros H. unfold Lexer.next_char, consumed, step_position. rewrite H. cbn.
  destruct (Ascii.eqb c LF); [reflexivity|]. destruct (Ascii.eqb c TAB); reflexivity.
Qed.

Lemma next_char_nil lx : Lexer.source lx = [] -> Lexer.next_char lx = Ok (None, lx).
Proof. intros H. unfold Lexer.next_char. rewrite H. reflexivity. Qed.

Lemma expect_char_cons lx c rest what :
  Lexer.source lx = c :: rest ->
  Lexer.expect_char what lx = Ok (c, consumed lx [c] rest).
Proof. intros H. unfold Lexer.expect_char, bind. rewrite (next_char_cons _ _ _ H). reflexivity. Qed.

Lemma expect_char_nil lx what :
  Lexer.source lx = [] ->
  Lexer.expect_char what lx = Raise (syntax_error_at lx ("Expected " ++ what ++ " but got EOF")).
Proof. intros H. unfold Lexer.expect_char, bind. rewrite (next_char_nil _ H). reflexivity. Qed.

Lemma append_cons (a : ascii) (s t : string) : String a s ++ t = String a (s ++ t).
Proof. reflexivity. Qed.

Lemma append_nil_r (s : string) : s ++ "" = s.
Proof. induction s as [|a s IH]; [reflexivity|]. rewrite append_cons, IH. reflexivity. Qed.

Lemma append_chr (s : string) (c : ascii) (cs : list ascii) :
  (s ++ chr c) ++ string_of_list_ascii cs = s ++ string_of_list_ascii (c :: cs).
Proof.
  induction s as [|a s IH]; [reflexivity|]. rewrite !append_cons, IH. reflexivity.
Qed.

Lemma peek_char_0 lx : Lexer.peek_char 0 lx = Ok (hd NUL (Lexer.source lx), lx).
Proof. unfold Lexer.peek_char. destruct (Lexer.source lx); reflexivity. Qed.

(** X1.  After the opening quote, a body of characters that are neither the quote
    nor a backslash, closed by the same quote, is read as one [STRING] token
    whose value is exactly the body (appended to what was read before); the
    body and the closing quote are consumed, and the token carries the
    position reached after the closing quote. *)
Theorem plain_string_is_read_back (fuel : nat) (quote : ascii) (acc : string)
    (content rest : list ascii) (lx : Lexer.t) :
  Forall (fun c => c <> quote /\ c <> "\"%char) content ->
  Lexer.source lx = (content ++ quote :: rest)%list ->
  (length content < fuel)%nat ->
  Lexer.read_string fuel quote acc lx
    = Ok (token_at (consumed lx (content ++ [quote])%list rest) "STRING"
            (PyStr (acc ++ string_of_list_ascii content)),
          consumed lx (content ++ [quote])%list rest).
Proof.
  intros Hplain. revert fuel acc lx.
  induction Hplain as [|c content [Hq Hb] _ IH]; intros fuel acc lx Hsrc Hfuel.
  - destruct fuel as [|fuel]; [cbn in Hfuel; lia|]. cbn in Hsrc.
    cbn [Lexer.read_string Lexer.can_read]. unfold bind at 1.
    rewrite (expect_char_cons _ _ _ _ Hsrc). rewrite Ascii.eqb_refl.
    cbn [string_of_list_ascii]. rewrite append_nil_r. reflexivity.
  - destruct fuel as [|fuel]; [cbn in Hfuel; lia|]. cbn in Hsrc.
    cbn [Lexer.read_string Lexer.can_read]. unfold bind at 1.
    rewrite (expect_char_cons _ _ _ _ Hsrc).
    apply Ascii.eqb_neq in Hq, Hb. rewrite Hq, Hb.
    rewrite (IH fuel (acc ++ chr c) (consumed lx [c] (content ++ quote :: rest)%list) eq_refl);
      [|cbn in Hfuel; lia].
    rewrite !consumed_app, append_chr. reflexivity.
Qed.

Lemma plain_string_is_read_back_witness :
  Lexer.read_string 3 "'" "" (Lexer.init ["a"; "b"; "'"; " "]%char)
    = Ok (mkToken "STRING" 1 4 (PyStr "ab"), Lexer.mk [" "%char] 1 4 (Some "'"%char) None None).
Proof.
  apply (plain_string_is_read_back 3 "'" "" ["a"; "b"]%char [" "%char]
           (Lexer.init ["a"; "b"; "'"; " "]%char)).
  - repeat (constructor; [split; discriminate|]). constructor.
  - reflexivity.
  - cbn. lia.
Defined.

(** X2.  A string body that reaches the end of input with no closing quote (and
    no backslash) raises the syntax error of [__expect_char], at the position
    of the end of input. *)
Theorem unterminated_string_raises (fuel : nat) (quote : ascii) (acc : string)
    (content : list ascii) (lx : Lexer.t) :
  Forall (fun c => c <> quote /\ c <> "\"%char) content ->
  Lexer.source lx = content ->
  (length content < fuel)%nat ->
  Lexer.read_string fuel quote acc lx
    = Raise (syntax_error_at (consumed lx content [])
               "Expected string content, escape sequence, or closing quote but got EOF").
Proof.
  intros Hplain. revert fuel acc lx.
  induction Hplain as [|c content [Hq Hb] _ IH]; intros fuel acc lx Hsrc Hfuel.
  - destruct fuel as [|fuel]; [cbn in Hfuel; lia|].
    cbn [Lexer.read_string Lexer.can_read]. unfold bind at 1.
    rewrite (expect_char_nil _ _ Hsrc). rewrite (consumed_nil' lx _ Hsrc). reflexivity.
  - destruct fuel as [|fuel]; [cbn in Hfuel; lia|].
    cbn [Lexer.read_string Lexer.can_read]. unfold bind at 1.
    rewrite (expect_char_cons _ _ _ _ Hsrc).
    apply Ascii.eqb_neq in Hq, Hb. rewrite Hq, Hb.
    rewrite (IH fuel (acc ++ chr c) (consumed lx [c] content) eq_refl); [|cbn in Hfuel; lia].
    rewrite consumed_app. reflexivity.
Qed.

Lemma unterminated_string_raises_witness :
  Lexer.read_string 3 "'" "" (Lexer.init ["a"; "b"]%char)
    = Raise (PyExc "Exception"
               "Syntax Error at 1:3: Expected string content, escape sequence, or closing quote but got EOF").
Proof.
  apply (unterminated_string_raises 3 "'" "" ["a"; "b"]%char (Lexer.init ["a"; "b"]%char)).
  - repeat (constructor; [split; discriminate|]). constructor.
  - reflexivity.
  - cbn. lia.
Defined.

Lemma identifier_loop (fuel : nat) (cs rest : list ascii) :
  forall (acc : string) (lx : Lexer.t),
    Forall (fun c => is_identifier_char c = true) cs ->
    is_identifier_char (hd NUL rest) = false ->
    Lexer.source lx = (cs ++ rest)%list ->
    (length cs < fuel)%nat ->
    Lexer.read_identifier_loop fuel acc (hd NUL (cs ++ rest)) lx
      = Ok (acc ++ string_of_list_ascii cs, consumed lx cs rest).
Proof.
  revert fuel. induction cs as [|c cs IH]; intros fuel acc lx Hcs Hstop Hsrc Hfuel.
  - destruct fuel as [|fuel]; [cbn in Hfuel; lia|]. cbn [app] in *.
    cbn [Lexer.read_identifier_loop]. unfold is_identifier_char in Hstop. rewrite Hstop.
    cbn [string_of_list_ascii]. rewrite append_nil_r, (consumed_nil' lx _ Hsrc). reflexivity.
  - destruct fuel as [|fuel]; [cbn in Hfuel; lia|]. cbn [app hd] in *.
    inversion Hcs as [|? ? Hc Hcs']; subst.
    cbn [Lexer.read_identifier_loop]. unfold is_identifier_char in Hc. rewrite Hc.
    unfold bind at 1. rewrite (expect_char_cons _ _ _ _ Hsrc).
    cbn [Lexer.can_read]. unfold bind at 1. rewrite peek_char_0.
    change (Lexer.source (consumed lx [c] (cs ++ rest)%list)) with (cs ++ rest)%list.
    rewrite (IH fuel (acc ++ chr c) (consumed lx [c] (cs ++ rest)%list) Hcs' Hstop eq_refl);
      [|cbn in Hfuel; lia].
    rewrite consumed_app, append_chr. reflexivity.
Qed.

Lemma read_identifier_whole (fuel : nat) (first : ascii) (cs rest : list ascii)
    (lx : Lexer.t) :
  Forall (fun c => is_identifier_char c = true) cs ->
  is_identifier_char (hd NUL rest) = false ->
  Lexer.source lx = (cs ++ rest)%list ->
  (length cs < fuel)%nat ->
  Lexer.read_identifier fuel first lx
    = Ok (token_at (consumed lx cs rest) "IDENTIFIER"
            (PyStr (String first (string_of_list_ascii cs))),
          consumed lx cs rest).
Proof.
  intros Hcs Hstop Hsrc Hfuel. unfold Lexer.read_identifier.
  unfold bind at 1. rewrite peek_char_0, Hsrc.
  unfold bind at 1. rewrite (identifier_loop fuel cs rest (chr first) lx Hcs Hstop Hsrc Hfuel).
  reflexivity.
Qed.

Lemma starts_word_cases (c : ascii) :
  starts_word c = true ->
  Ascii.eqb c NUL = false
  /\ char_in c [" "%char; TAB; LF; CR] = false
  /\ char_in c [DQUOTE; "'"%char] = false
  /\ isdigit c = false.
Proof.
  destruct c as [[] [] [] [] [] [] [] []]; intros H; try discriminate H;
    vm_compute; repeat split.
Qed.

Lemma read_token_word (fuel : nat) (lx : Lexer.t) (c : ascii) (cs rest : list ascii) :
  starts_word c = true ->
  Forall (fun c => is_identifier_char c = true) cs ->
  is_identifier_char (hd NUL rest) = false ->
  Lexer.source lx = (c :: cs ++ rest)%list ->
  (length cs < fuel)%nat ->
  Lexer.read_token (S fuel) lx
    = Ok (word_token (consumed lx (c :: cs) rest) (String c (string_of_list_ascii cs)),
          consumed lx (c :: cs) rest).
Proof.
  intros Hc Hcs Hstop Hsrc Hfuel.
  destruct (starts_word_cases c Hc) as (Hnul & Hws & Hq & Hd).
  cbn [Lexer.read_token]. unfold bind at 1, get. unfold bind at 1.
  rewrite (next_char_cons _ _ _ Hsrc). rewrite Hnul.
  unfold bind at 1. rewrite peek_char_0. rewrite Hws, Hq, Hd.
  unfold starts_word in Hc. rewrite Hc.
  unfold bind at 1.
  rewrite (read_identifier_whole fuel c cs rest (consumed lx [c] (cs ++ rest)%list)
             Hcs Hstop eq_refl Hfuel).
  rewrite consumed_app. cbn [app].
  unfold word_token, Lexer.token, token_at. cbn [value].
  destruct (str_in _ ["true"; "false"]); [reflexivity|].
  destruct (str_in _ Lexer.keywords); [reflexivity|].
  destruct (str_in _ ["and"; "or"; "not"; "is"; "in"]); reflexivity.
Qed.

Lemma bool_words_are_not_keywords (w : string) :
  str_in w ["true"; "false"] = true ->
  str_in w Lexer.keywords = false /\ str_in w ["and"; "or"; "not"; "is"; "in"] = false.
Proof.
  intros H. apply str_in_In in H. cbn [In] in H.
  repeat (destruct H as [<-|H]; [split; reflexivity|]). destruct H.
Qed.

Lemma keywords_are_not_operator_words (w : string) :
  str_in w Lexer.keywords = true ->
  str_in w ["true"; "false"] = false /\ str_in w ["and"; "or"; "not"; "is"; "in"] = false.
Proof.
  intros H. apply str_in_In in H. unfold Lexer.keywords in H. cbn [In] in H.
  repeat (destruct H as [<-|H]; [split; reflexivity|]). destruct H.
Qed.

Lemma reserved_words_spec (w : string) :
  In w reserved_words
  <-> str_in w ["true"; "false"] = true \/ str_in w Lexer.keywords = true
      \/ str_in w ["and"; "or"; "not"; "is"; "in"] = true.
Proof. unfold reserved_words. rewrite !in_app_iff, !str_in_In. tauto. Qed.

Ltac word_case :=
  do 2 eexists; split; [reflexivity|]; split; [|split; [|split]];
  first [ intros _; split; reflexivity
        | intros H; apply str_in_In in H; congruence
        | intros H; exfalso; apply H; apply reserved_words_spec; tauto ].

(** X3.  A word, that is a character [str.isalpha] accepts or an underscore,
    followed by characters [str.isalnum] accepts and underscores up to the
    first character that is none of these (or the end of input), is read
    whole as one token at the position after the word:
    [BOOL] with the boolean for [true] and [false], [KEYWORD] with the word
    for the ten keywords, the word in upper case as token name for [and],
    [or], [not], [is], [in], and [IDENTIFIER] with the word otherwise. *)
Theorem words_are_read_whole_and_classified (fuel : nat) (lx : Lexer.t) (c : ascii)
    (cs rest : list ascii) :
  starts_word c = true ->
  Forall (fun c => is_identifier_char c = true) cs ->
  is_identifier_char (hd NUL rest) = false ->
  Lexer.source lx = (c :: cs ++ rest)%list ->
  (length cs < fuel)%nat ->
  let word := String c (string_of_list_ascii cs) in
  let lx' := consumed lx (c :: cs) rest in
  exists nm v,
    Lexer.read_token (S fuel) lx = Ok (token_at lx' nm v, lx')
    /\ (In word ["true"; "false"] -> nm = "BOOL" /\ v = PyBool (String.eqb word "true"))
    /\ (In word Lexer.keywords -> nm = "KEYWORD" /\ v = PyStr word)
    /\ (In word ["and"; "or"; "not"; "is"; "in"] -> nm = Lexer.upper word /\ v = PyStr word)
    /\ (~ In word reserved_words -> nm = "IDENTIFIER" /\ v = PyStr word).
Proof.
  intros Hc Hcs Hstop Hsrc Hfuel word lx'.
  rewrite (read_token_word fuel lx c cs rest Hc Hcs Hstop Hsrc Hfuel).
  fold word lx'. unfold word_token.
  destruct (str_in word ["true"; "false"]) eqn:Hb.
  - destruct (bool_words_are_not_keywords word Hb) as [Hk Ho]. word_case.
  - destruct (str_in word Lexer.keywords) eqn:Hk.
    + destruct (keywords_are_not_operator_words word Hk) as [_ Ho]. word_case.
    + destruct (str_in word ["and"; "or"; "not"; "is"; "in"]) eqn:Ho; word_case.
Qed.

Lemma words_are_read_whole_and_classified_witness :
  exists nm v,
    Lexer.read_token 3 (Lexer.init ["i"; "f"; "("]%char)
      = Ok (mkToken nm 1 3 v, Lexer.mk ["("%char] 1 3 (Some "f"%char) None None)
    /\ nm = "KEYWORD" /\ v = PyStr "if".
Proof.
  destruct (words_are_read_whole_and_classified 2 (Lexer.init ["i"; "f"; "("]%char) "i"
              ["f"%char] ["("%char] eq_refl
              ltac:(repeat constructor) eq_refl eq_refl (le_n 2))
    as (nm & v & Hrun & _ & Hkeyword & _).
  exists nm, v. split; [exact Hrun|]. apply Hkeyword. cbn. tauto.
Defined.

Lemma line_comment_to_newline (fuel : nat) (cs rest : list ascii) :
  forall (acc : string) (lx : Lexer.t),
    Forall (fun c => c <> LF) cs ->
    Lexer.source lx = (cs ++ LF :: rest)%list ->
    (length cs < fuel)%nat ->
    Lexer.line_comment fuel acc lx
      = Ok (acc ++ string_of_list_ascii cs, consumed lx cs (LF :: rest)).
Proof.
  revert fuel. induction cs as [|c cs IH]; intros fuel acc lx Hcs Hsrc Hfuel.
  - destruct fuel as [|fuel]; [cbn in Hfuel; lia|]. cbn [app] in *.
    cbn [Lexer.line_comment]. unfold bind at 1. rewrite peek_char_0, Hsrc. cbn [hd].
    rewrite Ascii.eqb_refl. cbn [Lexer.can_read andb negb string_of_list_ascii].
    rewrite append_nil_r, (consumed_nil' lx _ Hsrc). reflexivity.
  - destruct fuel as [|fuel]; [cbn in Hfuel; lia|]. cbn [app] in *.
    inversion Hcs as [|? ? Hc Hcs']; subst.
    cbn [Lexer.line_comment]. unfold bind at 1. rewrite peek_char_0, Hsrc. cbn [hd].
    apply Ascii.eqb_neq in Hc. rewrite Hc. cbn [Lexer.can_read andb negb].
    unfold bind at 1. rewrite (expect_char_cons _ _ _ _ Hsrc).
    rewrite (IH fuel (acc ++ chr c) (consumed lx [c] (cs ++ LF :: rest)%list) Hcs' eq_refl);
      [|cbn in Hfuel; lia].
    rewrite consumed_app, append_chr. reflexivity.
Qed.

Lemma line_comment_to_end (fuel : nat) (cs : list ascii) :
  forall (acc : string) (lx : Lexer.t),
    Forall (fun c => c <> LF) cs ->
    Lexer.source lx = cs ->
    (length cs < fuel)%nat ->
    Lexer.line_comment fuel acc lx
      = Raise (syntax_error_at (consumed lx cs []) "Expected comment content but got EOF").
Proof.
  revert fuel. induction cs as [|c cs IH]; intros fuel acc lx Hcs Hsrc Hfuel.
  - destruct fuel as [|fuel]; [cbn in Hfuel; lia|].
    cbn [Lexer.line_comment]. unfold bind at 1. rewrite peek_char_0, Hsrc. cbn [hd].
    change (Ascii.eqb NUL LF) with false. cbn [Lexer.can_read andb negb].
    unfold bind at 1. rewrite (expect_char_nil _ _ Hsrc), (consumed_nil' lx _ Hsrc). reflexivity.
  - destruct fuel as [|fuel]; [cbn in Hfuel; lia|].
    inversion Hcs as [|? ? Hc Hcs']; subst.
    cbn [Lexer.line_comment]. unfold bind at 1. rewrite peek_char_0, Hsrc. cbn [hd].
    apply Ascii.eqb_neq in Hc. rewrite Hc. cbn [Lexer.can_read andb negb].
    unfold bind at 1. rewrite (expect_char_cons _ _ _ _ Hsrc).
    rewrite (IH fuel (acc ++ chr c) (consumed lx [c] cs) Hcs' eq_refl); [|cbn in Hfuel; lia].
    rewrite consumed_app. reflexivity.
Qed.

Lemma read_token_line_comment fuel lx cs :
  Lexer.source lx = ("/" :: "/" :: cs)%char%list ->
  Lexer.read_token (S fuel) lx
    = match Lexer.line_comment fuel "" (consumed lx ["/"; "/"]%char%list cs) with
      | Ok (comment, lx') => Ok (token_at lx' "COMMENT" (PyStr comment), lx')
      | Raise e => Raise e
      | OutOfFuel => OutOfFuel
      end.
Proof.
  intros Hsrc. cbn [Lexer.read_token]. unfold bind at 1, get at 1.
  unfold bind at 1. rewrite (next_char_cons _ _ _ Hsrc).
  change (Ascii.eqb "/" NUL) with false. cbv iota.
  unfold bind at 1. rewrite peek_char_0. cbn [consumed Lexer.source hd].
  change (char_in "/" [" "%char; TAB; LF; CR]) with false.
  change (char_in "/" [DQUOTE; "'"%char]) with false.
  change (isdigit "/") with false. change (isalpha "/" || Ascii.eqb "/" "_") with false.
  change (Ascii.eqb "/" "/" && Ascii.eqb "/" "/") with true. cbv iota.
  unfold bind at 1.
  rewrite (expect_char_cons _ "/"%char cs); [|reflexivity].
  fold (consumed lx ["/"%char] ("/"%char :: cs)). rewrite consumed_app. cbn [app].
  unfold bind at 1.
  destruct (Lexer.line_comment fuel "" (consumed lx ["/"%char; "/"%char] cs)) as [[comment lx']| |];
    reflexivity.
Qed.

(** X4.  A line comment closed by a newline is read as a [COMMENT] token holding
    the text between the two slashes and the newline, which is left unread;
    a line comment that runs to the end of input raises the syntax error of
    [__expect_char]. *)
Theorem line_comment_needs_newline (fuel : nat) (lx : Lexer.t) (cs rest : list ascii) :
  Forall (fun c => c <> LF) cs ->
  (length cs < fuel)%nat ->
  (Lexer.source lx = ("/"%char :: "/"%char :: cs ++ LF :: rest)%list ->
   Lexer.read_token (S fuel) lx
     = Ok (token_at (consumed lx ("/"%char :: "/"%char :: cs) (LF :: rest)) "COMMENT"
             (PyStr (string_of_list_ascii cs)),
           consumed lx ("/"%char :: "/"%char :: cs) (LF :: rest)))
  /\ (Lexer.source lx = ("/"%char :: "/"%char :: cs)%list ->
      Lexer.read_token (S fuel) lx
        = Raise (syntax_error_at (consumed lx ("/"%char :: "/"%char :: cs) [])
                   "Expected comment content but got EOF")).
Proof.
  intros Hcs Hfuel. split; intros Hsrc.
  - rewrite (read_token_line_comment fuel lx _ Hsrc).
    rewrite (line_comment_to_newline fuel cs rest ""
               (consumed lx ["/"%char; "/"%char] (cs ++ LF :: rest)%list) Hcs eq_refl Hfuel).
    rewrite consumed_app. reflexivity.
  - rewrite (read_token_line_comment fuel lx _ Hsrc).
    rewrite (line_comment_to_end fuel cs "" (consumed lx ["/"%char; "/"%char] cs)
               Hcs eq_refl Hfuel).
    rewrite consumed_app. reflexivity.
Qed.

Lemma line_comment_needs_newline_witness :
  Lexer.read_token 4 (Lexer.init ["/"; "/"; "a"; "b"]%char)
    = Raise (PyExc "Exception" "Syntax Error at 1:5: Expected comment content but got EOF").
Proof.
  apply (proj2 (line_comment_needs_newline 3 (Lexer.init ["/"; "/"; "a"; "b"]%char)
                  ["a"; "b"]%char []
                  ltac:(repeat (constructor; [discriminate|]); constructor)
                  ltac:(cbn; lia))).
  reflexivity.
Defined.

Lemma find_op2_cases (c nc : ascii) (nm : string) :
  Lexer.find_op2 c nc = Some nm ->
  In (chr c ++ chr nc, nm) Lexer.operators2.
Proof.
  unfold Lexer.find_op2, Lexer.find_op. intros H.
  destruct (List.find (fun e => String.eqb (chr c ++ chr nc) (fst e)) Lexer.operators2)
    as [[key nm']|] eqn:E; [|discriminate].
  injection H as <-. apply find_some in E. destruct E as [Hin Heq].
  apply String.eqb_eq in Heq. cbn [fst] in Heq. rewrite Heq. exact Hin.
Qed.

(** X7.  When the next two characters form one of the two-character operators,
    [__read_token] consumes both and returns the token of that operator,
    with the two characters as its value, whatever follows. *)
Theorem two_character_operators_are_greedy (fuel : nat) (lx : Lexer.t) (c nc : ascii)
    (rest : list ascii) (nm : string) :
  Lexer.find_op2 c nc = Some nm ->
  Lexer.source lx = c :: nc :: rest ->
  Lexer.read_token (S fuel) lx
    = Ok (token_at (consumed lx [c; nc] rest) nm (PyStr (chr c ++ chr nc)),
          consumed lx [c; nc] rest).
Proof.
  intros Hop Hsrc. apply find_op2_cases in Hop.
  destruct lx as [src l col pc pk cm]. cbn in Hsrc. subst src.
  change (chr c ++ chr nc) with (String c (String nc "")) in Hop.
  unfold Lexer.operators2 in Hop. cbn [In] in Hop.
  repeat (destruct Hop as [Hop|Hop];
          [injection Hop as <- <- <-; reflexivity|]).
  destruct Hop.
Qed.

Lemma two_character_operators_are_greedy_witness :
  Lexer.read_token 1 (Lexer.init ["+"; "="; "1"]%char)
    = Ok (mkToken "PLUSEQUAL" 1 3 (PyStr "+="),
          Lexer.mk ["1"%char] 1 3 (Some "="%char) None None).
Proof.
  exact (two_character_operators_are_greedy 0 (Lexer.init ["+"; "="; "1"]%char) "+" "="
           ["1"%char] "PLUSEQUAL" eq_refl eq_refl).
Defined.

Lemma isdecimal_cases (d : ascii) :
  isdecimal d = true ->
  In d ["0"; "1"; "2"; "3"; "4"; "5"; "6"; "7"; "8"; "9"]%char.
Proof.
  destruct d as [[] [] [] [] [] [] [] []]; intros H; try discriminate H; cbn; tauto.
Qed.

(** X8.  A single digit followed by two points is read as the [NUMBER] of that
    digit, and both points are left for the [RANGE] token. *)
Theorem range_after_a_digit (fuel : nat) (lx : Lexer.t) (d : ascii) (rest : list ascii) :
  isdecimal d = true ->
  Lexer.source lx = (d :: "." :: "." :: rest)%char%list ->
  Lexer.read_token (S (S fuel)) lx
    = Ok (token_at (consumed lx [d] ("." :: "." :: rest)%char%list) "NUMBER"
            (PyInt (digit_val d)),
          consumed lx [d] ("." :: "." :: rest)%char%list).
Proof.
  intros Hd Hsrc. destruct lx as [src l col pc pk cm]. cbn in Hsrc. subst src.
  apply isdecimal_cases in Hd. cbn [In] in Hd.
  repeat (destruct Hd as [<-|Hd]; [vm_compute; reflexivity|]). destruct Hd.
Qed.

Lemma range_after_a_digit_witness :
  Lexer.read_token 2 (Lexer.init ["1"; "."; "."; "4"]%char)
    = Ok (mkToken "NUMBER" 1 2 (PyInt 1),
          Lexer.mk ["."; "."; "4"]%char 1 2 (Some "1"%char) None None).
Proof.
  exact (range_after_a_digit 0 (Lexer.init ["1"; "."; "."; "4"]%char) "1" ["4"%char]
           eq_refl eq_refl).
Defined.

(** X9.  Two digits followed by a point are read as the [NUMBER] of the two
    digits and the point is left unread, whatever follows it: [nnc] is read
    once before the loop, so at the point it still holds that point, and the
    loop ends as if a range followed.  [12.5] is not read as one number. *)
Theorem point_after_two_digits_is_left (fuel : nat) (lx : Lexer.t) (d1 d2 : ascii)
    (rest : list ascii) :
  isdecimal d1 = true ->
  isdecimal d2 = true ->
  Lexer.source lx = (d1 :: d2 :: "." :: rest)%char%list ->
  Lexer.read_token (S (S (S fuel))) lx
    = Ok (token_at (consumed lx [d1; d2] ("." :: rest)%char%list) "NUMBER"
            (PyInt (10 * digit_val d1 + digit_val d2)),
          consumed lx [d1; d2] ("." :: rest)%char%list).
Proof.
  intros Hd1 Hd2 Hsrc. destruct lx as [src l col pc pk cm]. cbn in Hsrc. subst src.
  apply isdecimal_cases in Hd1, Hd2. cbn [In] in Hd1, Hd2.
  repeat (destruct Hd1 as [<-|Hd1];
          [repeat (destruct Hd2 as [<-|Hd2]; [vm_compute; reflexivity|]); destruct Hd2|]).
  destruct Hd1.
Qed.

Lemma point_after_two_digits_is_left_witness :
  Lexer.read_token 3 (Lexer.init ["1"; "2"; "."; "5"]%char)
    = Ok (mkToken "NUMBER" 1 3 (PyInt 12),
          Lexer.mk ["."; "5"]%char 1 3 (Some "2"%char) None None).
Proof.
  exact (point_after_two_digits_is_left 0 (Lexer.init ["1"; "2"; "."; "5"]%char) "1" "2"
           ["5"%char] eq_refl eq_refl eq_refl).
Defined.

Lemma read_token_lone_point (fuel : nat) (lx : Lexer.t) (rest : list ascii) :
  Lexer.source lx = ("." :: rest)%char%list ->
  hd NUL rest <> "."%char ->
  Lexer.read_token (S fuel) lx
    = Ok (token_at (consumed lx ["."%char] rest) "DOT" (PyStr "."),
          consumed lx ["."%char] rest).
Proof.
  intros Hsrc Hnext. destruct lx as [src l col pc pk cm]. cbn in Hsrc. subst src.
  destruct rest as [|nc rest]; [reflexivity|]. cbn [hd] in Hnext.
  destruct nc as [[] [] [] [] [] [] [] []];
    try (exfalso; apply Hnext; reflexivity); vm_compute; reflexivity.
Qed.

(** X10.  Three digits followed by two points: the number swallows the first
    point, since [nnc] still holds the third digit when the loop reaches it.
    The token is the [NUMBER] of the three digits and only one point is
    left; unless a third point follows, that point is read as [DOT], and
    there is no [RANGE] token. *)
Theorem range_after_three_digits_is_lost (fuel fuel' : nat) (lx : Lexer.t) (d1 d2 d3 : ascii)
    (rest : list ascii) :
  isdecimal d1 = true ->
  isdecimal d2 = true ->
  isdecimal d3 = true ->
  Lexer.source lx = (d1 :: d2 :: d3 :: "." :: "." :: rest)%char%list ->
  let lx1 := consumed lx [d1; d2; d3; "."%char] ("." :: rest)%char%list in
  Lexer.read_token (S (S (S (S (S fuel))))) lx
    = Ok (token_at lx1 "NUMBER"
            (PyInt (100 * digit_val d1 + 10 * digit_val d2 + digit_val d3)),
          lx1)
  /\ (hd NUL rest <> "."%char ->
      Lexer.read_token (S fuel') lx1
        = Ok (token_at (consumed lx1 ["."%char] rest) "DOT" (PyStr "."),
              consumed lx1 ["."%char] rest)).
Proof.
  intros Hd1 Hd2 Hd3 Hsrc lx1. split.
  - subst lx1. destruct lx as [src l col pc pk cm]. cbn in Hsrc. subst src.
    apply isdecimal_cases in Hd1, Hd2, Hd3. cbn [In] in Hd1, Hd2, Hd3.
    repeat (destruct Hd1 as [<-|Hd1];
            [repeat (destruct Hd2 as [<-|Hd2];
                     [repeat (destruct Hd3 as [<-|Hd3]; [vm_compute; reflexivity|]);
                      destruct Hd3|]);
             destruct Hd2|]).
    destruct Hd1.
  - intros Hnext. exact (read_token_lone_point fuel' lx1 rest eq_refl Hnext).
Qed.

Lemma range_after_three_digits_is_lost_witness :
  Lexer.read_token 5 (Lexer.init ["1"; "0"; "0"; "."; "."; "2"]%char)
    = Ok (mkToken "NUMBER" 1 5 (PyInt 100),
          Lexer.mk ["."; "2"]%char 1 5 (Some "."%char) None None)
  /\ Lexer.read_token 1 (Lexer.mk ["."; "2"]%char 1 5 (Some "."%char) None None)
     = Ok (mkToken "DOT" 1 6 (PyStr "."),
           Lexer.mk ["2"%char] 1 6 (Some "."%char) None None).
Proof.
  destruct (range_after_three_digits_is_lost 0 0
              (Lexer.init ["1"; "0"; "0"; "."; "."; "2"]%char) "1" "0" "0" ["2"%char]
              eq_refl eq_refl eq_refl eq_refl) as [Hnumber Hpoint].
  split; [exact Hnumber|]. apply Hpoint. discriminate.
Defined.

(** ** Lexer: the one-token lookahead *)

Lemma peek_token_unpeeked fuel allow_comment lx :
  Lexer.peeked_token lx = None ->
  Lexer.peek_token fuel allow_comment lx
    = match Lexer.next_token fuel allow_comment lx with
      | Ok (tk, lx') => Ok (tk, with_peeked lx' (Some tk))
      | Raise e => Raise e
      | OutOfFuel => OutOfFuel
      end.
Proof.
  intros H. unfold Lexer.peek_token, bind, get. rewrite H.
  destruct (Lexer.next_token fuel allow_comment lx) as [[tk lx']| |]; reflexivity.
Qed.

(** X5.  At the end of input, with no token peeked, [next_token] returns an [EOF]
    token at the current position and leaves the lexer as it was, so that
    asking again gives the same answer; [peek_token] returns the same token
    and keeps it, and [is_done] is true. *)
Theorem end_of_input_is_reported_again (fuel : nat) (allow_comment : bool) (lx : Lexer.t) :
  Lexer.source lx = [] ->
  Lexer.peeked_token lx = None ->
  let eof := token_at lx "EOF" PyNone in
  Lexer.next_token (S (S fuel)) allow_comment lx = Ok (eof, lx)
  /\ Lexer.peek_token (S (S fuel)) allow_comment lx = Ok (eof, with_peeked lx (Some eof))
  /\ Lexer.next_token (S fuel) allow_comment (with_peeked lx (Some eof)) = Ok (eof, lx)
  /\ Lexer.is_done (S (S fuel)) lx = Ok (true, with_peeked lx (Some eof)).
Proof.
  intros Hsrc Hpeek eof.
  assert (Hnext : forall b, Lexer.next_token (S (S fuel)) b lx = Ok (eof, lx)).
  { intros b. cbn [Lexer.next_token Lexer.read_token]. unfold bind at 1, get at 1. rewrite Hpeek.
    unfold bind at 1. unfold bind at 1, get at 1. unfold bind at 1.
    rewrite (next_char_nil _ Hsrc). unfold Lexer.token. cbn. rewrite andb_false_r.
    reflexivity. }
  split; [apply Hnext|]. split; [|split].
  - rewrite (peek_token_unpeeked _ _ _ Hpeek), Hnext. reflexivity.
  - cbn [Lexer.next_token]. unfold bind at 1, get at 1.
    destruct lx as [src l c pc pk cm]. cbn in *. subst. reflexivity.
  - change (Lexer.is_done (S (S fuel)) lx)
      with (bind (Lexer.peek_token (S (S fuel)) false)
              (fun tk => ret (String.eqb (name tk) "EOF")) lx).
    unfold bind at 1. rewrite (peek_token_unpeeked _ _ _ Hpeek), Hnext. reflexivity.
Qed.

Lemma end_of_input_is_reported_again_witness :
  Lexer.next_token 2 false (Lexer.init []) = Ok (mkToken "EOF" 1 1 PyNone, Lexer.init []).
Proof.
  exact (proj1 (end_of_input_is_reported_again 0 false (Lexer.init []) eq_refl eq_refl)).
Defined.

Lemma keeps_ret {A} (a : A) : keeps_peek (ret a).
Proof. intros lx a' lx' [= _ <-]. reflexivity. Qed.

Lemma keeps_bind {A B} (m : M Lexer.t A) (k : A -> M Lexer.t B) :
  keeps_peek m -> (forall a, keeps_peek (k a)) -> keeps_peek (bind m k).
Proof.
  intros Hm Hk lx b lx' H. unfold bind in H.
  destruct (m lx) as [[a lx1]| |] eqn:E; try discriminate.
  rewrite (Hk a _ _ _ H). exact (Hm _ _ _ E).
Qed.

Lemma keeps_raise {A} cls msg : keeps_peek (@raise Lexer.t A cls msg).
Proof. intros lx a lx' H. discriminate. Qed.

Lemma keeps_error {A} msg : keeps_peek (@Lexer.error A msg).
Proof. intros lx a lx' H. discriminate. Qed.

Lemma keeps_out_of_fuel {A} : keeps_peek (@out_of_fuel Lexer.t A).
Proof. intros lx a lx' H. discriminate. Qed.

Lemma keeps_get : keeps_peek (@get Lexer.t).
Proof. intros lx a lx' [= _ <-]. reflexivity. Qed.

Lemma keeps_token nm v : keeps_peek (Lexer.token nm v).
Proof. intros lx a lx' [= _ <-]. reflexivity. Qed.

Lemma keeps_peek_char n : keeps_peek (Lexer.peek_char n).
Proof. intros lx a lx' [= _ <-]. reflexivity. Qed.

Lemma keeps_next_char : keeps_peek Lexer.next_char.
Proof.
  intros lx a lx' H. unfold Lexer.next_char in H.
  destruct (Lexer.source lx) as [|c rest].
  - injection H as _ <-. reflexivity.
  - destruct (Ascii.eqb c LF); [|destruct (Ascii.eqb c TAB)]; injection H as _ <-; reflexivity.
Qed.

Lemma keeps_set_prev_comment tk : keeps_peek (Lexer.set_prev_comment tk).
Proof. intros lx a lx' [= _ <-]. reflexivity. Qed.

Lemma keeps_lift {A} (r : result A) : keeps_peek (lift r).
Proof. intros lx a lx' H. unfold lift in H. destruct r; [|discriminate..]. injection H as _ <-. reflexivity. Qed.

Ltac keeps :=
  repeat first
    [ assumption
    | match goal with
      | H : forall _, keeps_peek _ |- _ => apply H
      | H : forall _ _, keeps_peek _ |- _ => apply H
      | H : forall _ _ _, keeps_peek _ |- _ => apply H
      | H : forall _ _ _ _, keeps_peek _ |- _ => apply H
      end
    | apply keeps_ret | apply keeps_raise | apply keeps_error | apply keeps_out_of_fuel
    | apply keeps_get | apply keeps_token | apply keeps_peek_char | apply keeps_next_char
    | apply keeps_set_prev_comment | apply keeps_lift
    | apply keeps_bind; [|intros ?]
    | match goal with
      | |- keeps_peek (if ?b then _ else _) => destruct b
      | |- keeps_peek (match ?x with _ => _ end) => destruct x
      end ].

Lemma keeps_expect_char what : keeps_peek (Lexer.expect_char what).
Proof. unfold Lexer.expect_char. keeps. Qed.

Lemma keeps_read_string fuel : forall quote s, keeps_peek (Lexer.read_string fuel quote s).
Proof.
  induction fuel as [|fuel IH]; intros quote s; cbn [Lexer.read_string]; [keeps|].
  pose proof keeps_expect_char. keeps.
Qed.

Lemma keeps_read_identifier_loop fuel :
  forall s nc, keeps_peek (Lexer.read_identifier_loop fuel s nc).
Proof.
  induction fuel as [|fuel IH]; intros s nc; cbn [Lexer.read_identifier_loop]; [keeps|].
  pose proof keeps_expect_char. keeps.
Qed.

Lemma keeps_read_number_loop fuel :
  forall s d nc nnc, keeps_peek (Lexer.read_number_loop fuel s d nc nnc).
Proof.
  induction fuel as [|fuel IH]; intros s d nc nnc; cbn [Lexer.read_number_loop]; [keeps|].
  pose proof keeps_expect_char. keeps.
Qed.

Lemma keeps_line_comment fuel : forall s, keeps_peek (Lexer.line_comment fuel s).
Proof.
  induction fuel as [|fuel IH]; intros s; cbn [Lexer.line_comment]; [keeps|].
  pose proof keeps_expect_char. keeps.
Qed.

Lemma keeps_block_comment fuel : forall s, keeps_peek (Lexer.block_comment fuel s).
Proof.
  induction fuel as [|fuel IH]; intros s; cbn [Lexer.block_comment]; [keeps|].
  pose proof keeps_expect_char. keeps.
Qed.

Lemma keeps_read_token fuel : keeps_peek (Lexer.read_token fuel).
Proof.
  induction fuel as [|fuel IH]; cbn [Lexer.read_token]; [keeps|].
  pose proof keeps_expect_char. pose proof (keeps_read_string fuel).
  pose proof (keeps_line_comment fuel). pose proof (keeps_block_comment fuel).
  assert (forall c, keeps_peek (Lexer.read_identifier fuel c)).
  { intros c. unfold Lexer.read_identifier. pose proof (keeps_read_identifier_loop fuel). keeps. }
  assert (forall c, keeps_peek (Lexer.read_number fuel c)).
  { intros c. unfold Lexer.read_number. pose proof (keeps_read_number_loop fuel). keeps. }
  keeps.
Qed.

Lemma next_token_clears_peek fuel :
  forall allow_comment lx tk lx',
    Lexer.peeked_token lx = None ->
    Lexer.next_token fuel allow_comment lx = Ok (tk, lx') ->
    Lexer.peeked_token lx' = None.
Proof.
  induction fuel as [|fuel IH]; intros allow lx tk lx' Hpeek H; [discriminate|].
  cbn [Lexer.next_token] in H. unfold bind at 1, get at 1 in H. rewrite Hpeek in H.
  unfold bind at 1 in H.
  destruct (Lexer.read_token fuel lx) as [[tk1 lx1]| |] eqn:E; try discriminate.
  pose proof (keeps_read_token fuel _ _ _ E) as Hk. rewrite Hpeek in Hk.
  destruct (negb allow && String.eqb (name tk1) "COMMENT").
  - unfold bind at 1, Lexer.set_prev_comment at 1 in H.
    eapply (IH false); [|exact H]. exact Hk.
  - injection H as _ <-. exact Hk.
Qed.

(** X6.  Peeking does not change what is read: with no token peeked, if
    [next_token] returns [tk] and leaves the lexer in [lx'], then
    [peek_token] returns [tk] and keeps it, peeking again returns [tk] and
    changes nothing, and the [next_token] that follows returns [tk] and
    leaves exactly [lx']. *)
Theorem peek_then_next_is_next (fuel fuel' : nat) (allow_comment allow_comment' : bool)
    (lx lx' : Lexer.t) (tk : Token) :
  Lexer.peeked_token lx = None ->
  Lexer.next_token fuel allow_comment lx = Ok (tk, lx') ->
  Lexer.peek_token fuel allow_comment lx = Ok (tk, with_peeked lx' (Some tk))
  /\ Lexer.peek_token fuel' allow_comment' (with_peeked lx' (Some tk))
       = Ok (tk, with_peeked lx' (Some tk))
  /\ Lexer.next_token (S fuel') allow_comment' (with_peeked lx' (Some tk)) = Ok (tk, lx').
Proof.
  intros Hpeek Hnext.
  pose proof (next_token_clears_peek _ _ _ _ _ Hpeek Hnext) as Hclear.
  split; [|split].
  - rewrite (peek_token_unpeeked _ _ _ Hpeek), Hnext. reflexivity.
  - reflexivity.
  - destruct lx' as [src l c pc pk cm]. cbn in Hclear. subst pk. reflexivity.
Qed.

Lemma peek_then_next_is_next_witness :
  Lexer.next_token 1 false
    (with_peeked (Lexer.mk [] 1 2 (Some "+"%char) None None)
       (Some (mkToken "PLUS" 1 2 (PyStr "+"))))
    = Ok (mkToken "PLUS" 1 2 (PyStr "+"), Lexer.mk [] 1 2 (Some "+"%char) None None).
Proof.
  exact (proj2 (proj2 (peek_then_next_is_next 3 0 false false (Lexer.init ["+"%char])
                         (Lexer.mk [] 1 2 (Some "+"%char) None None)
                         (mkToken "PLUS" 1 2 (PyStr "+")) eq_refl eq_refl))).
Defined.

(** ** Parser: blank sources, keywords, right-associative operators *)

Lemma is_whitespace_cases c :
  is_whitespace c = true -> c = " "%char \/ c = TAB \/ c = LF \/ c = CR.
Proof.
  unfold is_whitespace, char_in. cbn [existsb].
  rewrite !orb_true_iff, !Ascii.eqb_eq. intuition discriminate.
Qed.

Lemma read_token_whitespace fuel lx c rest :
  is_whitespace c = true ->
  Lexer.source lx = c :: rest ->
  Lexer.read_token (S fuel) lx = Lexer.read_token fuel (consumed lx [c] rest).
Proof.
  intros Hws Hsrc. destruct lx as [src l col pc pk cm]. cbn in Hsrc. subst src.
  destruct (is_whitespace_cases c Hws) as [-> | [-> | [-> | ->]]]; reflexivity.
Qed.

Lemma whitespace_then_end (ws : list ascii) :
  forall (fuel : nat) (lx : Lexer.t),
    Forall (fun c => is_whitespace c = true) ws ->
    Lexer.source lx = ws ->
    (length ws < fuel)%nat ->
    Lexer.read_token fuel lx
      = Ok (token_at (consumed lx ws []) "EOF" PyNone, consumed lx ws []).
Proof.
  induction ws as [|c ws IH]; intros fuel lx Hws Hsrc Hfuel.
  - destruct fuel as [|fuel]; [cbn in Hfuel; lia|].
    rewrite (consumed_nil' lx _ Hsrc). cbn [Lexer.read_token].
    unfold bind at 1, get at 1. unfold bind at 1. rewrite (next_char_nil _ Hsrc). reflexivity.
  - destruct fuel as [|fuel]; [cbn in Hfuel; lia|].
    inversion Hws as [|? ? Hc Hws']; subst.
    rewrite (read_token_whitespace fuel lx c ws Hc Hsrc).
    rewrite (IH fuel (consumed lx [c] ws) Hws' eq_refl); [|cbn in Hfuel; lia].
    rewrite consumed_app. reflexivity.
Qed.

(** X11.  A source of spaces, tabs, newlines and carriage returns only (the empty
    source included) parses to the program with no expression; the lexer
    has read all of it and holds the [EOF] token as peeked. *)
Theorem blank_source_is_the_empty_program (fuel : nat) (ws : list ascii) :
  Forall (fun c => is_whitespace c = true) ws ->
  let lx := consumed (Lexer.init ws) ws [] in
  Parser.parse (S fuel) (Lexer.init ws)
    = Ok (ProgramNode [], with_peeked lx (Some (token_at lx "EOF" PyNone))).
Proof.
  intros Hws lx.
  assert (Hnext : Lexer.next_token (S (S (length ws))) false (Lexer.init ws)
                    = Ok (token_at lx "EOF" PyNone, lx)).
  { change (Lexer.next_token (S (S (length ws))) false (Lexer.init ws))
      with (bind (Lexer.read_token (S (length ws)))
              (fun tk => if negb false && String.eqb (name tk) "COMMENT"
                         then bind (Lexer.set_prev_comment tk)
                                (fun _ => Lexer.next_token (S (length ws)) false)
                         else ret tk) (Lexer.init ws)).
    unfold bind at 1.
    rewrite (whitespace_then_end ws (S (length ws)) (Lexer.init ws) Hws eq_refl); [|lia].
    reflexivity. }
  unfold Parser.parse. cbn [Parser.parse_loop]. unfold bind at 1.
  change (Parser.is_done (Lexer.init ws))
    with (bind (Lexer.peek_token (S (S (length ws))) false)
            (fun tk => ret (String.eqb (name tk) "EOF")) (Lexer.init ws)).
  unfold bind at 1.
  rewrite (peek_token_unpeeked _ false (Lexer.init ws) eq_refl), Hnext. reflexivity.
Qed.

Lemma blank_source_is_the_empty_program_witness :
  Parser.parse 1 (Lexer.init [" "%char; LF])
    = Ok (ProgramNode [],
          Lexer.mk [] 2 1 (Some LF) (Some (mkToken "EOF" 2 1 PyNone)) None).
Proof.
  apply (blank_source_is_the_empty_program 0 [" "%char; LF]).
  repeat (constructor; [reflexivity|]). constructor.
Defined.

Lemma keyword_is_a_word (k : string) :
  In k Lexer.keywords ->
  exists c cs,
    list_ascii_of_string k = c :: cs
    /\ k = String c (string_of_list_ascii cs)
    /\ starts_word c = true
    /\ Forall (fun c => is_identifier_char c = true) cs
    /\ str_in k ["true"; "false"] = false
    /\ str_in k Lexer.keywords = true.
Proof.
  unfold Lexer.keywords. cbn [In]. intros H.
  repeat (destruct H as [<-|H];
          [eexists _, _; split; [reflexivity|]; split; [reflexivity|];
           split; [reflexivity|]; split; [|split; reflexivity];
           repeat constructor|]).
  destruct H.
Qed.

(** X12.  A source that begins with a keyword, as a whole word (the next
    character, if any, is neither an underscore nor one [str.isalnum]
    accepts), is not parsed: [__parse_primary] raises [Keyword ... is not
    implemented!], whatever follows the keyword. *)
Theorem keywords_are_not_implemented (fuel : nat) (k : string) (rest : list ascii) :
  In k Lexer.keywords ->
  is_identifier_char (hd NUL rest) = false ->
  Parser.parse (3 + fuel) (Lexer.init (list_ascii_of_string k ++ rest))
    = Raise (PyExc "Exception" ("Keyword '" ++ k ++ "' is not implemented!")).
Proof.
  intros Hk Hstop.
  destruct (keyword_is_a_word k Hk) as (c & cs & Hsrc & Hword & Hc & Hcs & Hb & Hkw).
  rewrite Hsrc. cbn [app].
  set (lx0 := Lexer.init (c :: cs ++ rest)%list).
  set (lx1 := consumed lx0 (c :: cs) rest).
  set (tk := token_at lx1 "KEYWORD" (PyStr k)).
  assert (Hread : Lexer.read_token (S (S (length (cs ++ rest)%list))) lx0 = Ok (tk, lx1)).
  { rewrite (read_token_word (S (length (cs ++ rest)%list)) lx0 c cs rest Hc Hcs Hstop eq_refl);
      [|rewrite length_app; lia].
    unfold word_token. rewrite <- Hword, Hb, Hkw. reflexivity. }
  assert (Hnext : Lexer.next_token (S (S (S (length (cs ++ rest)%list)))) false lx0
                    = Ok (tk, lx1)).
  { change (Lexer.next_token (S (S (S (length (cs ++ rest)%list)))) false lx0)
      with (bind (Lexer.read_token (S (S (length (cs ++ rest)%list))))
              (fun tk => if negb false && String.eqb (name tk) "COMMENT"
                         then bind (Lexer.set_prev_comment tk)
                                (fun _ => Lexer.next_token (S (S (length (cs ++ rest)%list))) false)
                         else ret tk) lx0).
    unfold bind at 1. rewrite Hread. reflexivity. }
  unfold Parser.parse. cbn [Nat.add Parser.parse_loop]. unfold bind at 1.
  change (Parser.is_done lx0)
    with (bind (Lexer.peek_token (S (S (S (length (cs ++ rest)%list)))) false)
            (fun tk => ret (String.eqb (name tk) "EOF")) lx0).
  unfold bind at 1.
  rewrite (peek_token_unpeeked _ false lx0 eq_refl), Hnext.
  cbn [ret name tk token_at String.eqb Ascii.eqb Bool.eqb].
  cbn [Parser.parse_expression]. unfold bind at 1, bind at 1.
  cbn [Parser.parse_primary]. unfold bind at 1.
  rewrite (next_token_peeked (with_peeked lx1 (Some tk)) tk eq_refl).
  reflexivity.
Qed.

Lemma keywords_are_not_implemented_witness :
  Parser.parse 3 (Lexer.init (list_ascii_of_string "while" ++ list_ascii_of_string " (x) 1"))
    = Raise (PyExc "Exception" "Keyword 'while' is not implemented!").
Proof.
  apply (keywords_are_not_implemented 0 "while" (list_ascii_of_string " (x) 1"));
    [cbn; tauto | reflexivity].
Defined.

Lemma right_associative_cases (l : string) :
  Parser.contains Parser.precedence_binary_right l = true -> l = "AND" \/ l = "OR".
Proof.
  unfold Parser.contains, Parser.dict_get, Parser.precedence_binary_right. cbn [List.find fst].
  destruct (String.eqb_spec l "AND") as [->|_]; [tauto|].
  destruct (String.eqb_spec l "OR") as [->|_]; [tauto|]. discriminate.
Qed.

(** X13.  In the inner loop of [__parse_binary_expression], a peeked operator [l]
    of the right-associative table ([AND], [OR]) never extends the right
    operand: the lookup of [op] in that table raises [KeyError] when [op] is
    not in it; when both have the same precedence the recursive call looks
    [l] up in the left-associative table and raises [KeyError]; otherwise
    the loop ends with the operand as it was. *)
Theorem right_associative_operator_never_extends (fuel : nat) (op l : string) (rhs : Node)
    (lx : Lexer.t) :
  Parser.contains Parser.precedence_binary_right l = true ->
  Parser.parse_binary_inner (S fuel) op rhs l lx
    = match Parser.dict_get Parser.precedence_binary_right op with
      | None => Raise (PyExc "KeyError" ("'" ++ op ++ "'"))
      | Some p =>
          if bool_decide (Parser.dict_get Parser.precedence_binary_right l = Some p)
          then Raise (PyExc "KeyError" ("'" ++ l ++ "'"))
          else Ok ((rhs, l), lx)
      end.
Proof.
  intros Hl. cbn [Parser.parse_binary_inner]. unfold bind at 1.
  assert (Hext : forall (pl : Z),
            Parser.dict_get Parser.precedence_binary_right l = Some pl ->
            Parser.contains Parser.precedence_binary_left l = false ->
            Parser.extends l op lx
              = match Parser.dict_get Parser.precedence_binary_right op with
                | Some p => Ok (pl =? p, lx)
                | None => Raise (PyExc "KeyError" ("'" ++ op ++ "'"))
                end).
  { intros pl Hpl Hleft. unfold Parser.extends. rewrite Hleft, Hl.
    unfold bind, ret, Parser.subscript. rewrite Hpl.
    destruct (Parser.dict_get Parser.precedence_binary_right op); reflexivity. }
  assert (Hleft : Parser.contains Parser.precedence_binary_left l = false
                  /\ exists pl, Parser.dict_get Parser.precedence_binary_right l = Some pl
                                /\ Parser.dict_get Parser.precedence_binary_left l = None).
  { destruct (right_associative_cases l Hl) as [-> | ->]; split; try reflexivity;
      eexists; split; reflexivity. }
  destruct Hleft as (Hleft & pl & Hpl & Hnone).
  rewrite (Hext pl Hpl Hleft), Hpl.
  destruct (Parser.dict_get Parser.precedence_binary_right op) as [p|]; [|reflexivity].
  destruct (Z.eqb_spec pl p) as [<-|Hne].
  - rewrite bool_decide_eq_true_2; [|reflexivity].
    unfold bind at 1, Parser.subscript at 1. rewrite Hnone. reflexivity.
  - rewrite bool_decide_eq_false_2; [reflexivity | intros [= E]; exact (Hne E)].
Qed.

Lemma right_associative_operator_never_extends_witness :
  Parser.parse_binary_inner 1 "PLUS" (identifier "b") "AND" (Lexer.init [])
    = Raise (PyExc "KeyError" "'PLUS'").
Proof.
  exact (right_associative_operator_never_extends 0 "PLUS" "AND" (identifier "b")
           (Lexer.init []) eq_refl).
Defined.

(** ** Evaluator: conditions and sequences *)

(** X14.  An [if] whose condition evaluates to anything but a bool value (a
    unit, a list, a function, ...) raises [Condition does not evaluate
    to a bool]; no branch is evaluated. *)
Theorem condition_must_be_a_bool (fuel : nat) (env : ref) (st st1 : Store)
    (condition ifBody : Node) (elseIfs : list (Node * Node)) (elseBody : option Node)
    (r : ref) (a : Atom) :
  Evaluator.evaluate_expression fuel condition env st = Ok (r, st1) ->
  atoms st1 !! r = Some a ->
  is_bool_atom a = false ->
  Evaluator.evaluate_expression (S fuel) (IfNode condition ifBody elseIfs elseBody) env st
    = Raise (PyExc "Exception" "Condition does not evaluate to a bool").
Proof.
  intros Hcond Ha Hnot. rewrite if_unfold. unfold bind at 1. rewrite Hcond.
  unfold bind at 1. rewrite (deref_some _ _ _ Ha).
  unfold is_bool_atom in Hnot. apply andb_false_iff in Hnot.
  destruct Hnot as [-> | ->]; [reflexivity|]. rewrite orb_true_r. reflexivity.
Qed.

(** An [if] on the empty list. *)
Lemma condition_must_be_a_bool_witness :
  Evaluator.evaluate_expression 2 (IfNode (ListNode []) (TupleNode []) [] None) 0%nat root_store
    = Raise (PyExc "Exception" "Condition does not evaluate to a bool").
Proof.
  exact (condition_must_be_a_bool 1 0%nat root_store
           (with_atom root_store (ValueAtom "list" (PyList [])))
           (ListNode []) (TupleNode []) [] None 0%nat (ValueAtom "list" (PyList []))
           eq_refl eq_refl eq_refl).
Defined.

Lemma last_result_snoc {A} (f : A -> M Store ref) (l : list A) (x : A) :
  forall (r : ref) (st : Store),
    Evaluator.last_result f (l ++ [x]) r st
      = match Evaluator.last_result f l r st with
        | Ok (_, st1) => f x st1
        | Raise e => Raise e
        | OutOfFuel => OutOfFuel
        end.
Proof.
  induction l as [|y l IH]; intros r st.
  - cbn [app Evaluator.last_result]. unfold bind, ret.
    destruct (f x st) as [[r' st']| |]; reflexivity.
  - cbn [app Evaluator.last_result]. unfold bind.
    destruct (f y st) as [[r' st']| |]; [apply IH | reflexivity | reflexivity].
Qed.

(** X16.  A sequence of expressions followed by one more yields the value of that
    last expression, evaluated in the store the sequence left; when an
    earlier expression raises, so does the whole and the last expression is
    not evaluated. *)
Theorem sequence_yields_its_last_value (fuel : nat) (es : list Node) (e : Node) (env : ref)
    (st : Store) :
  Evaluator.evaluate_expressions (S fuel) (es ++ [e]) env st
    = match Evaluator.evaluate_expressions (S fuel) es env st with
      | Ok (_, st1) => Evaluator.evaluate_expression fuel e env st1
      | Raise x => Raise x
      | OutOfFuel => OutOfFuel
      end.
Proof.
  cbn [Evaluator.evaluate_expressions]. unfold bind at 1 2, alloc.
  apply (last_result_snoc (fun expression => Evaluator.evaluate_expression fuel expression env)).
Qed.

(** X31.  A program that evaluates at all evaluates to a function or to a
    unit, tuple, list or map value: never to a number, a string or a bool. *)
Theorem program_yields_a_container_or_a_function (fuel : nat) (program : Node) (env : ref)
    (st : Store) (r : ref) (st' : Store) :
  Evaluator.evaluate fuel program env st = Ok (r, st') ->
  exists a, atoms st' !! r = Some a /\ is_container_or_function a = true.
Proof.
  intros H. destruct program; try exact (proj2 (proj2 (evaluation_grows fuel) _ _ _ _ _ H));
    exfalso; cbv [Evaluator.evaluate node_attribute_error node_class attribute_error
                    opaque raise] in H; discriminate H.
Qed.

(** The program of the one expression [[]]. *)
Lemma program_yields_a_container_or_a_function_witness :
  Evaluator.evaluate 2 (ProgramNode [ListNode []]) 0%nat root_store
    = Ok (1%nat, with_atoms root_store [ValueAtom "unit" PyNone; ValueAtom "list" (PyList [])])
  /\ exists a,
       atoms (with_atoms root_store [ValueAtom "unit" PyNone; ValueAtom "list" (PyList [])])
         !! 1%nat = Some a
       /\ is_container_or_function a = true.
Proof.
  split; [reflexivity|].
  exact (program_yields_a_container_or_a_function 2 (ProgramNode [ListNode []]) 0%nat
           root_store 1%nat
           (with_atoms root_store [ValueAtom "unit" PyNone; ValueAtom "list" (PyList [])])
           eq_refl).
Defined.

(** ** Evaluator: calls *)

Lemma call_function_unfold fuel function args names body environment st :
  atoms st !! function = Some (FunctionAtom names body environment) ->
  Evaluator.evaluate_call (S (S fuel)) function args st =
    (funcEnv <- new_environment "<function Function>" environment ;;
     if negb (length args =? length names)%nat then
       Evaluator.exception ("Function 'Function' expects " ++ pretty (length names)
                              ++ " arguments, but got " ++ pretty (length args))
     else
       Evaluator.mapM (fun nv => env_set funcEnv (fst nv) (snd nv)) (combine names args) ;;;
       Evaluator.evaluate_expression fuel body funcEnv) st.
Proof.
  intros H. cbn [Evaluator.evaluate_call]. unfold bind at 1. rewrite (deref_some _ _ _ H).
  reflexivity.
Qed.

(** X17.  Calling a function value with a list of arguments of another
    length than its list of parameters raises [Function 'Function' expects
    n arguments, but got m] before the body is looked at.  The name in the
    message is the atom name [Function], not the name the function is
    bound to. *)
Theorem call_checks_the_number_of_arguments (fuel : nat) (st : Store) (function : ref)
    (args : list ref) (names : list PyVal) (body : Node) (environment : ref) :
  atoms st !! function = Some (FunctionAtom names body environment) ->
  length args <> length names ->
  Evaluator.evaluate_call (S (S fuel)) function args st
    = Raise (PyExc "Exception"
               ("Function 'Function' expects " ++ pretty (length names)
                  ++ " arguments, but got " ++ pretty (length args))).
Proof.
  intros H Hne. rewrite (call_function_unfold _ _ _ _ _ _ _ H).
  unfold bind at 1, new_environment.
  apply Nat.eqb_neq in Hne. rewrite Hne. reflexivity.
Qed.

(** A function of one parameter called with no argument. *)
Lemma call_checks_the_number_of_arguments_witness :
  Evaluator.evaluate_call 2 0%nat [] call_store
    = Raise (PyExc "Exception" "Function 'Function' expects 1 arguments, but got 0").
Proof.
  apply (call_checks_the_number_of_arguments 0 call_store 0%nat []
           [PyStr "x"] (identifier "x") 0%nat); [reflexivity | discriminate].
Defined.

(** ** Evaluator: operators, members and unary operators *)

(** X32.  No assignment is evaluated: whatever its two sides are, the
    evaluation starts by calling [formatted_str] on the left side for a
    debug message, and no node class has that method. *)
Theorem assignment_always_raises (fuel : nat) (env : ref) (st : Store)
    (left_ right_ : Node) (cls : string) :
  node_class left_ = Some cls ->
  Evaluator.evaluate_expression (S fuel) (BinaryNode "ASSIGNMENT" left_ right_) env st
    = Raise (no_attribute cls "formatted_str").
Proof.
  intros Hcls. rewrite assignment_reads_formatted_str.
  unfold node_attribute_error. rewrite Hcls. reflexivity.
Qed.

(** The assignment [x = ()]. *)
Lemma assignment_always_raises_witness :
  Evaluator.evaluate_expression 1 (BinaryNode "ASSIGNMENT" (identifier "x") (TupleNode []))
    0%nat root_store
    = Raise (PyExc "AttributeError" "'AtomicNode' object has no attribute 'formatted_str'").
Proof.
  exact (assignment_always_raises 0 0%nat root_store (identifier "x") (TupleNode [])
           "AtomicNode" eq_refl).
Defined.

(** X33.  No operator is applied: when the left operand of a binary
    expression other than an assignment evaluates, and, for an operator
    other than the member access, the right operand evaluates too, the
    evaluation ends with the [AttributeError] of calling [formatted_str] on
    the value of the left operand. *)
Theorem binary_operators_always_raise (fuel : nat) (op : string) (env : ref)
    (st st1 : Store) (left_ right_ : Node) (lhs : ref) :
  op <> "ASSIGNMENT" ->
  Evaluator.evaluate_expression fuel left_ env st = Ok (lhs, st1) ->
  exists l,
    atoms st1 !! lhs = Some l
    /\ (op = "DOT" ->
        Evaluator.evaluate_expression (S fuel) (BinaryNode op left_ right_) env st
          = Raise (no_attribute (atom_class l) "formatted_str"))
    /\ (forall rhs st2,
          op <> "DOT" ->
          Evaluator.evaluate_expression fuel right_ env st1 = Ok (rhs, st2) ->
          Evaluator.evaluate_expression (S fuel) (BinaryNode op left_ right_) env st
            = Raise (no_attribute (atom_class l) "formatted_str")).
Proof.
  intros Hop Hleft.
  destruct (evaluation_yields _ _ _ _ _ _ Hleft) as (l & Hl & _).
  exists l. split; [exact Hl|].
  apply String.eqb_neq in Hop.
  split.
  - intros ->. cbn [Evaluator.evaluate_expression String.eqb Ascii.eqb Bool.eqb].
    unfold bind at 1. rewrite Hleft. unfold bind at 1. rewrite (deref_some _ _ _ Hl).
    reflexivity.
  - intros rhs st2 Hdot Hright. apply String.eqb_neq in Hdot.
    destruct (proj1 (evaluation_grows fuel) _ _ _ _ _ Hright) as (Hkeeps & r & Hr & _).
    pose proof (keeps_atoms_lookup _ _ _ _ Hkeeps Hl) as Hl2.
    assert (Hnoslice : match right_ with SliceNode _ _ _ => False | _ => True end).
    { destruct right_; try exact I. destruct fuel; discriminate Hright. }
    assert (Hbinary : Evaluator.evaluate_binary_atom_expression fuel op lhs rhs st2
                        = Raise (no_attribute (atom_class l) "formatted_str")).
    { destruct fuel as [|fuel]; [discriminate Hleft|].
      cbn [Evaluator.evaluate_binary_atom_expression].
      unfold bind at 1. rewrite (deref_some _ _ _ Hl2).
      unfold bind at 1. rewrite (deref_some _ _ _ Hr). reflexivity. }
    cbn [Evaluator.evaluate_expression]. rewrite Hop.
    unfold bind at 1. rewrite Hleft. unfold bind at 1. rewrite (deref_some _ _ _ Hl).
    rewrite Hdot.
    destruct right_; try contradiction;
      unfold bind at 1, ret at 1; unfold bind at 1; rewrite Hright;
      unfold bind at 1; rewrite Hbinary; reflexivity.
Qed.

(** The sum [() + []] and the member access [().a]. *)
Lemma binary_operators_always_raise_witness :
  Evaluator.evaluate_expression 2 (BinaryNode "PLUS" (TupleNode []) (ListNode [])) 0%nat
    root_store
    = Raise (PyExc "AttributeError" "'ValueAtom' object has no attribute 'formatted_str'")
  /\ Evaluator.evaluate_expression 2 (BinaryNode "DOT" (TupleNode []) (identifier "a")) 0%nat
       root_store
     = Raise (PyExc "AttributeError" "'ValueAtom' object has no attribute 'formatted_str'").
Proof.
  split.
  - destruct (binary_operators_always_raise 1 "PLUS" 0%nat root_store
                (with_atom root_store (ValueAtom "unit" PyNone)) (TupleNode []) (ListNode [])
                0%nat ltac:(discriminate) eq_refl) as (l & Hl & _ & Hother).
    injection Hl as <-.
    exact (Hother 1%nat
             (with_atoms root_store [ValueAtom "unit" PyNone; ValueAtom "list" (PyList [])])
             ltac:(discriminate) eq_refl).
  - destruct (binary_operators_always_raise 1 "DOT" 0%nat root_store
                (with_atom root_store (ValueAtom "unit" PyNone)) (TupleNode [])
                (identifier "a") 0%nat ltac:(discriminate) eq_refl) as (l & Hl & Hdot & _).
    injection Hl as <-. exact (Hdot eq_refl).
Defined.

Lemma eager_operator_unfold fuel op left_ right_ env :
  op = "AND" \/ op = "OR" ->
  Evaluator.evaluate_expression (S fuel) (BinaryNode op left_ right_) env =
    (lhs <- Evaluator.evaluate_expression fuel left_ env ;;
     l <- deref lhs ;;
     rhs <- Evaluator.evaluate_expression fuel right_ env ;;
     binOpResult <- Evaluator.evaluate_binary_atom_expression fuel op lhs rhs ;;
     match binOpResult with
     | Some v => ret v
     | None => Evaluator.exception ("Unknown binary operator '" ++ op ++ "'")
     end).
Proof. intros [-> | ->]; destruct right_; reflexivity. Qed.

(** X25.  [&&] and [||] evaluate their right operand whatever the left one
    is: when the left operand evaluates and the right one raises, the whole
    expression raises the same error. *)
Theorem logical_operators_do_not_short_circuit (fuel : nat) (op : string) (env : ref)
    (st st1 : Store) (left_ right_ : Node) (r : ref) (a : Atom) (e : exn) :
  op = "AND" \/ op = "OR" ->
  Evaluator.evaluate_expression fuel left_ env st = Ok (r, st1) ->
  atoms st1 !! r = Some a ->
  Evaluator.evaluate_expression fuel right_ env st1 = Raise e ->
  Evaluator.evaluate_expression (S fuel) (BinaryNode op left_ right_) env st = Raise e.
Proof.
  intros Hop Hl Ha Hr.
  rewrite eager_operator_unfold; [|exact Hop].
  unfold bind at 1. rewrite Hl. unfold bind at 1. rewrite (deref_some _ _ _ Ha).
  unfold bind at 1. rewrite Hr. reflexivity.
Qed.

(** [() && x], where the identifier stops at its tag. *)
Lemma logical_operators_do_not_short_circuit_witness :
  Evaluator.evaluate_expression 2
    (BinaryNode "AND" (TupleNode []) (identifier "x")) 0%nat root_store
    = Raise (PyExc "AttributeError" "'AtomicNode' object has no attribute 'type'").
Proof.
  apply (logical_operators_do_not_short_circuit 1 "AND" 0%nat root_store
           (with_atom root_store (ValueAtom "unit" PyNone))
           (TupleNode []) (identifier "x") 0%nat (ValueAtom "unit" PyNone));
    [left; reflexivity | reflexivity | reflexivity | reflexivity].
Defined.

Lemma member_chain_snoc base names n :
  member_chain base (names ++ [n])
    = BinaryNode "DOT" (member_chain base names) (identifier n).
Proof. unfold member_chain. rewrite fold_left_app. reflexivity. Qed.

(** X28.  A member chain [b.n1. ... .nk] nested to the left is taken apart
    as the assignment to a member needs it: its left-most term is [b] and
    its path is [n1 ... nk] in order (with [b] in front when the base is
    asked for).  With at least one member, the test [is_identifier_members]
    does not answer: it reaches the base, an atomic node, and reads the
    attribute [type], which the node does not have. *)
Theorem member_chain_is_taken_apart (b : string) (names : list string) (st : Store) :
  Evaluator.get_left_most_bin_term (member_chain (identifier b) names) "DOT" = identifier b
  /\ Evaluator.flatten_bin_terms (member_chain (identifier b) names) "DOT" false st
       = Ok (map PyStr names, st)
  /\ Evaluator.flatten_bin_terms (member_chain (identifier b) names) "DOT" true st
       = Ok (map PyStr (b :: names), st)
  /\ (names <> [] ->
      Evaluator.is_identifier_members (member_chain (identifier b) names) st
        = Raise (no_attribute "AtomicNode" "type")).
Proof.
  induction names as [|n names IH] using rev_ind.
  - repeat split; try reflexivity. intros H. contradiction.
  - destruct IH as (Hbase & Hpath & Hfull & Hmembers).
    rewrite member_chain_snoc. repeat split.
    + cbn. exact Hbase.
    + cbn [Evaluator.flatten_bin_terms]. cbn [String.eqb Ascii.eqb Bool.eqb].
      unfold bind at 1. rewrite Hpath. rewrite map_app. reflexivity.
    + cbn [Evaluator.flatten_bin_terms]. cbn [String.eqb Ascii.eqb Bool.eqb].
      unfold bind at 1. rewrite Hfull. cbn [map]. rewrite map_app. reflexivity.
    + intros _. cbn [Evaluator.is_identifier_members].
      cbn [String.eqb Ascii.eqb Bool.eqb].
      destruct names as [|n' names'] using rev_ind.
      * reflexivity.
      * rewrite member_chain_snoc. unfold bind at 1.
        cbn [Evaluator.is_identifier ret]. unfold bind at 1.
        rewrite <- member_chain_snoc.
        rewrite Hmembers; [reflexivity|intros H; destruct names'; discriminate H].
Qed.

(** The chain [a.b.c]. *)
Lemma member_chain_is_taken_apart_witness :
  Evaluator.is_identifier_members (member_chain (identifier "a") ["b"; "c"]) root_store
    = Raise (PyExc "AttributeError" "'AtomicNode' object has no attribute 'type'").
Proof.
  apply (member_chain_is_taken_apart "a" ["b"; "c"] root_store). discriminate.
Defined.

(** X29.  Writing into a list or tuple at an index [i] within [-n <= i < n]
    replaces the element at position [i], counted from the end when [i] is
    negative, in the object itself; reading the same index gives the value
    written back and the other positions are as before.  An index outside
    that range raises the host's [IndexError]. *)
Theorem list_element_assignment_round_trip (st : Store) (obj rhs : ref) (type : string)
    (items : list ref) (i : Z) :
  holds st obj type (PyList items) ->
  let n := Z.of_nat (length items) in
  (- n <= i < n ->
   exists k st',
     py_index (length items) i = Some k
     /\ Evaluator.set_nested_value obj [PyInt i] rhs st = Ok (obj, st')
     /\ holds st' obj type (PyList (<[k := rhs]> items))
     /\ Evaluator.get_item obj (PyInt i) st' = Ok (rhs, st')
     /\ (forall j, j <> k -> <[k := rhs]> items !! j = items !! j))
  /\ (i >= n \/ i < - n ->
      Evaluator.set_nested_value obj [PyInt i] rhs st
        = Raise (PyExc "IndexError" "list assignment index out of range")).
Proof.
  intros Hobj n. split.
  - intros Hi.
    assert (Hk : exists k, py_index (length items) i = Some k /\ (k < length items)%nat).
    { unfold py_index. fold n. destruct (Z.leb_spec 0 i).
      - replace (i <? n) with true by lia. cbn. eexists. split; [reflexivity|]. unfold n in *. lia.
      - cbn. replace (i <? 0) with true by lia. replace (- n <=? i) with true by lia. cbn.
        eexists. split; [reflexivity|]. unfold n in *. lia. }
    destruct Hk as (k & Hk & Hlt).
    exists k, (mkStore (<[obj := ValueAtom type (PyList (<[k := rhs]> items))]> (atoms st))
                 (envs st)).
    assert (Hnew : holds (mkStore (<[obj := ValueAtom type (PyList (<[k := rhs]> items))]> (atoms st))
                            (envs st)) obj type (PyList (<[k := rhs]> items))).
    { unfold holds. cbn [atoms]. apply list_lookup_insert_eq.
      apply lookup_lt_Some in Hobj. exact Hobj. }
    split; [exact Hk|]. split; [|split; [exact Hnew|split]].
    + cbn [Evaluator.set_nested_value]. unfold bind at 1, Evaluator.set_item.
      unfold bind at 1. rewrite (deref_holds _ _ _ _ Hobj). cbn [as_int]. rewrite Hk.
      reflexivity.
    + unfold Evaluator.get_item. unfold bind at 1. rewrite (deref_holds _ _ _ _ Hnew).
      unfold lift, py_list_item. cbn [as_int]. rewrite length_insert, Hk.
      rewrite list_lookup_insert_eq; [reflexivity | exact Hlt].
    + intros j Hj. apply list_lookup_insert_ne. congruence.
  - intros Hi.
    cbn [Evaluator.set_nested_value]. unfold bind at 1, Evaluator.set_item.
    unfold bind at 1. rewrite (deref_holds _ _ _ _ Hobj). cbn [as_int].
    unfold py_index. fold n.
    destruct (Z.leb_spec 0 i), (Z.ltb_spec i n), (Z.ltb_spec i 0), (Z.leb_spec (- n) i);
      cbn [andb]; try reflexivity; lia.
Qed.

Lemma list_element_assignment_round_trip_witness :
  exists k st',
    py_index 2 (-1) = Some k
    /\ Evaluator.set_nested_value 1%nat [PyInt (-1)] 2%nat assignment_store = Ok (1%nat, st')
    /\ holds st' 1%nat "list" (PyList (<[k := 2%nat]> [0%nat; 0%nat]))
    /\ Evaluator.get_item 1%nat (PyInt (-1)) st' = Ok (2%nat, st')
    /\ (forall j, j <> k -> <[k := 2%nat]> [0%nat; 0%nat] !! j = [0%nat; 0%nat] !! j).
Proof.
  apply (proj1 (list_element_assignment_round_trip assignment_store 1%nat 2%nat "list"
                  [0%nat; 0%nat] (-1) eq_refl)).
  cbn. lia.
Defined.

Lemma unary_unfold fuel op rhs env :
  Evaluator.evaluate_expression (S fuel) (UnaryNode op rhs) env =
    (rhs <- Evaluator.evaluate_expression fuel rhs env ;;
     r <- deref rhs ;;
     if String.eqb op "MINUS" then
       Evaluator.compatible_type r ["number"] ;;;
       v <- lift (py_neg (payload r)) ;;
       alloc (ValueAtom "number" v)
     else if String.eqb op "NOT" then
       Evaluator.compatible_type r ["bool"] ;;;
       alloc (ValueAtom "bool" (PyBool (negb (py_truth (payload r)))))
     else Evaluator.exception ("Unkown unary operator '" ++ op ++ "'")).
Proof. reflexivity. Qed.

(** X30.  The unary operators check their operand and do not coerce it:
    minus on a value that is not a number, and [not] on a value that is not
    a bool, raise [Incompatible types], naming the type of the value and
    the list of the types accepted; on a function they raise [Value is not
    an atomic value]. *)
Theorem unary_operators_check_their_operand (fuel : nat) (env : ref) (st st1 : Store)
    (operand : Node) (r : ref) :
  Evaluator.evaluate_expression fuel operand env st = Ok (r, st1) ->
  (forall type v, holds st1 r type v -> type <> "number" ->
     Evaluator.evaluate_expression (S fuel) (UnaryNode "MINUS" operand) env st
       = Raise (PyExc "Exception" ("Incompatible types: " ++ type ++ " and ['number']")))
  /\ (forall type v, holds st1 r type v -> type <> "bool" ->
        Evaluator.evaluate_expression (S fuel) (UnaryNode "NOT" operand) env st
          = Raise (PyExc "Exception" ("Incompatible types: " ++ type ++ " and ['bool']")))
  /\ (forall a op, atoms st1 !! r = Some a -> is_value_atom a = false ->
        op = "MINUS" \/ op = "NOT" ->
        Evaluator.evaluate_expression (S fuel) (UnaryNode op operand) env st
          = Raise (PyExc "Exception" "Value is not an atomic value")).
Proof.
  intros Hrun. repeat split.
  - intros type v Hr Hne. rewrite unary_unfold. unfold bind at 1. rewrite Hrun.
    unfold bind at 1. rewrite (deref_holds _ _ _ _ Hr).
    cbn [String.eqb Ascii.eqb Bool.eqb]. unfold bind at 1.
    unfold Evaluator.compatible_type. cbn [is_value_atom negb atom_type str_in existsb].
    apply String.eqb_neq in Hne. rewrite Hne. reflexivity.
  - intros type v Hr Hne. rewrite unary_unfold. unfold bind at 1. rewrite Hrun.
    unfold bind at 1. rewrite (deref_holds _ _ _ _ Hr).
    cbn [String.eqb Ascii.eqb Bool.eqb]. unfold bind at 1.
    unfold Evaluator.compatible_type. cbn [is_value_atom negb atom_type str_in existsb].
    apply String.eqb_neq in Hne. rewrite Hne. reflexivity.
  - intros a op Ha Hvalue Hop. rewrite unary_unfold. unfold bind at 1. rewrite Hrun.
    unfold bind at 1. rewrite (deref_some _ _ _ Ha).
    destruct Hop as [-> | ->]; cbn [String.eqb Ascii.eqb Bool.eqb]; unfold bind at 1;
      unfold Evaluator.compatible_type; rewrite Hvalue; reflexivity.
Qed.

(** Minus on the unit: [-()]. *)
Lemma unary_operators_check_their_operand_witness :
  Evaluator.evaluate_expression 2 (UnaryNode "MINUS" (TupleNode [])) 0%nat root_store
    = Raise (PyExc "Exception" "Incompatible types: unit and ['number']").
Proof.
  destruct (unary_operators_check_their_operand 1 0%nat root_store
              (with_atom root_store (ValueAtom "unit" PyNone)) (TupleNode []) 0%nat eq_refl)
    as (Hminus & _ & _).
  apply (Hminus "unit" PyNone); [reflexivity | discriminate].
Defined.
